(** * google_takeout_parser: the JSON record extractors

    A shallow embedding of [google_takeout_parser/parse_json.py] and of the
    event classes of [google_takeout_parser/models.py], with the properties
    of the extraction layer stated and proved over it.

    Layout:
    - Python values as [json.loads] produces them, exceptions, and the
      handful of dynamic operations the extractors use ([in], [d[k]],
      [d.get], iteration, truthiness, [float], [/]);
    - binary64 arithmetic through the Standard Library's [SpecFloat];
    - [datetime] as far as the extractors need it;
    - the event classes of models.py, one module per class;
    - the extractors of parse_json.py as generators run to exhaustion;
    - the properties C1 to C10 of the specification;
    - further properties of the code, X1 to X29. *)

From Stdlib Require Import List ZArith String Ascii Bool Lia.
From Stdlib Require Import Permutation Sorted.
From Stdlib Require Import Floats.SpecFloat.
Import ListNotations.

Open Scope string_scope.
Open Scope Z_scope.

(** ** Python values *)

(** A Python [float] is an IEEE 754 binary64 number. *)
Definition float := spec_float.

Definition prec : Z := 53.
Definition emax : Z := 1024.

(** What [json.loads] returns: [None], [bool], [int], [float], [str],
    [list] and [dict]. A dict is kept as the list of its items in insertion
    order; [json.loads] leaves each key once, and a lookup takes the first
    item with that key. *)
#[local] Unset Elimination Schemes.
Inductive Json : Type :=
| JNull
| JBool (b : bool)
| JInt (n : Z)
| JFloat (f : float)
| JStr (s : string)
| JList (l : list Json)
| JDict (d : list (string * Json)).
#[local] Set Elimination Schemes.

Fixpoint lookup {A : Type} (k : string) (d : list (string * A)) : option A :=
  match d with
  | [] => None
  | (k', v) :: d' => if String.eqb k k' then Some v else lookup k d'
  end.

Definition keys {A : Type} (d : list (string * A)) : list string := map fst d.

(** An f-string is kept as its pieces: the literal text and the values
    interpolated into it, not rendered. *)
Inductive part : Type :=
| Lit (s : string)
| Val (j : Json)
| DictKeys (ks : list string).

(** The subclasses of [Exception] the extractors can meet. *)
Inductive exn : Type :=
| RuntimeError (msg : list part)
| KeyError (k : string)
| TypeError
| AttributeError
| ValueError
| OverflowError
| OSError
| UnboundLocalError (name : string).

(** A computation that returns or raises. *)
Inductive res (A : Type) : Type :=
| Ok (a : A)
| Raise (e : exn).
Arguments Ok {A} a.
Arguments Raise {A} e.

Definition bind {A B : Type} (c : res A) (k : A -> res B) : res B :=
  match c with
  | Ok a => k a
  | Raise e => Raise e
  end.

Declare Scope res_scope.
Delimit Scope res_scope with res.
Notation "x <- c ;; k" := (bind c (fun x => k))
  (at level 61, c at next level, right associativity) : res_scope.
Open Scope res_scope.

(** A list comprehension whose element expression may raise: the first
    exception ends it. *)
Fixpoint mapM {A B : Type} (f : A -> res B) (l : list A) : res (list B) :=
  match l with
  | [] => Ok []
  | a :: l' => b <- f a ;; bs <- mapM f l' ;; Ok (b :: bs)
  end.

(** *** Dynamic operations *)

Definition is_substring (k s : string) : bool :=
  match String.index 0 k s with
  | Some _ => true
  | None => false
  end.

Definition is_str (k : string) (j : Json) : bool :=
  match j with
  | JStr s => String.eqb k s
  | _ => false
  end.

(** [k in v] for a string [k]: key membership in a dict, element membership
    in a list, substring test in a string, [TypeError] for the rest. *)
Definition py_contains (k : string) (v : Json) : res bool :=
  match v with
  | JDict d => Ok (match lookup k d with Some _ => true | None => false end)
  | JList l => Ok (existsb (is_str k) l)
  | JStr s => Ok (is_substring k s)
  | _ => Raise TypeError
  end.

(** [v[k]] for a string [k]. *)
Definition py_getitem (v : Json) (k : string) : res Json :=
  match v with
  | JDict d => match lookup k d with
               | Some x => Ok x
               | None => Raise (KeyError k)
               end
  | _ => Raise TypeError
  end.

(** [v.get(k, default)]; only a dict has the method. *)
Definition py_get (v : Json) (k : string) (default : Json) : res Json :=
  match v with
  | JDict d => match lookup k d with
               | Some x => Ok x
               | None => Ok default
               end
  | _ => Raise AttributeError
  end.

(** A [str] is held as the UTF-8 bytes of its text. A byte [10xxxxxx]
    continues the character the bytes before it began. *)
Definition is_continuation (c : ascii) : bool :=
  let n := nat_of_ascii c in (128 <=? n)%nat && (n <? 192)%nat.

(** The characters of a string, each with the bytes that encode it. *)
Fixpoint code_points (s : string) : list string :=
  match s with
  | EmptyString => []
  | String c s' =>
      let rest := code_points s' in
      match s' with
      | String c' _ =>
          if is_continuation c' then
            match rest with
            | h :: t => String c h :: t
            | [] => [String c EmptyString]
            end
          else String c EmptyString :: rest
      | EmptyString => String c EmptyString :: rest
      end
  end.

(** What [for x in s] ranges over for a [str]: its characters, each a
    string of length one. *)
Definition chars (s : string) : list Json := map JStr (code_points s).

(** What [for x in v] ranges over. *)
Definition py_iter (v : Json) : res (list Json) :=
  match v with
  | JList l => Ok l
  | JDict d => Ok (map JStr (keys d))
  | JStr s => Ok (chars s)
  | _ => Raise TypeError
  end.

Definition isinstance_list (v : Json) : bool :=
  match v with JList _ => true | _ => false end.

Definition isinstance_dict (v : Json) : bool :=
  match v with JDict _ => true | _ => false end.

Definition is_None (v : Json) : bool :=
  match v with JNull => true | _ => false end.

(** Truthiness, as [if v:] tests it. *)
Definition py_truthy (v : Json) : bool :=
  match v with
  | JNull => false
  | JBool b => b
  | JInt n => negb (n =? 0)
  | JFloat (S754_zero _) => false
  | JFloat _ => true
  | JStr EmptyString => false
  | JStr _ => true
  | JList [] => false
  | JList _ => true
  | JDict [] => false
  | JDict _ => true
  end.

(** [sorted(l)] for a list of [str]: the stable sort by [<]. Python orders
    strings by their code points, which is the order of their UTF-8 bytes. *)
Fixpoint insert_sorted (s : string) (l : list string) : list string :=
  match l with
  | [] => [s]
  | x :: l' => if String.leb s x then s :: l else x :: insert_sorted s l'
  end.

Definition sorted (l : list string) : list string :=
  fold_right insert_sorted [] l.

(** An item [str.join] accepts. *)
Definition str_item (j : Json) : res string :=
  match j with
  | JStr s => Ok s
  | _ => Raise TypeError
  end.

(** ** Binary64 arithmetic *)

Definition fdiv : float -> float -> float := SFdiv prec emax.
Definition fmul : float -> float -> float := SFmul prec emax.

(** The float nearest to an integer (ties to even); infinite when the
    integer is too large. *)
Definition Z2F (n : Z) : float := binary_normalize prec emax n 0 false.

(** The literal [1e7]. *)
Definition f1e7 : float := Z2F 10000000.

(** The literal [1e6]. *)
Definition f1e6 : float := Z2F 1000000.

(** [float(n)] for an int [n]: "int too large to convert to float". *)
Definition float_of_int (n : Z) : res float :=
  match Z2F n with
  | S754_infinity _ => Raise OverflowError
  | f => Ok f
  end.

(** An integer as an unrounded float, for the operations that round their
    result only. *)
Definition Z2SF (n : Z) : float :=
  match n with
  | Z0 => S754_zero false
  | Zpos p => S754_finite false p 0
  | Zneg p => S754_finite true p 0
  end.

(** [a / b] for two ints: the correctly rounded quotient. The divisors of
    the source are the non-zero constants [10**6]. *)
Definition int_truediv (a b : Z) : res float :=
  match SFdiv prec emax (Z2SF a) (Z2SF b) with
  | S754_infinity _ => Raise OverflowError
  | f => Ok f
  end.

(** The integral part of a finite float, towards zero. *)
Definition float_trunc (f : float) : option Z :=
  match f with
  | S754_zero _ => Some 0
  | S754_finite s m e => Some (cond_Zopp s (Z.shiftl (Zpos m) e))
  | _ => None
  end.

(** [int(f)]. *)
Definition int_of_float (f : float) : res Z :=
  match f with
  | S754_nan => Raise ValueError
  | S754_infinity _ => Raise OverflowError
  | _ => match float_trunc f with Some z => Ok z | None => Raise ValueError end
  end.

(** The fractional part of a finite float, with its sign; it is exact. *)
Definition float_frac (f : float) : float :=
  match f with
  | S754_finite s m e =>
      if e <? 0
      then binary_normalize prec emax
             (cond_Zopp s (Z.land (Zpos m) (Z.ones (- e)))) e s
      else S754_zero s
  | _ => f
  end.

(** The nearest integer to a finite float, ties to even: [round(f)]. *)
Definition float_round_half_even (f : float) : option Z :=
  match f with
  | S754_zero _ => Some 0
  | S754_finite s m e =>
      if e <? 0 then
        let q := Z.shiftr (Zpos m) (- e) in
        let r := Z.land (Zpos m) (Z.ones (- e)) in
        let half := Z.shiftl 1 (- e - 1) in
        let q' := match r ?= half with
                  | Lt => q
                  | Gt => q + 1
                  | Eq => if Z.even q then q else q + 1
                  end in
        Some (cond_Zopp s q')
      else Some (cond_Zopp s (Z.shiftl (Zpos m) e))
  | _ => None
  end.

(** [round(f)]. *)
Definition py_round (f : float) : res Z :=
  match f with
  | S754_nan => Raise ValueError
  | S754_infinity _ => Raise OverflowError
  | _ => match float_round_half_even f with
         | Some z => Ok z
         | None => Raise ValueError
         end
  end.

(** ** datetime *)

(** The fields of a [datetime]. Without [tzinfo] this is the naive value
    [datetime.utcfromtimestamp] returns. *)
Record naive_datetime : Type := mk_naive {
  year : Z; month : Z; day : Z;
  hour : Z; minute : Z; second : Z; microsecond : Z
}.

(** A timezone-aware [datetime] whose [tzinfo] is [timezone.utc]: what every
    event stores. *)
Inductive datetime : Type :=
| aware_utc (d : naive_datetime).

(** [naive.replace(tzinfo=timezone.utc)]. *)
Definition replace_tzinfo_utc (d : naive_datetime) : datetime := aware_utc d.

Definition is_leap (y : Z) : bool :=
  (y mod 4 =? 0) && (negb (y mod 100 =? 0) || (y mod 400 =? 0)).

Definition days_before_year (y : Z) : Z :=
  let y' := y - 1 in y' * 365 + y' / 4 - y' / 100 + y' / 400.

Definition days_in_month (y m : Z) : Z :=
  if m =? 2 then (if is_leap y then 29 else 28)
  else if (m =? 4) || (m =? 6) || (m =? 9) || (m =? 11) then 30
  else 31.

Definition days_before_month (y m : Z) : Z :=
  nth (Z.to_nat m) [0; 0; 31; 59; 90; 120; 151; 181; 212; 243; 273; 304; 334] 0
  + (if (2 <? m) && is_leap y then 1 else 0).

(** The proleptic Gregorian ordinal, day 1 being 0001-01-01. *)
Definition ymd_to_ord (y m d : Z) : Z :=
  days_before_year y + days_before_month y m + d.

Definition DI400Y : Z := 146097.
Definition DI100Y : Z := 36524.
Definition DI4Y : Z := 1461.

(** The inverse of [ymd_to_ord]. *)
Definition ord_to_ymd (ordinal : Z) : Z * Z * Z :=
  let o := ordinal - 1 in
  let n400 := o / DI400Y in
  let n := o mod DI400Y in
  let n100 := n / DI100Y in
  let n := n mod DI100Y in
  let n4 := n / DI4Y in
  let n := n mod DI4Y in
  let n1 := n / 365 in
  let n := n mod 365 in
  let y := n400 * 400 + 1 + n100 * 100 + n4 * 4 + n1 in
  if (n1 =? 4) || (n100 =? 4) then (y - 1, 12, 31)
  else
    let leapyear := (n1 =? 3) && (negb (n4 =? 24) || (n100 =? 3)) in
    let m := Z.shiftr (n + 50) 5 in
    let preceding :=
      days_before_month 1 m + (if (2 <? m) && leapyear then 1 else 0) in
    if n <? preceding
    then (y, m - 1, n - (preceding - days_in_month y (m - 1)) + 1)
    else (y, m, n - preceding + 1).

(** The ordinal of 1970-01-01. *)
Definition epoch_ord : Z := 719163.

(** Microseconds from the epoch to a UTC datetime: the [timedelta]
    [self - _EPOCH] in microseconds. *)
Definition epoch_us (dt : datetime) : Z :=
  let '(aware_utc d) := dt in
  (((ymd_to_ord (year d) (month d) (day d) - epoch_ord) * 86400
    + hour d * 3600 + minute d * 60 + second d) * 1000000)
  + microsecond d.

(** [dt.timestamp()] of an aware datetime:
    [(self - _EPOCH).total_seconds()], an int divided by [10**6]. *)
Definition timestamp (dt : datetime) : res float :=
  int_truediv (epoch_us dt) 1000000.

(** [int(dt.timestamp())], the truncated timestamp of the keys. *)
Definition int_timestamp (dt : datetime) : res Z :=
  t <- timestamp dt ;; int_of_float t.

(** The UTC fields of the instant [sec] seconds and [us] microseconds after
    the epoch, as [gmtime] gives them. [gmtime] fails, and [OSError] is
    raised, when the year less 1900 does not fit its 32-bit [tm_year];
    [datetime] then refuses a year outside 1..9999 with [ValueError]. *)
Definition gmtime_us (sec us : Z) : res naive_datetime :=
  let days := sec / 86400 in
  let rem := sec mod 86400 in
  let '(y, m, d) := ord_to_ymd (days + epoch_ord) in
  if negb ((- 2 ^ 31 <=? y - 1900) && (y - 1900 <? 2 ^ 31))
  then Raise OSError
  else if (1 <=? y) && (y <=? 9999)
  then Ok (mk_naive y m d (rem / 3600) (rem mod 3600 / 60) (rem mod 60) us)
  else Raise ValueError.

(** The conversion of the whole seconds to the platform's 64-bit [time_t],
    which comes before [gmtime]: "timestamp out of range for platform
    time_t". The bounds are compared as doubles, so [2^63] itself passes. *)
Definition timet_gmtime_us (sec us : Z) : res naive_datetime :=
  if (- 2 ^ 63 <=? sec) && (sec <=? 2 ^ 63) then gmtime_us sec us
  else Raise OverflowError.

(** [datetime.utcfromtimestamp(t)] for a float [t]: the integral part gives
    the second, the fractional part times [1e6], rounded half to even, the
    microsecond, with a carry into the second. The range checks are those
    of a platform with a 64-bit [time_t] and a 32-bit [int]. *)
Definition utcfromtimestamp (t : float) : res naive_datetime :=
  match t with
  | S754_nan => Raise ValueError
  | S754_infinity _ => Raise OverflowError
  | _ =>
      match float_trunc t, float_round_half_even (fmul (float_frac t) f1e6) with
      | Some intpart, Some us =>
          if 1000000 <=? us then timet_gmtime_us (intpart + 1) (us - 1000000)
          else if us <? 0 then timet_gmtime_us (intpart - 1) (us + 1000000)
          else timet_gmtime_us intpart us
      | _, _ => Raise ValueError
      end
  end.

(** ** The collaborators outside this layer

    [time_utils.parse_json_utc_date], [time_utils.parse_datetime_millis] and
    [http_allowlist.convert_to_https_opt] are imported by parse_json.py and
    defined elsewhere; [float] applied to a [str] is the interpreter's
    parser. The extractors are embedded over any implementation of them. *)
Class Collaborators : Type := {
  parse_json_utc_date : Json -> res datetime;
  parse_datetime_millis : Json -> res datetime;
  convert_to_https_opt : Json -> res Json;
  float_of_str : string -> res float
}.

(** [float(v)]. *)
Definition py_float `{Collaborators} (v : Json) : res float :=
  match v with
  | JInt n => float_of_int n
  | JBool b => Ok (Z2F (if b then 1 else 0))
  | JFloat f => Ok f
  | JStr s => float_of_str s
  | _ => Raise TypeError
  end.

(** [v / d] for a non-zero float constant [d]. *)
Definition py_div_float (v : Json) (d : float) : res float :=
  match v with
  | JInt n => f <- float_of_int n ;; Ok (fdiv f d)
  | JBool b => Ok (fdiv (Z2F (if b then 1 else 0)) d)
  | JFloat f => Ok (fdiv f d)
  | _ => Raise TypeError
  end.

(** [v / d] for a non-zero int constant [d]. *)
Definition py_div_int (v : Json) (d : Z) : res float :=
  match v with
  | JInt n => int_truediv n d
  | JBool b => int_truediv (if b then 1 else 0) d
  | JFloat f => Ok (fdiv f (Z2F d))
  | _ => Raise TypeError
  end.

(** The E7 decode, [float(v) / 1e7]. *)
Definition e7_of_float `{Collaborators} (v : Json) : res float :=
  f <- py_float v ;; Ok (fdiv f f1e7).

(** ** models.py: the event classes

    A field whose value is taken from the document as it is ([d["k"]],
    [d.get("k")]) holds a [Json]; a dataclass checks no field type. A field
    the code computes holds the computed type. *)

Module Subtitles.
Record t : Type := mk { name : Json; url : Json }.
End Subtitles.

Module LocationInfo.
Record t : Type := mk {
  name : Json; url : Json; source : Json; sourceUrl : Json
}.
End LocationInfo.

Module Activity.
Record t : Type := mk {
  header : Json;
  title : Json;
  time : datetime;
  description : Json;
  titleUrl : Json;
  subtitles : list Subtitles.t;
  details : list Json;
  locationInfos : list LocationInfo.t;
  products : Json
}.

Definition dt (a : t) : datetime := time a.

(** [return self.header, self.title, int(self.time.timestamp())] *)
Definition key (a : t) : res (Json * Json * Z) :=
  ts <- int_timestamp (time a) ;; Ok (header a, title a, ts).

(** [return ", ".join(sorted(self.products))]. [sorted] compares the items
    with [<] and [join] takes [str] items only: a value that cannot be
    iterated, or that holds an item that is not a [str], ends in
    [TypeError], from the one or from the other. *)
Definition products_desc (a : t) : res string :=
  items <- py_iter (products a) ;;
  strs <- mapM str_item items ;;
  Ok (String.concat ", " (sorted strs)).
End Activity.

(** No extractor of parse_json.py builds a [YoutubeComment]; its fields have
    the types the class annotates. *)
Module YoutubeComment.
Record t : Type := mk { content : string; dt : datetime; urls : list string }.

Definition key (c : t) : res Z := int_timestamp (dt c).
End YoutubeComment.

Module LikedYoutubeVideo.
(** [link] is ["https://youtube.com/watch?v={}".format(videoId)], kept as
    its pieces. *)
Record t : Type := mk {
  title : Json; desc : Json; link : list part; dt : datetime
}.

Definition key (v : t) : res Z := int_timestamp (dt v).
End LikedYoutubeVideo.

Module PlayStoreAppInstall.
Record t : Type := mk { title : Json; dt : datetime; device_name : Json }.

Definition key (a : t) : res Z := int_timestamp (dt a).
End PlayStoreAppInstall.

Module Location.
Record t : Type := mk {
  lat : float; lng : float; accuracy : option float; dt : datetime
}.

Definition key (l : t) : res (float * float * option float * Z) :=
  ts <- int_timestamp (dt l) ;; Ok (lat l, lng l, accuracy l, ts).
End Location.

Module CandidateLocation.
Record t : Type := mk {
  lat : float;
  lng : float;
  address : Json;
  name : Json;
  placeId : Json;
  locationConfidence : Json;
  sourceInfoDeviceTag : Json
}.

Definition from_dict (data : Json) : res t :=
  address <- py_get data "address" JNull ;;
  name <- py_get data "name" JNull ;;
  placeId <- py_get data "placeId" JNull ;;
  locationConfidence <- py_get data "locationConfidence" JNull ;;
  latE7 <- py_getitem data "latitudeE7" ;;
  lat <- py_div_float latE7 f1e7 ;;
  lngE7 <- py_getitem data "longitudeE7" ;;
  lng <- py_div_float lngE7 f1e7 ;;
  sourceInfo <- py_get data "sourceInfo" (JDict []) ;;
  deviceTag <- py_get sourceInfo "deviceTag" JNull ;;
  Ok (mk lat lng address name placeId locationConfidence deviceTag).
End CandidateLocation.

Module PlaceVisit.
Record t : Type := mk {
  lat : float;
  lng : float;
  centerLat : option float;
  centerLng : option float;
  address : Json;
  name : Json;
  locationConfidence : Json;
  placeId : Json;
  startTime : datetime;
  endTime : datetime;
  sourceInfoDeviceTag : Json;
  otherCandidateLocations : list CandidateLocation.t;
  placeConfidence : Json;
  placeVisitType : Json;
  visitConfidence : Json;
  editConfirmationStatus : Json;
  placeVisitImportance : Json
}.

Definition dt (v : t) : datetime := startTime v.

(** [return self.lat, self.lng, int(self.startTime.timestamp()),
    self.visitConfidence] *)
Definition key (v : t) : res (float * float * Z * Json) :=
  ts <- int_timestamp (startTime v) ;; Ok (lat v, lng v, ts, visitConfidence v).
End PlaceVisit.

Module ActivitySegmentActivity.
Record t : Type := mk { activityType : Json; probability : Json }.

Definition from_dict (data : Json) : res t :=
  activityType <- py_getitem data "activityType" ;;
  probability <- py_getitem data "probability" ;;
  Ok (mk activityType probability).
End ActivitySegmentActivity.

Module Waypoint.
Record t : Type := mk { lat : float; lng : float }.

Definition from_dict (data : Json) : res t :=
  latE7 <- py_getitem data "latE7" ;;
  lat <- py_div_float latE7 f1e7 ;;
  lngE7 <- py_getitem data "lngE7" ;;
  lng <- py_div_float lngE7 f1e7 ;;
  Ok (mk lat lng).
End Waypoint.

(** [s.rstrip("s")]. *)
Fixpoint rstrip_s (s : string) : string :=
  match s with
  | EmptyString => EmptyString
  | String c s' =>
      match rstrip_s s' with
      | EmptyString => if Ascii.eqb c "s" then EmptyString
                       else String c EmptyString
      | r => String c r
      end
  end.

Module RoadSegment.
Record t : Type := mk { placeId : Json; duration : option float }.

Definition from_dict `{Collaborators} (data : Json) : res t :=
  placeId <- py_getitem data "placeId" ;;
  has <- py_contains "duration" data ;;
  duration <-
    (if has : bool then
       d <- py_getitem data "duration" ;;
       match d with
       | JStr s => f <- float_of_str (rstrip_s s) ;; Ok (Some f)
       | _ => Raise AttributeError
       end
     else Ok None) ;;
  Ok (mk placeId duration).
End RoadSegment.

Module WaypointPath.
Record t : Type := mk {
  waypoints : list Waypoint.t;
  source : Json;
  roadSegment : option (list RoadSegment.t);
  distanceMeters : Json;
  travelMode : Json;
  confidence : Json
}.

Definition from_dict `{Collaborators} (data : Json) : res t :=
  rs <- py_get data "roadSegment" JNull ;;
  roadSegment <-
    (if py_truthy rs then
       l <- py_getitem data "roadSegment" ;;
       ds <- py_iter l ;;
       r <- mapM RoadSegment.from_dict ds ;; Ok (Some r)
     else Ok None) ;;
  w <- py_getitem data "waypoints" ;;
  ws <- py_iter w ;;
  waypoints <- mapM Waypoint.from_dict ws ;;
  source <- py_getitem data "source" ;;
  distanceMeters <- py_get data "distanceMeters" JNull ;;
  travelMode <- py_get data "travelMode" JNull ;;
  confidence <- py_get data "confidence" JNull ;;
  Ok (mk waypoints source roadSegment distanceMeters travelMode confidence).
End WaypointPath.

Module RawPathPoint.
Record t : Type := mk {
  lat : float; lng : float; accuracyMeters : Json; timestamp : datetime
}.

Definition from_dict `{Collaborators} (data : Json) : res t :=
  latE7 <- py_getitem data "latE7" ;;
  lat <- py_div_float latE7 f1e7 ;;
  lngE7 <- py_getitem data "lngE7" ;;
  lng <- py_div_float lngE7 f1e7 ;;
  accuracyMeters <- py_getitem data "accuracyMeters" ;;
  ts <- py_getitem data "timestamp" ;;
  timestamp <- parse_json_utc_date ts ;;
  Ok (mk lat lng accuracyMeters timestamp).
End RawPathPoint.

Module SimplifiedRawPath.
Record t : Type := mk { points : list RawPathPoint.t }.

Definition from_list `{Collaborators} (data : Json) : res t :=
  ds <- py_iter data ;;
  ps <- mapM RawPathPoint.from_dict ds ;;
  Ok (mk ps).
End SimplifiedRawPath.

Module ActivitySegment.
Record t : Type := mk {
  startTime : datetime;
  endTime : datetime;
  distance : Json;
  confidence : Json;
  activities : list ActivitySegmentActivity.t;
  simplifiedRawPath : SimplifiedRawPath.t;
  waypointPath : option WaypointPath.t;
  activityType : Json;
  startLat : option float;
  startLng : option float;
  endLat : option float;
  endLng : option float;
  editConfirmationStatus : Json
}.

Definition dt (a : t) : datetime := startTime a.

(** [return (int(self.startTime.timestamp()),
    int(self.endTime.timestamp()), self.distance)] *)
Definition key (a : t) : res (Z * Z * Json) :=
  s <- int_timestamp (startTime a) ;;
  e <- int_timestamp (endTime a) ;;
  Ok (s, e, distance a).
End ActivitySegment.

Module ChromeHistory.
Record t : Type := mk { title : Json; url : Json; dt : datetime }.

(** [return self.url, int(self.dt.timestamp())] *)
Definition key (h : t) : res (Json * Z) :=
  ts <- int_timestamp (dt h) ;; Ok (url h, ts).
End ChromeHistory.

(** ** Generators

    [Res[T]] is [Union[T, Exception]]: an element of the outcome sequence is
    an event or an exception yielded as a value. *)
Inductive Res (T : Type) : Type :=
| Event (x : T)
| Error (e : exn).
Arguments Event {T} x.
Arguments Error {T} e.

(** A generator run to exhaustion: what it yielded, in order, and the
    exception that ended it when one propagated out of its body. *)
Record gen (T : Type) : Type := mk_gen {
  yielded : list (Res T);
  raised : option exn
}.
Arguments mk_gen {T} yielded raised.
Arguments yielded {T} g.
Arguments raised {T} g.

Definition done {T : Type} : gen T := mk_gen [] None.

Definition abort {T : Type} (e : exn) : gen T := mk_gen [] (Some e).

Definition yield {T : Type} (x : Res T) : gen T := mk_gen [x] None.

(** One statement after another; nothing runs after an exception. *)
Definition gen_seq {T : Type} (g1 g2 : gen T) : gen T :=
  match raised g1 with
  | Some _ => g1
  | None => mk_gen (yielded g1 ++ yielded g2)%list (raised g2)
  end.

(** An expression evaluated outside any [try]. *)
Definition gen_bind {A T : Type} (c : res A) (k : A -> gen T) : gen T :=
  match c with
  | Ok a => k a
  | Raise e => abort e
  end.

Declare Scope gen_scope.
Delimit Scope gen_scope with gen.
Notation "g1 >> g2" := (gen_seq g1 g2)
  (at level 62, right associativity) : gen_scope.
Notation "x <~ c ;; k" := (gen_bind c (fun x => k))
  (at level 61, c at next level, right associativity) : gen_scope.

Fixpoint gen_loop {A T : Type} (body : A -> gen T) (l : list A) : gen T :=
  match l with
  | [] => done
  | a :: l' => (body a >> gen_loop body l')%gen
  end.

(** [try: yield <c>] / [except Exception as e: yield e]. *)
Definition try_yield {T : Type} (c : res T) : gen T :=
  match c with
  | Ok x => yield (Event x)
  | Raise e => yield (Error e)
  end.

(** A loop that folds a list with a body that may raise. *)
Fixpoint foldM {A B : Type} (f : B -> A -> res B) (l : list A) (acc : B)
  : res B :=
  match l with
  | [] => Ok acc
  | a :: l' => acc' <- f acc a ;; foldM f l' acc'
  end.

(** [Union[PlaceVisit, ActivitySegment]]. *)
Inductive SemanticEvent : Type :=
| EvPlaceVisit (v : PlaceVisit.t)
| EvActivitySegment (a : ActivitySegment.t).

(** A local variable of the generator: not yet assigned, or holding a
    value. [result] holds [None] or an event. *)
Inductive local (A : Type) : Type :=
| Unbound
| Bound (v : A).
Arguments Unbound {A}.
Arguments Bound {A} v.

(** ** parse_json.py *)

Section Extractors.
Context `{Collaborators}.

(** The path [p] of the document, as it appears in the messages. *)
Definition Path := string.

(** *** _parse_json_activity *)

(** The body of [for s in blob.get("subtitles", [])]. *)
Definition subtitles_step (subtitles : list Subtitles.t) (s : Json)
  : res (list Subtitles.t) :=
  if negb (isinstance_dict s) then Ok subtitles
  else
    has <- py_contains "name" s ;;
    if negb has then Ok subtitles
    else
      name <- py_getitem s "name" ;;
      url <- py_get s "url" JNull ;;
      Ok (subtitles ++ [Subtitles.mk name url])%list.

Definition detail_of (d : Json) : res (list Json) :=
  if isinstance_dict d then
    has <- py_contains "name" d ;;
    if has : bool then n <- py_getitem d "name" ;; Ok [n] else Ok []
  else Ok [].

Definition location_info_of (locinfo : Json) : res LocationInfo.t :=
  name <- py_get locinfo "name" JNull ;;
  u <- py_get locinfo "url" JNull ;;
  url <- convert_to_https_opt u ;;
  source <- py_get locinfo "source" JNull ;;
  su <- py_get locinfo "sourceUrl" JNull ;;
  sourceUrl <- convert_to_https_opt su ;;
  Ok (LocationInfo.mk name url source sourceUrl).

(** The [try] body of the loop, up to the [Activity] it yields. *)
Definition activity_of_blob (blob : Json) : res Activity.t :=
  subs <- py_get blob "subtitles" (JList []) ;;
  ss <- py_iter subs ;;
  subtitles <- foldM subtitles_step ss [] ;;
  old_format <- py_contains "snippet" blob ;;
  unwrapped <-
    (if old_format : bool then
       inner <- py_getitem blob "snippet" ;;
       time_str <- py_getitem inner "publishedAt" ;;
       Ok (inner, JStr "YouTube", time_str)
     else
       header <- py_getitem blob "header" ;;
       time_str <- py_getitem blob "time" ;;
       Ok (blob, header, time_str)) ;;
  let '(blob, header, time_str) := unwrapped in
  title <- py_getitem blob "title" ;;
  tu <- py_get blob "titleUrl" JNull ;;
  titleUrl <- convert_to_https_opt tu ;;
  description <- py_get blob "description" JNull ;;
  time <- parse_json_utc_date time_str ;;
  ds <- py_get blob "details" (JList []) ;;
  dl <- py_iter ds ;;
  details <- mapM detail_of dl ;;
  ls <- py_get blob "locationInfos" (JList []) ;;
  ll <- py_iter ls ;;
  locationInfos <- mapM location_info_of ll ;;
  products <- py_get blob "products" (JList []) ;;
  Ok (Activity.mk header title time description titleUrl subtitles
        (List.concat details) locationInfos products).

Definition not_a_list (kind : string) (p : Path) : exn :=
  RuntimeError [Lit kind; Lit ": Top level item in '"; Lit p;
                Lit "' isn't a list"].

Definition _parse_json_activity (p : Path) (json_data : Json)
  : gen Activity.t :=
  ((if negb (isinstance_list json_data)
    then yield (Error (not_a_list "Activity" p)) else done) >>
   (blobs <~ py_iter json_data ;;
    gen_loop (fun blob => try_yield (activity_of_blob blob)) blobs))%gen.

(** *** _parse_likes *)

Definition like_of (jlike : Json) : res LikedYoutubeVideo.t :=
  s1 <- py_getitem jlike "snippet" ;;
  title <- py_getitem s1 "title" ;;
  s2 <- py_getitem jlike "snippet" ;;
  desc <- py_getitem s2 "description" ;;
  cd <- py_getitem jlike "contentDetails" ;;
  videoId <- py_getitem cd "videoId" ;;
  s3 <- py_getitem jlike "snippet" ;;
  publishedAt <- py_getitem s3 "publishedAt" ;;
  dt <- parse_json_utc_date publishedAt ;;
  Ok (LikedYoutubeVideo.mk title desc
        [Lit "https://youtube.com/watch?v="; Val videoId] dt).

Definition _parse_likes (p : Path) (json_data : Json)
  : gen LikedYoutubeVideo.t :=
  ((if negb (isinstance_list json_data)
    then yield (Error (not_a_list "Likes" p)) else done) >>
   (jlikes <~ py_iter json_data ;;
    gen_loop (fun jlike => try_yield (like_of jlike)) jlikes))%gen.

(** *** _parse_app_installs *)

Definition app_install_of (japp : Json) : res PlayStoreAppInstall.t :=
  i1 <- py_getitem japp "install" ;;
  doc <- py_getitem i1 "doc" ;;
  title <- py_getitem doc "title" ;;
  i2 <- py_getitem japp "install" ;;
  da <- py_getitem i2 "deviceAttribute" ;;
  device_name <- py_get da "deviceDisplayName" JNull ;;
  i3 <- py_getitem japp "install" ;;
  fit <- py_getitem i3 "firstInstallationTime" ;;
  dt <- parse_json_utc_date fit ;;
  Ok (PlayStoreAppInstall.mk title dt device_name).

Definition _parse_app_installs (p : Path) (json_data : Json)
  : gen PlayStoreAppInstall.t :=
  ((if negb (isinstance_list json_data)
    then yield (Error (not_a_list "App installs" p)) else done) >>
   (japps <~ py_iter json_data ;;
    gen_loop (fun japp => try_yield (app_install_of japp)) japps))%gen.

(** *** _parse_timestamp_key *)

Definition _parse_timestamp_key (d : Json) (key : string) : res datetime :=
  has <- py_contains (key ++ "Ms") d ;;
  if has : bool then
    v <- py_getitem d (key ++ "Ms") ;; parse_datetime_millis v
  else
    v <- py_getitem d key ;; parse_json_utc_date v.

(** *** _parse_location_history *)

Definition no_key (kind key : string) (p : Path) : exn :=
  RuntimeError [Lit kind; Lit ": no '"; Lit key; Lit "' key in '"; Lit p;
                Lit "'"].

(** The [try] body of the loop; [accuracy] was read before the [try]. *)
Definition location_of (loc accuracy : Json) : res Location.t :=
  lngE7 <- py_getitem loc "longitudeE7" ;;
  lng <- e7_of_float lngE7 ;;
  latE7 <- py_getitem loc "latitudeE7" ;;
  lat <- e7_of_float latE7 ;;
  dt <- _parse_timestamp_key loc "timestamp" ;;
  acc <- (if is_None accuracy then Ok None
          else f <- py_float accuracy ;; Ok (Some f)) ;;
  Ok (Location.mk lat lng acc dt).

Definition _parse_location_history (p : Path) (json_data : Json)
  : gen Location.t :=
  (has <~ py_contains "locations" json_data ;;
   (if negb has then yield (Error (no_key "Locations" "locations" p))
    else done) >>
   (l <~ py_get json_data "locations" (JList []) ;;
    locs <~ py_iter l ;;
    gen_loop (fun loc =>
                accuracy <~ py_get loc "accuracy" JNull ;;
                try_yield (location_of loc accuracy)) locs))%gen.

(** *** _check_required_keys *)

Definition _sem_required_keys : list string := ["location"; "duration"].

Definition _sem_required_location_keys : list string :=
  ["placeId"; "latitudeE7"; "longitudeE7"].

Definition _sem_activity_segment_required_keys : list string :=
  ["duration"; "activities"].

Fixpoint _check_required_keys (d : Json) (required_keys : list string)
  : res (option string) :=
  match required_keys with
  | [] => Ok None
  | k :: ks =>
      has <- py_contains k d ;;
      if negb has then Ok (Some k) else _check_required_keys d ks
  end.

(** [except Exception as e:] a [KeyError] is raised again as a
    [RuntimeError] that names the key and the record, any other exception as
    it is. [str(e)] of a [KeyError] is the key in quotes. *)
Definition rewrap_KeyError {A : Type} (kind : string) (record : Json)
  (c : res A) : res A :=
  match c with
  | Raise (KeyError k) =>
      Raise (RuntimeError [Lit kind; Lit ": "; Val record; Lit ", no key '";
                           Lit ("'" ++ k ++ "'"); Lit "' in "; Val record])
  | _ => c
  end.

Definition missing_required (kind k : string) (record : Json) : exn :=
  RuntimeError [Lit kind; Lit ": no '"; Lit k; Lit "' key in '"; Val record;
                Lit "'"].

(** *** _parse_place_visit *)

(** The [try] body. [None] is the early [return None]; the [logger.debug]
    call before it leaves no trace in the result. *)
Definition place_visit_body (placeVisit : Json) : res (option PlaceVisit.t) :=
  location_json <- py_getitem placeVisit "location" ;;
  missing_location_key <-
    _check_required_keys location_json _sem_required_location_keys ;;
  match missing_location_key with
  | Some _ => Ok None
  | None =>
      location <- CandidateLocation.from_dict location_json ;;
      duration <- py_getitem placeVisit "duration" ;;
      ocl <- py_get placeVisit "otherCandidateLocations" (JList []) ;;
      pvs <- py_iter ocl ;;
      otherCandidateLocations <- mapM CandidateLocation.from_dict pvs ;;
      placeConfidence <- py_get placeVisit "placeConfidence" JNull ;;
      placeVisitImportance <- py_get placeVisit "placeVisitImportance" JNull ;;
      placeVisitType <- py_get placeVisit "placeVisitType" JNull ;;
      visitConfidence <- py_get placeVisit "visitConfidence" JNull ;;
      editConfirmationStatus <-
        py_get placeVisit "editConfirmationStatus" JNull ;;
      hasLat <- py_contains "centerLatE7" placeVisit ;;
      centerLat <-
        (if hasLat : bool then
           v <- py_getitem placeVisit "centerLatE7" ;;
           f <- e7_of_float v ;; Ok (Some f)
         else Ok None) ;;
      hasLng <- py_contains "centerLngE7" placeVisit ;;
      centerLng <-
        (if hasLng : bool then
           v <- py_getitem placeVisit "centerLngE7" ;;
           f <- e7_of_float v ;; Ok (Some f)
         else Ok None) ;;
      startTime <- _parse_timestamp_key duration "startTimestamp" ;;
      endTime <- _parse_timestamp_key duration "endTimestamp" ;;
      Ok (Some (PlaceVisit.mk
                  (CandidateLocation.lat location)
                  (CandidateLocation.lng location)
                  centerLat centerLng
                  (CandidateLocation.address location)
                  (CandidateLocation.name location)
                  (CandidateLocation.locationConfidence location)
                  (CandidateLocation.placeId location)
                  startTime endTime
                  (CandidateLocation.sourceInfoDeviceTag location)
                  otherCandidateLocations
                  placeConfidence placeVisitType visitConfidence
                  editConfirmationStatus placeVisitImportance))
  end.

Definition _parse_place_visit (placeVisit : Json)
  : res (option PlaceVisit.t) :=
  missing_key <- _check_required_keys placeVisit _sem_required_keys ;;
  match missing_key with
  | Some k => Raise (missing_required "PlaceVisit" k placeVisit)
  | None => rewrap_KeyError "PlaceVisit" placeVisit
              (place_visit_body placeVisit)
  end.

(** *** _parse_activity_segment *)

(** The [try] body. *)
Definition activity_segment_body (activitySegment : Json)
  : res (option ActivitySegment.t) :=
  sl <- py_getitem activitySegment "startLocation" ;;
  startLatLng <-
    (if py_truthy sl then
       start <- CandidateLocation.from_dict sl ;;
       Ok (Some (CandidateLocation.lat start),
           Some (CandidateLocation.lng start))
     else Ok (None, None)) ;;
  el <- py_getitem activitySegment "endLocation" ;;
  endLatLng <-
    (if py_truthy el then
       end_ <- CandidateLocation.from_dict el ;;
       Ok (Some (CandidateLocation.lat end_),
           Some (CandidateLocation.lng end_))
     else Ok (None, None)) ;;
  d1 <- py_getitem activitySegment "duration" ;;
  st <- py_getitem d1 "startTimestamp" ;;
  startTime <- parse_json_utc_date st ;;
  d2 <- py_getitem activitySegment "duration" ;;
  et <- py_getitem d2 "endTimestamp" ;;
  endTime <- parse_json_utc_date et ;;
  distance <- py_get activitySegment "distance" JNull ;;
  activityType <- py_get activitySegment "activityType" JNull ;;
  confidence <- py_get activitySegment "confidence" JNull ;;
  acts <- py_get activitySegment "activities" (JList []) ;;
  al <- py_iter acts ;;
  activities <- mapM ActivitySegmentActivity.from_dict al ;;
  hasWp <- py_contains "waypointPath" activitySegment ;;
  waypointPath <-
    (if hasWp : bool then
       w <- py_getitem activitySegment "waypointPath" ;;
       wp <- WaypointPath.from_dict w ;; Ok (Some wp)
     else Ok None) ;;
  srp <- py_get activitySegment "simplifiedRawPath" (JDict []) ;;
  pts <- py_get srp "points" (JList []) ;;
  simplifiedRawPath <- SimplifiedRawPath.from_list pts ;;
  editConfirmationStatus <-
    py_get activitySegment "editConfirmationStatus" JNull ;;
  Ok (Some (ActivitySegment.mk startTime endTime distance confidence
              activities simplifiedRawPath waypointPath activityType
              (fst startLatLng) (snd startLatLng)
              (fst endLatLng) (snd endLatLng)
              editConfirmationStatus)).

Definition _parse_activity_segment (activitySegment : Json)
  : res (option ActivitySegment.t) :=
  missing_key <-
    _check_required_keys activitySegment _sem_activity_segment_required_keys ;;
  match missing_key with
  | Some k => Raise (missing_required "ActivitySegment" k activitySegment)
  | None => rewrap_KeyError "ActivitySegment" activitySegment
              (activity_segment_body activitySegment)
  end.

(** *** _parse_semantic_location_history *)

Definition result_var := local (option SemanticEvent).

(** [if result is not None: yield result], where the [try] encloses it. *)
Definition yield_result (result : result_var) : list (Res SemanticEvent) :=
  match result with
  | Unbound => [Error (UnboundLocalError "result")]
  | Bound None => []
  | Bound (Some ev) => [Event ev]
  end.

Definition unknown_timeline_object (ks : list string) (p : Path) : exn :=
  RuntimeError [Lit "Unknown timeline object with keys "; DictKeys ks;
                Lit " in path '"; Lit p; Lit "'"].

(** One turn of the loop over [timelineObjects]: what it yields and the
    value of [result] it leaves. The [try] encloses the whole body, so no
    exception leaves it; an exception in a sub-builder leaves [result] as
    it was. *)
Definition timeline_body (p : Path) (result : result_var)
  (timelineObject : Json) : list (Res SemanticEvent) * result_var :=
  match py_contains "placeVisit" timelineObject with
  | Raise e => ([Error e], result)
  | Ok true =>
      match (pv <- py_getitem timelineObject "placeVisit" ;;
             _parse_place_visit pv) with
      | Raise e => ([Error e], result)
      | Ok r =>
          let result := Bound (option_map EvPlaceVisit r) in
          (yield_result result, result)
      end
  | Ok false =>
      match py_contains "activitySegment" timelineObject with
      | Raise e => ([Error e], result)
      | Ok true =>
          match (a <- py_getitem timelineObject "activitySegment" ;;
                 _parse_activity_segment a) with
          | Raise e => ([Error e], result)
          | Ok r =>
              let result := Bound (option_map EvActivitySegment r) in
              (yield_result result, result)
          end
      | Ok false =>
          match timelineObject with
          | JDict d =>
              (Error (unknown_timeline_object (keys d) p)
                 :: yield_result result, result)
          | _ => ([Error AttributeError], result)
          end
      end
  end.

Fixpoint timeline_loop (p : Path) (result : result_var)
  (timelineObjects : list Json) : list (Res SemanticEvent) * result_var :=
  match timelineObjects with
  | [] => ([], result)
  | o :: os =>
      let '(out, result') := timeline_body p result o in
      let '(outs, result'') := timeline_loop p result' os in
      ((out ++ outs)%list, result'')
  end.

Definition not_a_dict (p : Path) : exn :=
  RuntimeError [Lit "Locations: Top level item in '"; Lit p;
                Lit "' isn't a dict"].

Definition _parse_semantic_location_history (p : Path) (json_data : Json)
  : gen SemanticEvent :=
  ((if negb (isinstance_dict json_data)
    then yield (Error (not_a_dict p)) else done) >>
   (has <~ py_contains "timelineObjects" json_data ;;
    (if negb has
     then yield (Error (no_key "Locations" "timelineObjects" p))
     else done) >>
    (tl <~ py_get json_data "timelineObjects" (JList []) ;;
     timelineObjects <~ py_iter tl ;;
     mk_gen (fst (timeline_loop p Unbound timelineObjects)) None)))%gen.

(** *** _parse_chrome_history *)

(** The [try] body of the loop. *)
Definition chrome_history_of (item : Json) : res ChromeHistory.t :=
  time_usec <- py_getitem item "time_usec" ;;
  t <- py_div_int time_usec (10 ^ 6) ;;
  time_naive <- utcfromtimestamp t ;;
  title <- py_getitem item "title" ;;
  url <- py_getitem item "url" ;;
  Ok (ChromeHistory.mk title url (replace_tzinfo_utc time_naive)).

Definition _parse_chrome_history (p : Path) (json_data : Json)
  : gen ChromeHistory.t :=
  (has <~ py_contains "Browser History" json_data ;;
   (if negb has
    then yield (Error (no_key "Chrome/BrowserHistory" "Browser History" p))
    else done) >>
   (l <~ py_get json_data "Browser History" (JList []) ;;
    items <~ py_iter l ;;
    gen_loop (fun item => try_yield (chrome_history_of item)) items))%gen.

End Extractors.

(** ** The collaborators, from their description

    One implementation of [Collaborators], used to run the extractors on
    concrete documents. The properties below that quantify over
    [Collaborators] do not depend on it. *)

Definition digit_of (c : ascii) : option Z :=
  let n := Z.of_nat (nat_of_ascii c) in
  if (48 <=? n) && (n <=? 57) then Some (n - 48) else None.

Fixpoint digits_acc (s : string) (acc : Z) : option Z :=
  match s with
  | EmptyString => Some acc
  | String c s' =>
      match digit_of c with
      | Some d => digits_acc s' (acc * 10 + d)
      | None => None
      end
  end.

(** A non-empty run of decimal digits. *)
Definition decimal (s : string) : option Z :=
  match s with
  | EmptyString => None
  | _ => digits_acc s 0
  end.

Definition char_at (s : string) (i : nat) (c : ascii) : bool :=
  match String.get i s with
  | Some c' => Ascii.eqb c c'
  | None => false
  end.

(** The fraction digits of a second, padded or cut to six. *)
Definition micro_of_fraction (digits : string) : option Z :=
  match decimal digits with
  | Some _ => decimal (String.substring 0 6 (digits ++ "000000"))
  | None => None
  end.

(** What follows the seconds: ["Z"], or a point, digits and ["Z"]. *)
Definition iso_tail (rest : string) : option Z :=
  if String.eqb rest "Z" then Some 0
  else if char_at rest 0 "." && char_at rest (String.length rest - 1) "Z"
  then micro_of_fraction (String.substring 1 (String.length rest - 2) rest)
  else None.

Definition iso_fields (s : string) : option naive_datetime :=
  match decimal (String.substring 0 4 s), decimal (String.substring 5 2 s),
        decimal (String.substring 8 2 s), decimal (String.substring 11 2 s),
        decimal (String.substring 14 2 s), decimal (String.substring 17 2 s),
        iso_tail (String.substring 19 (String.length s - 19) s) with
  | Some y, Some mo, Some d, Some h, Some mi, Some sec, Some us =>
      if char_at s 4 "-" && char_at s 7 "-" && char_at s 10 "T"
         && char_at s 13 ":" && char_at s 16 ":"
         && (1 <=? y) && (1 <=? mo) && (mo <=? 12)
         && (1 <=? d) && (d <=? days_in_month y mo)
         && (h <? 24) && (mi <? 60) && (sec <? 60)
      then Some (mk_naive y mo d h mi sec us)
      else None
  | _, _, _, _, _, _, _ => None
  end.

(** Modelled from the spec: [time_utils.parse_json_utc_date], which
    parse_json.py and models.py import. "An ISO-8601 string with 'Z' suffix
    and optional fractional seconds of any digit count (pad/truncate to
    microsecond precision), interpreted as UTC." *)
Definition spec_parse_json_utc_date (v : Json) : res datetime :=
  match v with
  | JStr s => match iso_fields s with
              | Some d => Ok (aware_utc d)
              | None => Raise ValueError
              end
  | _ => Raise TypeError
  end.

(** The literals [int] and [float] read, for ASCII text: white space
    around, a sign, and runs of digits that may hold single underscores
    between digits. *)
Definition is_space (c : ascii) : bool :=
  let n := nat_of_ascii c in
  ((9 <=? n) && (n <=? 13) || (n =? 32))%nat.

Fixpoint lstrip (s : string) : string :=
  match s with
  | EmptyString => EmptyString
  | String c s' => if is_space c then lstrip s' else s
  end.

Fixpoint rstrip (s : string) : string :=
  match s with
  | EmptyString => EmptyString
  | String c s' =>
      match rstrip s' with
      | EmptyString => if is_space c then EmptyString
                       else String c EmptyString
      | r => String c r
      end
  end.

Definition strip (s : string) : string := lstrip (rstrip s).

Definition split_sign (s : string) : bool * string :=
  match s with
  | String "-" s' => (true, s')
  | String "+" s' => (false, s')
  | _ => (false, s)
  end.

Definition is_digit (c : ascii) : bool :=
  match digit_of c with
  | Some _ => true
  | None => false
  end.

(** The digits of a run, without its underscores; an underscore stands
    between two digits. The empty run has no digits. *)
Fixpoint digit_run (after_digit : bool) (s : string) : option string :=
  match s with
  | EmptyString => Some EmptyString
  | String c s' =>
      if Ascii.eqb c "_" then
        match s' with
        | String c' _ =>
            if after_digit && is_digit c' then digit_run false s' else None
        | EmptyString => None
        end
      else if is_digit c then option_map (String c) (digit_run true s')
      else None
  end.

(** The value of a run of digits and the number of its digits. *)
Definition digits_value (s : string) : option (Z * nat) :=
  match digit_run false s with
  | Some ds =>
      match digits_acc ds 0 with
      | Some n => Some (n, String.length ds)
      | None => None
      end
  | None => None
  end.

(** A sign and a run of at least one digit. *)
Definition signed_digits (s : string) : option Z :=
  let '(neg, body) := split_sign s in
  match digits_value body with
  | Some (n, S _) => Some (if neg : bool then - n else n)
  | _ => None
  end.

(** [int(v)] for a number or a numeric string. *)
Definition int_of_json (v : Json) : res Z :=
  match v with
  | JInt n => Ok n
  | JBool b => Ok (if b then 1 else 0)
  | JFloat f => int_of_float f
  | JStr s => match signed_digits (strip s) with
              | Some n => Ok n
              | None => Raise ValueError
              end
  | _ => Raise TypeError
  end.

(** Modelled from the spec: [time_utils.parse_datetime_millis]. "A
    millisecond epoch value, given either as a numeric or a numeric-string,
    converted as epoch_ms / 1000 seconds, UTC"; the scenario of the coarse
    location record gives the instant at the whole second. *)
Definition spec_parse_datetime_millis (v : Json) : res datetime :=
  ms <- int_of_json v ;;
  t <- int_truediv ms 1000 ;;
  sec <- int_of_float t ;;
  d <- gmtime_us sec 0 ;;
  Ok (aware_utc d).

(** Modelled from the spec: [http_allowlist.convert_to_https_opt]. "Rewrites
    an http:// URL to https:// ... Absent/null input passes through
    unchanged." *)
Definition spec_convert_to_https_opt (v : Json) : res Json :=
  match v with
  | JNull => Ok JNull
  | JStr s =>
      if String.prefix "http://" s
      then Ok (JStr ("https://" ++ String.substring 7 (String.length s - 7) s))
      else Ok (JStr s)
  | _ => Raise AttributeError
  end.

(** The text before the first [c] and, when there is one, the text after
    it. *)
Definition split_at (c : string) (s : string) : string * option string :=
  match String.index 0 c s with
  | Some i => (String.substring 0 i s,
               Some (String.substring (S i) (String.length s - S i) s))
  | None => (s, None)
  end.

Definition lower_ascii (c : ascii) : ascii :=
  let n := nat_of_ascii c in
  if ((65 <=? n) && (n <=? 90))%nat then ascii_of_nat (n + 32) else c.

Fixpoint lower (s : string) : string :=
  match s with
  | EmptyString => EmptyString
  | String c s' => String (lower_ascii c) (lower s')
  end.

(** The float nearest to [n * 10^e], [n >= 0], with the sign [neg]: one
    correctly rounded division, infinite when too large. *)
Definition decimal_float (neg : bool) (n e : Z) : float :=
  let '(num, den) := if 0 <=? e then (n * 10 ^ e, 1) else (n, 10 ^ (- e)) in
  match num with
  | Zpos p => SFdiv prec emax (S754_finite neg p 0) (Z2SF den)
  | _ => S754_zero neg
  end.

(** [float(s)] for ASCII text: white space around, a sign, then [inf],
    [infinity] or [nan] in any case, or a decimal with an optional point
    and an optional exponent, its runs of digits as above. An overflow
    gives an infinity, not an error. *)
Definition spec_float_of_str (s : string) : res float :=
  let '(neg, body) := split_sign (strip s) in
  let low := lower body in
  if String.eqb low "inf" || String.eqb low "infinity"
  then Ok (S754_infinity neg)
  else if String.eqb low "nan" then Ok S754_nan
  else
    let '(mantissa, exponent) := split_at "e" low in
    let '(ip, fp) := split_at "." mantissa in
    match digits_value ip,
          digits_value (match fp with Some f => f | None => EmptyString end),
          match exponent with
          | Some e => signed_digits e
          | None => Some 0
          end with
    | Some (i, ni), Some (f, nf), Some e =>
        if (ni + nf =? 0)%nat then Raise ValueError
        else Ok (decimal_float neg (i * 10 ^ Z.of_nat nf + f)
                   (e - Z.of_nat nf))
    | _, _, _ => Raise ValueError
    end.

#[local] Instance spec_collaborators : Collaborators := {|
  parse_json_utc_date := spec_parse_json_utc_date;
  parse_datetime_millis := spec_parse_datetime_millis;
  convert_to_https_opt := spec_convert_to_https_opt;
  float_of_str := spec_float_of_str
|}.

(** ** The notions the properties are stated with *)

(** A timeline object the loop dispatches to a sub-builder: one of the two
    membership tests does not answer [False]. *)
Definition dispatched (timelineObject : Json) : Prop :=
  py_contains "placeVisit" timelineObject <> Ok false
  \/ py_contains "activitySegment" timelineObject <> Ok false.

(** The error of the sub-builder for a key its [try] body did not find. *)
Definition missing_location_key (key : string) (activitySegment : Json)
  : exn :=
  RuntimeError [Lit "ActivitySegment"; Lit ": "; Val activitySegment;
                Lit ", no key '"; Lit ("'" ++ key ++ "'"); Lit "' in ";
                Val activitySegment].

(** The position of the fraction [r / D], [0 <= r < D], against a half. *)
Definition loc_of (r D : Z) : location :=
  if r =? 0 then loc_Exact else loc_Inexact (2 * r ?= D).

(** The integer nearest to [N / D], ties to even. *)
Definition RNE (N D : Z) : Z :=
  round_nearest_even (N / D) (loc_of (N mod D) D).

(** A shift record stands for the fraction [N / D]: its mantissa is the
    quotient and its two bits place the remainder. *)
Definition stands_for (mrs : shr_record) (N D : Z) : Prop :=
  shr_m mrs = N / D /\ loc_of_shr_record mrs = loc_of (N mod D) D.

(** The ordinal [o] converts to a date of a year [datetime] accepts, and
    the date back to [o]. *)
Definition ord_roundtrip_ok (o : Z) : bool :=
  let '(y, m, d) := ord_to_ymd o in
  (1 <=? y) && (y <=? 9999) && (ymd_to_ord y m d =? o).

(** [ok] holds of the [n] integers from [o] on. *)
Fixpoint all_from (n : nat) (o : Z) (ok : Z -> bool) : bool :=
  match n with
  | O => true
  | S n' => ok o && all_from n' (o + 1) ok
  end.

(** A datetime from the epoch up to [2^33] seconds after it
    (2242-03-16T12:56:32Z), where the float timestamp is exact enough. *)
Definition in_float_range (dt : datetime) : Prop :=
  0 <= epoch_us dt < 2 ^ 33 * 1000000.

(** The integer UTC epoch second of a datetime. *)
Definition epoch_second (dt : datetime) : Z := epoch_us dt / 1000000.

(** The identity key of an activity segment as the data model words it:
    (start timestamp, end timestamp, distance). *)
Definition worded_ActivitySegment_key (a : ActivitySegment.t)
  : datetime * datetime * Json :=
  (ActivitySegment.startTime a, ActivitySegment.endTime a,
   ActivitySegment.distance a).

(** A float that is a nearest binary64 to the ratio [n / d]: zero for
    [n = 0], else finite with the sign of [n], a full mantissa and the
    mantissa within a half of the ratio in units of its last place. *)
Definition nearest_to_ratio (f : float) (n d : Z) : Prop :=
  match f with
  | S754_zero _ => n = 0
  | S754_finite s m e =>
      n = cond_Zopp s (Z.abs n) /\ n <> 0
      /\ 2 ^ 52 <= Zpos m < 2 ^ 53 /\ e <= 0
      /\ - d <= 2 * (d * Zpos m) - 2 * (Z.abs n * 2 ^ (- e)) <= d
  | _ => False
  end.

(** The outcome element of one record: the event built from it, or the
    exception its construction raised, yielded in its place. *)
Definition outcome {A T : Type} (f : A -> res T) (a : A) : Res T :=
  match f a with
  | Ok x => Event x
  | Raise e => Error e
  end.

(** The outcome of one object of the coarse location history; its
    [accuracy] is read before the [try]. *)
Definition location_outcome `{Collaborators} (loc : list (string * Json))
  : Res Location.t :=
  outcome (location_of (JDict loc))
    (match lookup "accuracy" loc with Some a => a | None => JNull end).

Definition is_Error {T : Type} (r : Res T) : Prop :=
  match r with
  | Error _ => True
  | Event _ => False
  end.

(** A document [for ... in] can range over. *)
Definition iterable (j : Json) : bool :=
  match j with
  | JList _ | JDict _ | JStr _ => true
  | _ => false
  end.

(** A generator that yielded the error [first] and after it errors only. *)
Definition errors_only {T : Type} (first : exn) (g : gen T) : Prop :=
  exists errs, yielded g = map Error (first :: errs).

(** [d.get(k)] on an object: the value of the key, [None] without it. *)
Definition get_or_None (d : list (string * Json)) (k : string) : Json :=
  match lookup k d with
  | Some v => v
  | None => JNull
  end.

(** The items of an object. *)
Definition items (j : Json) : list (string * Json) :=
  match j with
  | JDict d => d
  | _ => []
  end.

(** A datetime less than [2^33] seconds away from the epoch, before or
    after it (from 1697-10-17 to 2242-03-16). *)
Definition near_epoch (dt : datetime) : Prop :=
  - (2 ^ 33 * 1000000) < epoch_us dt < 2 ^ 33 * 1000000.

(** The seconds from the epoch to a datetime, rounded toward zero. *)
Definition truncated_second (dt : datetime) : Z :=
  Z.quot (epoch_us dt) 1000000.

(** What one entry of [subtitles] adds to the subtitles of an activity:
    a [Subtitles] for an object with a [name], nothing for anything else. *)
Definition subtitle_entry (s : Json) : list Subtitles.t :=
  match s with
  | JDict o =>
      match lookup "name" o with
      | Some name => [Subtitles.mk name (get_or_None o "url")]
      | None => []
      end
  | _ => []
  end.

(** What one entry of [details] adds to the details of an activity. *)
Definition detail_entry (d : Json) : list Json :=
  match d with
  | JDict o =>
      match lookup "name" o with
      | Some name => [name]
      | None => []
      end
  | _ => []
  end.

(** An activity with other subtitles, and with other details. *)
Definition with_subtitles (a : Activity.t) (subtitles : list Subtitles.t)
  : Activity.t :=
  Activity.mk (Activity.header a) (Activity.title a) (Activity.time a)
    (Activity.description a) (Activity.titleUrl a) subtitles
    (Activity.details a) (Activity.locationInfos a) (Activity.products a).

Definition with_details (a : Activity.t) (details : list Json)
  : Activity.t :=
  Activity.mk (Activity.header a) (Activity.title a) (Activity.time a)
    (Activity.description a) (Activity.titleUrl a) (Activity.subtitles a)
    details (Activity.locationInfos a) (Activity.products a).

(** What [for x in v] ranges over, nothing for a value it cannot range
    over. *)
Definition iterated (j : Json) : list Json :=
  match py_iter j with
  | Ok l => l
  | Raise _ => []
  end.

(** The fields [datetime] accepts: a year from 1 to 9999, a day of the
    month, a time of the day. *)
Definition valid_datetime (dt : datetime) : Prop :=
  let '(aware_utc d) := dt in
  1 <= year d <= 9999 /\ 1 <= month d <= 12
  /\ 1 <= day d <= days_in_month (year d) (month d)
  /\ 0 <= hour d < 24 /\ 0 <= minute d < 60 /\ 0 <= second d < 60
  /\ 0 <= microsecond d < 1000000.

(** The date of an ordinal has a month of the year and a day of that
    month. *)
Definition ord_valid_ok (o : Z) : bool :=
  let '(y, m, d) := ord_to_ymd o in
  (1 <=? m) && (m <=? 12) && (1 <=? d) && (d <=? days_in_month y m).

(** A date, when [d] is a day of its month, converts to its ordinal and
    back. *)
Definition date_roundtrip_ok (y m d : Z) : bool :=
  implb (d <=? days_in_month y m)
    (let '(y', m', d') := ord_to_ymd (ymd_to_ord y m d) in
     (y' =? y) && (m' =? m) && (d' =? d)).

Definition year_roundtrip_ok (y : Z) : bool :=
  all_from 12 1 (fun m => all_from 31 1 (fun d => date_roundtrip_ok y m d)).

(** ** The documents and events of the scenarios *)

(** The object of the discard scenario: a place visit whose location has
    no [placeId]. *)
Definition discard_object : list (string * Json) :=
  [("placeVisit",
    JDict [("location", JDict [("latitudeE7", JInt 555555555);
                               ("longitudeE7", JInt (-1066666666))]);
           ("duration",
            JDict [("startTimestamp", JStr "2017-12-10T23:29:25.026Z");
                   ("endTimestamp", JStr "2017-12-11T01:20:06.106Z")])])].

(** The 2012 segment of the test suite without its [startLocation] and
    [endLocation] keys. *)
Definition segment_without_locations : list (string * Json) :=
  [("duration", JDict [("startTimestamp", JStr "2012-12-06T04:09:31.087Z");
                       ("endTimestamp", JStr "2012-12-06T04:19:21.052Z")]);
   ("distance", JInt 735);
   ("confidence", JStr "LOW");
   ("activities", JList [])].

(** The 2012 segment of the test suite: both location objects empty. *)
Definition _TEST_ACTIVITY_SEGMENT_BASIC : Json :=
  JDict
    [("startLocation", JDict []);
     ("endLocation", JDict []);
     ("duration", JDict [("startTimestamp", JStr "2012-12-06T04:09:31.087Z");
                         ("endTimestamp", JStr "2012-12-06T04:19:21.052Z")]);
     ("distance", JInt 735);
     ("confidence", JStr "LOW");
     ("activities",
      JList [JDict [("activityType", JStr "WALKING");
                    ("probability", JFloat (S754_zero false))];
             JDict [("activityType", JStr "CYCLING");
                    ("probability", JFloat (S754_zero false))];
             JDict [("activityType", JStr "IN_VEHICLE");
                    ("probability", JFloat (S754_zero false))]]);
     ("simplifiedRawPath",
      JDict [("points",
              JList [JDict [("latE7", JInt (-450339851));
                            ("lngE7", JInt 1686552734);
                            ("accuracyMeters", JInt 5);
                            ("timestamp",
                             JStr "2012-12-06T04:12:29.104Z")]])]);
     ("editConfirmationStatus", JStr "NOT_CONFIRMED")].

(** The event the extractor builds from it. *)
Definition basic_segment_event : ActivitySegment.t :=
  ActivitySegment.mk
    (aware_utc (mk_naive 2012 12 6 4 9 31 87000))
    (aware_utc (mk_naive 2012 12 6 4 19 21 52000))
    (JInt 735) (JStr "LOW")
    [ActivitySegmentActivity.mk (JStr "WALKING") (JFloat (S754_zero false));
     ActivitySegmentActivity.mk (JStr "CYCLING") (JFloat (S754_zero false));
     ActivitySegmentActivity.mk (JStr "IN_VEHICLE")
       (JFloat (S754_zero false))]
    (SimplifiedRawPath.mk
       [RawPathPoint.mk
          (S754_finite true 6337969953605265 (-47))
          (S754_finite false 5934029894049290 (-45))
          (JInt 5)
          (aware_utc (mk_naive 2012 12 6 4 12 29 104000))])
    None JNull None None None None (JStr "NOT_CONFIRMED").

(** A legacy record whose only subtitles live under the snippet. *)
Definition legacy_record : list (string * Json) :=
  [("snippet",
    JDict [("title", JStr "Watched a video");
           ("publishedAt", JStr "2016-03-01T10:20:30.000Z");
           ("subtitles", JList [JDict [("name", JStr "A channel")]])])].

(** The event the extractor builds from it. *)
Definition legacy_event : Activity.t :=
  Activity.mk (JStr "YouTube") (JStr "Watched a video")
    (aware_utc (mk_naive 2016 3 1 10 20 30 0)) JNull JNull [] [] []
    (JList []).

(** The 2012 segment, started a microsecond later. *)
Definition later_segment_event : ActivitySegment.t :=
  ActivitySegment.mk
    (aware_utc (mk_naive 2012 12 6 4 9 31 87001))
    (ActivitySegment.endTime basic_segment_event)
    (ActivitySegment.distance basic_segment_event)
    (ActivitySegment.confidence basic_segment_event)
    (ActivitySegment.activities basic_segment_event)
    (ActivitySegment.simplifiedRawPath basic_segment_event)
    None JNull None None None None (JStr "NOT_CONFIRMED").

(** An activity in the last microsecond of the first second of the year
    9000. *)
Definition far_activity : Activity.t :=
  Activity.mk (JStr "Search") (JStr "Searched for x")
    (aware_utc (mk_naive 9000 1 1 0 0 0 999999)) JNull JNull [] [] []
    (JList []).

(** The place visit of the test suite. *)
Definition _TEST_PLACE_VISIT : Json :=
  JDict
    [("location",
      JDict [("latitudeE7", JInt 555555555);
             ("longitudeE7", JInt (-1066666666));
             ("placeId", JStr "JK4E4P");
             ("address", JStr "address");
             ("name", JStr "name");
             ("sourceInfo", JDict [("deviceTag", JInt 987654321)]);
             ("locationConfidence",
              JFloat (S754_finite false 8507581171079578 (-47)))]);
     ("duration",
      JDict [("startTimestamp", JStr "2017-12-10T23:29:25.026Z");
             ("endTimestamp", JStr "2017-12-11T01:20:06.106Z")]);
     ("placeConfidence", JStr "MEDIUM_CONFIDENCE");
     ("centerLatE7", JInt 555555555);
     ("centerLngE7", JInt (-1666666666));
     ("visitConfidence", JFloat (S754_finite false 4605634306428109 (-46)));
     ("otherCandidateLocations",
      JList [JDict [("latitudeE7", JInt 423984239);
                    ("longitudeE7", JInt (-1565656565));
                    ("placeId", JStr "XPRK4E4P");
                    ("address", JStr "address2");
                    ("name", JStr "name2");
                    ("locationConfidence",
                     JFloat (S754_finite false 6889352538047415 (-48)))]]);
     ("editConfirmationStatus", JStr "NOT_CONFIRMED");
     ("locationConfidence", JInt 55);
     ("placeVisitType", JStr "SINGLE_PLACE");
     ("placeVisitImportance", JStr "MAIN")].

(** The event the test suite expects from it: lat 55.5555555,
    lng -106.6666666, centre 55.5555555, -166.6666666, visit confidence
    65.45, one other candidate at 42.3984239, -156.5656565. *)
Definition test_place_visit_event : PlaceVisit.t :=
  PlaceVisit.mk
    (S754_finite false 7818749345255028 (-47))
    (S754_finite true 7505999374259577 (-46))
    (Some (S754_finite false 7818749345255028 (-47)))
    (Some (S754_finite true 5864062012459709 (-45)))
    (JStr "address") (JStr "name")
    (JFloat (S754_finite false 8507581171079578 (-47)))
    (JStr "JK4E4P")
    (aware_utc (mk_naive 2017 12 10 23 29 25 26000))
    (aware_utc (mk_naive 2017 12 11 1 20 6 106000))
    (JInt 987654321)
    [CandidateLocation.mk
       (S754_finite false 5967047689910510 (-47))
       (S754_finite true 5508664314628258 (-45))
       (JStr "address2") (JStr "name2") (JStr "XPRK4E4P")
       (JFloat (S754_finite false 6889352538047415 (-48))) JNull]
    (JStr "MEDIUM_CONFIDENCE") (JStr "SINGLE_PLACE")
    (JFloat (S754_finite false 4605634306428109 (-46)))
    (JStr "NOT_CONFIRMED") (JStr "MAIN").

(** The browser-history entry of the test suite. *)
Definition test_chrome_event : ChromeHistory.t :=
  ChromeHistory.mk (JStr "sean") (JStr "https://sean.fish")
    (aware_utc (mk_naive 2021 4 2 23 4 50 134513)).

(** The browser-history record of the scenario, visited over plain http. *)
Definition chrome_record : list (string * Json) :=
  [("page_transition", JStr "LINK");
   ("title", JStr "sean");
   ("url", JStr "http://sean.fish");
   ("client_id", JStr "W1vSb98l403jhPeK==");
   ("time_usec", JInt 1617404690134513)].

(** The 2012 segment with its duration spelled in milliseconds. *)
Definition segment_with_millis : list (string * Json) :=
  [("startLocation", JDict []);
   ("endLocation", JDict []);
   ("duration", JDict [("startTimestampMs", JStr "1354766971087");
                       ("endTimestampMs", JStr "1354767561052")]);
   ("activities", JList [])].

(** A legacy record with subtitles of its own, beside those of its
    snippet. *)
Definition legacy_record_with_subtitles : list (string * Json) :=
  ("subtitles",
   JList [JDict [("name", JStr "A playlist");
                 ("url", JStr "http://youtube.com/playlist")];
          JStr "A caption";
          JDict [("url", JStr "http://youtube.com")]])
  :: legacy_record.

(** The event the extractor builds from it. *)
Definition legacy_event_with_subtitles : Activity.t :=
  with_subtitles legacy_event
    [Subtitles.mk (JStr "A playlist") (JStr "http://youtube.com/playlist")].

(** The one-character string of U+00E9, two bytes in UTF-8. *)
Definition e_acute : string :=
  String (ascii_of_nat 195) (String (ascii_of_nat 169) EmptyString).

(** The 2012 segment with an empty [startLocation] and no [endLocation]
    key. *)
Definition segment_without_endLocation : list (string * Json) :=
  ("startLocation", JDict []) :: segment_without_locations.

(** ** Properties *)

(** *** The scenarios of the test suite *)

(** test_location_old: a coarse location record with [timestampMs]. *)
Example test_location_old :
  _parse_location_history (H := spec_collaborators) "file"
    (JDict [("locations",
             JList [JDict [("timestampMs", JStr "1512947698030");
                           ("latitudeE7", JInt 351324213);
                           ("longitudeE7", JInt (-1122434441));
                           ("accuracy", JInt 10)]])])
  = mk_gen
      [Event (Location.mk
                (S754_finite false 4944448733603227 (-47))
                (S754_finite true 7898430203492830 (-46))
                (Some (S754_finite false 5629499534213120 (-49)))
                (aware_utc (mk_naive 2017 12 10 23 14 58 0)))]
      None.
Proof. vm_compute. reflexivity. Qed.

(** test_location_new: the same record with an ISO [timestamp]. *)
Example test_location_new :
  _parse_location_history (H := spec_collaborators) "file"
    (JDict [("locations",
             JList [JDict [("latitudeE7", JInt 351324213);
                           ("longitudeE7", JInt (-1122434441));
                           ("accuracy", JInt 10);
                           ("deviceTag", JInt (-80241446968629135069));
                           ("deviceDesignation", JStr "PRIMARY");
                           ("timestamp",
                            JStr "2017-12-10T23:14:58.030Z")]])])
  = mk_gen
      [Event (Location.mk
                (S754_finite false 4944448733603227 (-47))
                (S754_finite true 7898430203492830 (-46))
                (Some (S754_finite false 5629499534213120 (-49)))
                (aware_utc (mk_naive 2017 12 10 23 14 58 30000)))]
      None.
Proof. vm_compute. reflexivity. Qed.

(** test_chrome_history. *)
Example test_chrome_history :
  _parse_chrome_history "file"
    (JDict [("Browser History",
             JList [JDict [("page_transition", JStr "LINK");
                           ("title", JStr "sean");
                           ("url", JStr "https://sean.fish");
                           ("client_id", JStr "W1vSb98l403jhPeK==");
                           ("time_usec", JInt 1617404690134513)]])])
  = mk_gen [Event test_chrome_event] None.
Proof. vm_compute. reflexivity. Qed.

(** test_semantic_location_history, its first two timeline objects. *)
Example test_semantic_location_history :
  _parse_semantic_location_history (H := spec_collaborators) "file"
    (JDict [("timelineObjects",
             JList [JDict [("placeVisit", _TEST_PLACE_VISIT)];
                    JDict [("activitySegment",
                            _TEST_ACTIVITY_SEGMENT_BASIC)]])])
  = mk_gen [Event (EvPlaceVisit test_place_visit_event);
            Event (EvActivitySegment basic_segment_event)] None.
Proof. vm_compute. reflexivity. Qed.

(** test_parse_activity_json. *)
Example test_parse_activity_json :
  _parse_json_activity (H := spec_collaborators) "file"
    (JList
       [JDict
          [("header", JStr "Discover");
           ("title", JStr "7 cards in your feed");
           ("time", JStr "2021-12-13T03:04:05.007Z");
           ("products", JList [JStr "Discover"]);
           ("locationInfos",
            JList [JDict [("name", JStr "At this general area");
                          ("url", JStr ("https://www.google.com/maps/@?api=1"
                                ++ "&map_action=map&center=lat,lon&zoom=12"));
                          ("source", JStr "From your Location History");
                          ("sourceUrl",
                           JStr "https://www.google.com/maps/timeline")]]);
           ("subtitles",
            JList [JDict [("name", JStr "Computer programming")];
                   JDict [("name", JStr "Computer Science")];
                   JDict [("name", JStr "PostgreSQL")];
                   JDict [("name", JStr "Technology")]])]])
  = mk_gen
      [Event (Activity.mk (JStr "Discover") (JStr "7 cards in your feed")
                (aware_utc (mk_naive 2021 12 13 3 4 5 7000)) JNull JNull
                [Subtitles.mk (JStr "Computer programming") JNull;
                 Subtitles.mk (JStr "Computer Science") JNull;
                 Subtitles.mk (JStr "PostgreSQL") JNull;
                 Subtitles.mk (JStr "Technology") JNull]
                []
                [LocationInfo.mk (JStr "At this general area")
                   (JStr ("https://www.google.com/maps/@?api=1"
                                ++ "&map_action=map&center=lat,lon&zoom=12"))
                   (JStr "From your Location History")
                   (JStr "https://www.google.com/maps/timeline")]
                (JList [JStr "Discover"]))]
      None.
Proof. vm_compute. reflexivity. Qed.

(** test_parse_app_installs. *)
Example test_parse_app_installs :
  _parse_app_installs (H := spec_collaborators) "file"
    (JList
       [JDict
          [("install",
            JDict [("doc",
                    JDict [("documentType", JStr "Android Apps");
                           ("title",
                            JStr ("Discord - Talk, Video Chat & "
                                  ++ "Hang Out with Friends"))]);
                   ("firstInstallationTime",
                    JStr "2020-05-25T03:11:53.055Z");
                   ("deviceAttribute",
                    JDict [("manufacturer", JStr "motorola");
                           ("deviceDisplayName",
                            JStr "motorola moto g(7) play")]);
                   ("lastUpdateTime", JStr "2020-08-27T02:55:33.259Z")])]])
  = mk_gen
      [Event (PlayStoreAppInstall.mk
                (JStr ("Discord - Talk, Video Chat & "
                       ++ "Hang Out with Friends"))
                (aware_utc (mk_naive 2020 5 25 3 11 53 55000))
                (JStr "motorola moto g(7) play"))]
      None.
Proof. vm_compute. reflexivity. Qed.

Lemma basic_segment_parses :
  _parse_activity_segment (H := spec_collaborators)
    _TEST_ACTIVITY_SEGMENT_BASIC
  = Ok (Some basic_segment_event).
Proof. vm_compute. reflexivity. Qed.

Lemma legacy_record_parses :
  activity_of_blob (H := spec_collaborators) (JDict legacy_record)
  = Ok legacy_event.
Proof. vm_compute. reflexivity. Qed.

(** *** The generator combinators *)

Lemma gen_loop_try_yield {A T : Type} (f : A -> res T) (l : list A) :
  gen_loop (fun a => try_yield (f a)) l
  = mk_gen (map (fun a => match f a with
                          | Ok x => Event x
                          | Raise e => Error e
                          end) l) None.
Proof.
  induction l as [|a l IH]; [reflexivity|].
  cbn [gen_loop map]. rewrite IH.
  unfold try_yield, gen_seq, yield; destruct (f a); reflexivity.
Qed.

Lemma timeline_loop_app `{Collaborators} (p : Path) (r : result_var)
  (l1 l2 : list Json) :
  timeline_loop p r (l1 ++ l2)
  = let '(o1, r1) := timeline_loop p r l1 in
    let '(o2, r2) := timeline_loop p r1 l2 in
    ((o1 ++ o2)%list, r2).
Proof.
  revert r; induction l1 as [|o l1 IH]; intros r; cbn [timeline_loop app].
  - destruct (timeline_loop p r l2); reflexivity.
  - destruct (timeline_body p r o) as [out r'].
    rewrite IH.
    destruct (timeline_loop p r' l1) as [o1 r1].
    destruct (timeline_loop p r1 l2) as [o2 r2].
    now rewrite app_assoc.
Qed.

(** *** Inversion of computations that returned *)

Lemma bind_Ok {A B : Type} (c : res A) (k : A -> res B) (b : B) :
  bind c k = Ok b -> exists a, c = Ok a /\ k a = Ok b.
Proof. destruct c as [a|e]; [now exists a | discriminate]. Qed.

(** Peel the leading binds of a hypothesis [... = Ok _]. *)
Ltac bind_inv H :=
  repeat match type of H with
         | bind ?c _ = Ok _ =>
             let a := fresh "v" in
             let E := fresh "E" in
             apply bind_Ok in H as (a & E & H)
         end.

Lemma rewrap_KeyError_Ok {A : Type} (kind : string) (record : Json)
  (c : res A) (a : A) :
  rewrap_KeyError kind record c = Ok a -> c = Ok a.
Proof. destruct c as [x|[]]; cbn; congruence. Qed.

Lemma rewrap_KeyError_Raise {A : Type} (kind : string) (record : Json)
  (e : exn) :
  exists e', rewrap_KeyError (A := A) kind record (Raise e) = Raise e'.
Proof. destruct e; cbn; eauto. Qed.

Lemma py_get_dict (d : list (string * Json)) (k : string) :
  py_get (JDict d) k JNull = Ok (get_or_None d k).
Proof. unfold get_or_None. cbn. now destruct (lookup k d). Qed.

(** *** _check_required_keys on a dict *)

Lemma check_required_keys_present `{Collaborators}
  (d : list (string * Json)) (ks : list string) :
  Forall (fun k => lookup k d <> None) ks ->
  _check_required_keys (JDict d) ks = Ok None.
Proof.
  induction 1 as [|k ks Hk _ IH]; [reflexivity|].
  cbn [_check_required_keys py_contains bind].
  destruct (lookup k d); [exact IH | congruence].
Qed.

Lemma check_required_keys_missing `{Collaborators}
  (d : list (string * Json)) (ks : list string) (k : string) :
  In k ks -> lookup k d = None ->
  exists k', _check_required_keys (JDict d) ks = Ok (Some k').
Proof.
  intros Hin Hk. induction ks as [|k0 ks IH]; [contradiction|].
  cbn [_check_required_keys py_contains bind].
  destruct (lookup k0 d) eqn:E0; cbn [negb].
  - destruct Hin as [->|Hin]; [congruence | exact (IH Hin)].
  - now exists k0.
Qed.

(** *** Rounding: the shift-and-round of SpecFloat in closed form *)

Lemma digits2_pos_bounds (p : positive) :
  2 ^ (Zpos (digits2_pos p) - 1) <= Zpos p < 2 ^ Zpos (digits2_pos p).
Proof.
  induction p as [p IH|p IH|]; cbn [digits2_pos].
  - rewrite Pos2Z.inj_succ, Z.pow_succ_r by lia.
    replace (Z.succ (Zpos (digits2_pos p)) - 1)
      with (Z.succ (Zpos (digits2_pos p) - 1)) by lia.
    rewrite Z.pow_succ_r by lia. lia.
  - rewrite Pos2Z.inj_succ, Z.pow_succ_r by lia.
    replace (Z.succ (Zpos (digits2_pos p)) - 1)
      with (Z.succ (Zpos (digits2_pos p) - 1)) by lia.
    rewrite Z.pow_succ_r by lia. lia.
  - cbn. lia.
Qed.

Lemma pow2_pos (n : Z) : 0 <= n -> 0 < 2 ^ n.
Proof. intros; apply Z.pow_pos_nonneg; lia. Qed.

Lemma pow2_lt_inv (a b : Z) : 0 <= b -> 2 ^ a < 2 ^ b -> a < b.
Proof. intros Hb H. apply (Z.pow_lt_mono_r_iff 2); [lia|exact Hb|exact H]. Qed.

(** The number of binary digits is fixed by the power-of-two bracket. *)
Lemma Zdigits2_unique (x k : Z) :
  0 < k -> 2 ^ (k - 1) <= x < 2 ^ k -> Zdigits2 x = k.
Proof.
  intros Hk [Hlo Hhi].
  assert (Hx : 0 < x) by (pose proof (pow2_pos (k - 1)); lia).
  destruct x as [|p|p]; try lia. cbn [Zdigits2].
  pose proof (digits2_pos_bounds p) as [Hl Hh].
  set (d := Zpos (digits2_pos p)) in *.
  assert (d - 1 < k) by (apply pow2_lt_inv; lia).
  assert (k - 1 < d) by (apply pow2_lt_inv; lia).
  lia.
Qed.

Lemma Zdigits2_bounds (x : Z) :
  0 < x -> 0 < Zdigits2 x /\ 2 ^ (Zdigits2 x - 1) <= x < 2 ^ Zdigits2 x.
Proof.
  intros Hx. destruct x as [|p|p]; try lia. cbn [Zdigits2].
  split; [lia | apply digits2_pos_bounds].
Qed.

Lemma stands_for_loc (N D : Z) :
  stands_for (shr_record_of_loc (N / D) (loc_of (N mod D) D)) N D.
Proof.
  unfold stands_for, loc_of.
  destruct (N mod D =? 0); [split; reflexivity|].
  destruct (2 * (N mod D) ?= D); split; reflexivity.
Qed.

Lemma shr_1_div2 (mrs : shr_record) :
  0 <= shr_m mrs ->
  shr_m (shr_1 mrs) = shr_m mrs / 2
  /\ shr_r (shr_1 mrs) = Z.odd (shr_m mrs)
  /\ shr_s (shr_1 mrs) = shr_r mrs || shr_s mrs.
Proof.
  destruct mrs as [m r s]; cbn [shr_m shr_r shr_s shr_1].
  intros Hm. destruct m as [|[p|p|]|]; try lia; cbn [shr_m shr_r shr_s];
    repeat split.
  - rewrite Pos2Z.inj_xI.
    apply Z.div_unique with (r := 1); lia.
  - rewrite Pos2Z.inj_xO.
    apply Z.div_unique with (r := 0); lia.
Qed.

Lemma sticky_iff_inexact (mrs : shr_record) (r D : Z) :
  loc_of_shr_record mrs = loc_of r D ->
  shr_r mrs || shr_s mrs = negb (r =? 0).
Proof.
  unfold loc_of. destruct mrs as [m [|] [|]]; cbn;
    destruct (r =? 0); try discriminate; reflexivity.
Qed.

(** One shift to the right halves the unit: the record then stands for the
    same numerator over twice the denominator. *)
Lemma shr_1_stands_for (mrs : shr_record) (N D : Z) :
  0 <= N -> 0 < D ->
  stands_for mrs N D -> stands_for (shr_1 mrs) N (2 * D).
Proof.
  intros HN HD [Hm Hl].
  assert (Hq : 0 <= N / D) by (apply Z.div_pos; lia).
  destruct (shr_1_div2 mrs) as (Hm' & Hr' & Hs'); [lia|].
  pose proof (sticky_iff_inexact mrs _ _ Hl) as Hst.
  split.
  - rewrite Hm', Hm, Z.div_div by lia. f_equal. lia.
  - replace (2 * D) with (D * 2) by lia.
    rewrite Z.rem_mul_r by lia.
    pose proof (Z.mod_pos_bound N D HD) as Hrho.
    pose proof (Z.mod_pos_bound (N / D) 2 ltac:(lia)) as Hb.
    destruct (shr_1 mrs) as [m' r' s']; cbn [shr_m shr_r shr_s] in *.
    subst r' s'. rewrite Hst, Hm, Zodd_mod.
    unfold loc_of, loc_of_shr_record.
    destruct (Z.eqb_spec (N mod D) 0) as [E0|E0];
      destruct (Z.eqb_spec ((N / D) mod 2) 1) as [E1|E1]; cbn [negb];
      try rewrite E1;
      try replace ((N / D) mod 2) with 0 by lia;
      repeat match goal with
             | |- context [?a =? ?b] => destruct (Z.eqb_spec a b); try lia
             end;
      repeat match goal with
             | |- context [?a ?= ?b] =>
                 destruct (Z.compare_spec a b); try lia
             end;
      reflexivity.
Qed.

Lemma iter_pos_shr_1_stands_for (p : positive) (mrs : shr_record) (N D : Z) :
  0 <= N -> 0 < D ->
  stands_for mrs N D ->
  stands_for (iter_pos shr_1 p mrs) N (D * 2 ^ Zpos p).
Proof.
  intros HN. revert mrs D.
  induction p as [p IH|p IH|]; intros mrs D HD H; cbn [iter_pos].
  - replace (D * 2 ^ Zpos p~1) with (((2 * D) * 2 ^ Zpos p) * 2 ^ Zpos p).
    + apply IH; [pose proof (pow2_pos (Zpos p)); nia|].
      apply IH; [lia|]. now apply shr_1_stands_for.
    + rewrite (Pos2Z.inj_xI p), Z.pow_add_r, Z.pow_twice_r, Z.pow_1_r by lia.
      ring.
  - replace (D * 2 ^ Zpos p~0) with ((D * 2 ^ Zpos p) * 2 ^ Zpos p).
    + apply IH; [pose proof (pow2_pos (Zpos p)); nia|].
      now apply IH.
    + rewrite (Pos2Z.inj_xO p), Z.pow_twice_r. ring.
  - replace (D * 2 ^ 1) with (2 * D) by lia.
    now apply shr_1_stands_for.
Qed.

Lemma shr_stands_for (mrs : shr_record) (e n N D : Z) :
  0 <= N -> 0 < D ->
  stands_for mrs N D ->
  stands_for (fst (shr mrs e n)) N (D * 2 ^ Z.max 0 n)
  /\ snd (shr mrs e n) = e + Z.max 0 n.
Proof.
  intros HN HD H. destruct n as [|p|p]; cbn [shr fst snd].
  - rewrite Z.max_id. cbn. rewrite Z.mul_1_r, Z.add_0_r. now split.
  - rewrite Z.max_r by lia. split; [now apply iter_pos_shr_1_stands_for|].
    reflexivity.
  - rewrite Z.max_l by lia. cbn. rewrite Z.mul_1_r, Z.add_0_r. now split.
Qed.

(** [binary_round_aux] in closed form: shift to the exponent the format
    gives the quotient, round to nearest even, and shift once more when the
    rounding carried. *)
Lemma binary_round_aux_closed (sx : bool) (N D ex : Z) :
  0 <= N -> 0 < D ->
  binary_round_aux prec emax sx (N / D) ex (loc_of (N mod D) D)
  = let n1 := Z.max 0 (fexp prec emax (Zdigits2 (N / D) + ex) - ex) in
    let M1 := RNE N (D * 2 ^ n1) in
    let E1 := ex + n1 in
    let n2 := Z.max 0 (fexp prec emax (Zdigits2 M1 + E1) - E1) in
    match M1 / 2 ^ n2 with
    | Z0 => S754_zero sx
    | Zpos m => if E1 + n2 <=? emax - prec
                then S754_finite sx m (E1 + n2) else S754_infinity sx
    | Zneg _ => S754_nan
    end.
Proof.
  intros HN HD. unfold binary_round_aux, shr_fexp.
  pose proof (shr_stands_for _ ex
                (fexp prec emax (Zdigits2 (N / D) + ex) - ex) N D HN HD
                (stands_for_loc N D)) as [[Hm1 Hl1] He1].
  destruct (shr _ ex _) as [mrs' e']. cbn [fst snd] in *. subst e'.
  rewrite Hm1, Hl1. fold (RNE N (D * 2 ^ Z.max 0
                    (fexp prec emax (Zdigits2 (N / D) + ex) - ex))).
  set (n1 := Z.max 0 (fexp prec emax (Zdigits2 (N / D) + ex) - ex)).
  set (M1 := RNE N (D * 2 ^ n1)). set (E1 := ex + n1).
  assert (HM1 : 0 <= M1).
  { unfold M1, RNE, round_nearest_even.
    assert (0 <= N / (D * 2 ^ n1))
      by (apply Z.div_pos; [lia | pose proof (pow2_pos n1); nia]).
    destruct (loc_of _ _) as [|[| |]]; try lia.
    destruct (Z.even _); lia. }
  pose proof (shr_stands_for (shr_record_of_loc M1 loc_Exact) E1
                (fexp prec emax (Zdigits2 M1 + E1) - E1) M1 1 HM1 ltac:(lia))
    as [[Hm2 _] He2].
  { split; cbn; [now rewrite Z.div_1_r|].
    rewrite Z.mod_1_r. reflexivity. }
  destruct (shr _ E1 _) as [mrs'' e'']. cbn [fst snd] in *. subst e''.
  rewrite Hm2, Z.mul_1_l. reflexivity.
Qed.

Lemma fexp_eq (x : Z) : fexp prec emax x = Z.max (x - 53) (-1074).
Proof. reflexivity. Qed.

(** The nearest integer is within half a unit. *)
Lemma RNE_error (N D : Z) :
  0 <= N -> 0 < D ->
  - D <= 2 * (D * RNE N D) - 2 * N <= D
  /\ N / D <= RNE N D <= N / D + 1.
Proof.
  intros HN HD. unfold RNE, loc_of, round_nearest_even.
  pose proof (Z.div_mod N D ltac:(lia)) as Hdm.
  pose proof (Z.mod_pos_bound N D HD) as Hr.
  destruct (Z.eqb_spec (N mod D) 0) as [E|E]; [split; nia|].
  destruct (Z.compare_spec (2 * (N mod D)) D) as [C|C|C].
  - destruct (Z.even (N / D)); split; nia.
  - split; nia.
  - split; nia.
Qed.

Lemma RNE_exact (N D : Z) : N mod D = 0 -> RNE N D = N / D.
Proof. intros E. unfold RNE, loc_of. now rewrite E. Qed.

(** Rounding in the normal range: when the quotient has at least [prec]
    digits and neither underflow nor overflow is near, the result is a
    finite float with a full mantissa, at most one exponent above the
    quotient's, within half a unit of its last place of [N / D * 2^ex]. *)
Lemma binary_round_aux_normal (sx : bool) (N D ex : Z) :
  0 <= N -> 0 < D ->
  let d := Zdigits2 (N / D) in
  53 <= d -> -1074 <= ex -> d + ex <= 1023 ->
  exists m e,
    binary_round_aux prec emax sx (N / D) ex (loc_of (N mod D) D)
    = S754_finite sx m e
    /\ 2 ^ 52 <= Zpos m < 2 ^ 53
    /\ ex + d - 53 <= e <= ex + d - 52
    /\ - (D * 2 ^ (e - ex)) <= 2 * (D * 2 ^ (e - ex) * Zpos m) - 2 * N
       <= D * 2 ^ (e - ex).
Proof.
  intros HN HD d Hd Hex Hov.
  rewrite binary_round_aux_closed by assumption. cbv zeta. fold d.
  rewrite !fexp_eq.
  assert (Hq : 0 < N / D).
  { destruct (Z.eq_dec (N / D) 0) as [E|E];
      [unfold d in Hd; rewrite E in Hd; cbn in Hd; lia|].
    pose proof (Z.div_pos N D HN HD). lia. }
  destruct (Zdigits2_bounds (N / D) Hq) as [_ [Hlo Hhi]]. fold d in Hlo, Hhi.
  replace (Z.max 0 (Z.max (d + ex - 53) (-1074) - ex)) with (d - 53) by lia.
  set (n1 := d - 53). set (D1 := D * 2 ^ n1).
  assert (Hp1 : 0 < 2 ^ n1) by (apply pow2_pos; lia).
  assert (HD1 : 0 < D1) by (unfold D1; nia).
  assert (Hsplit : 2 ^ d = 2 ^ n1 * 2 ^ 53).
  { unfold n1. rewrite <- Z.pow_add_r by lia. f_equal. lia. }
  assert (Hsplit' : 2 ^ (d - 1) = 2 ^ n1 * 2 ^ 52).
  { unfold n1. rewrite <- Z.pow_add_r by lia. f_equal. lia. }
  assert (Hmx : 2 ^ 52 <= N / D1 < 2 ^ 53).
  { unfold D1. rewrite <- Z.div_div by lia.
    split.
    - apply Z.div_le_lower_bound; lia.
    - apply Z.div_lt_upper_bound; lia. }
  destruct (RNE_error N D1 HN HD1) as [Herr Hbr].
  fold D1. set (M1 := RNE N D1) in *.
  assert (HM1 : 2 ^ 52 <= M1 <= 2 ^ 53) by lia.
  destruct (Z.eq_dec M1 (2 ^ 53)) as [Ec|Ec].
  - (* the rounding carried into a new digit *)
    assert (Hdig : Zdigits2 M1 = 54)
      by (apply Zdigits2_unique; [lia | rewrite Ec; cbn; lia]).
    rewrite Hdig.
    replace (Z.max 0 (Z.max (54 + (ex + n1) - 53) (-1074) - (ex + n1)))
      with 1 by lia.
    rewrite Ec. change (2 ^ 53 / 2 ^ 1) with (Zpos (2 ^ 52)).
    replace (ex + n1 + 1 <=? emax - prec) with true
      by (symmetry; apply Z.leb_le; unfold emax, prec, n1; lia).
    exists (2 ^ 52)%positive, (ex + n1 + 1). split; [reflexivity|].
    split; [cbn; lia|]. split; [unfold n1; lia|].
    replace (ex + n1 + 1 - ex) with (n1 + 1) by lia.
    rewrite Z.pow_add_r, Z.pow_1_r by lia.
    change (Zpos (2 ^ 52)) with (2 ^ 52).
    unfold D1 in Herr. rewrite Ec in Herr. nia.
  - assert (Hdig : Zdigits2 M1 = 53)
      by (apply Zdigits2_unique; [lia | cbn; lia]).
    rewrite Hdig.
    replace (Z.max 0 (Z.max (53 + (ex + n1) - 53) (-1074) - (ex + n1)))
      with 0 by lia.
    rewrite Z.pow_0_r, Z.div_1_r, Z.add_0_r.
    destruct M1 as [|m|m] eqn:EM; try (cbn in HM1; lia).
    replace (ex + n1 <=? emax - prec) with true
      by (symmetry; apply Z.leb_le; unfold emax, prec, n1; lia).
    exists m, (ex + n1). split; [reflexivity|].
    split; [cbn in *; lia|]. split; [unfold n1; lia|].
    replace (ex + n1 - ex) with n1 by lia.
    fold D1. lia.
Qed.

Lemma new_location_loc_of (D r : Z) :
  0 < D -> 0 <= r < D -> new_location D r = loc_of r D.
Proof.
  intros HD Hr. unfold new_location, new_location_even, new_location_odd,
    loc_of.
  destruct (Z.even D) eqn:Ev; [reflexivity|].
  destruct (Z.eqb_spec r 0); [reflexivity|].
  assert (Hodd : D mod 2 = 1).
  { rewrite <- Z.negb_odd in Ev. apply negb_false_iff in Ev.
    rewrite Zodd_mod in Ev. now apply Z.eqb_eq in Ev. }
  pose proof (Z.div_mod D 2 ltac:(lia)) as Hdm.
  destruct (Z.compare_spec (2 * r + 1) D);
    destruct (Z.compare_spec (2 * r) D); try reflexivity; lia.
Qed.

(** Division of two finite floats is one rounding of the quotient of the
    mantissas, the dividend shifted to leave enough digits. *)
Lemma SFdiv_finite (s1 s2 : bool) (m1 m2 : positive) (e1 e2 : Z) :
  let e' := Z.min (fexp prec emax (Zpos (digits2_pos m1) + e1
                                   - (Zpos (digits2_pos m2) + e2)))
                  (e1 - e2) in
  let N := Zpos m1 * 2 ^ (e1 - e2 - e') in
  SFdiv prec emax (S754_finite s1 m1 e1) (S754_finite s2 m2 e2)
  = binary_round_aux prec emax (xorb s1 s2) (N / Zpos m2) e'
      (loc_of (N mod Zpos m2) (Zpos m2)).
Proof.
  intros e' N. unfold SFdiv, SFdiv_core_binary. cbn [Zdigits2]. fold e'.
  assert (Hs : 0 <= e1 - e2 - e') by (unfold e'; lia).
  assert (HN : (match e1 - e2 - e' with
                | Zpos _ => Z.shiftl (Zpos m1) (e1 - e2 - e')
                | Z0 => Zpos m1
                | Zneg _ => 0
                end) = N).
  { unfold N. destruct (e1 - e2 - e') as [|p|p] eqn:E; try lia.
    now rewrite Z.shiftl_mul_pow2 by lia. }
  rewrite HN.
  pose proof (Z.mod_pos_bound N (Zpos m2) ltac:(lia)) as Hr.
  unfold Z.modulo, Z.div in *.
  destruct (Z.div_eucl N (Zpos m2)) as [q r].
  now rewrite new_location_loc_of by lia.
Qed.

Lemma SFmul_finite (s1 s2 : bool) (m1 m2 : positive) (e1 e2 : Z) :
  let N := Zpos m1 * Zpos m2 in
  SFmul prec emax (S754_finite s1 m1 e1) (S754_finite s2 m2 e2)
  = binary_round_aux prec emax (xorb s1 s2) (N / 1) (e1 + e2)
      (loc_of (N mod 1) 1).
Proof.
  intros N. unfold N. rewrite Z.div_1_r, Z.mod_1_r. reflexivity.
Qed.

Lemma iter_xO_pow2 (p d : positive) :
  Zpos (Pos.iter xO p d) = Zpos p * 2 ^ Zpos d.
Proof.
  induction d as [|d IH] using Pos.peano_ind.
  - cbn. lia.
  - rewrite Pos.iter_succ, Pos2Z.inj_xO, IH, Pos2Z.inj_succ, Z.pow_succ_r
      by lia. ring.
Qed.

(** A mantissa of at most [prec] digits is normalised without rounding. *)
Lemma binary_round_exact (sx : bool) (p : positive) (e : Z) :
  let dz := Zpos (digits2_pos p) in
  dz <= 53 -> -1074 <= dz + e - 53 -> dz + e <= 1024 ->
  exists m,
    binary_round prec emax sx p e = S754_finite sx m (dz + e - 53)
    /\ Zpos m = Zpos p * 2 ^ (53 - dz).
Proof.
  intros dz Hdz Hlo Hhi. unfold binary_round, shl_align. fold dz.
  rewrite fexp_eq. replace (Z.max (dz + e - 53) (-1074)) with (dz + e - 53)
    by lia.
  pose proof (digits2_pos_bounds p) as Hp. fold dz in Hp.
  assert (Hfin : forall (mz : positive) (ez : Z),
             ez = dz + e - 53 ->
             Zpos mz = Zpos p * 2 ^ (53 - dz) ->
             binary_round_aux prec emax sx (Zpos mz) ez loc_Exact
             = S754_finite sx mz (dz + e - 53)).
  { intros mz ez -> Hmz.
    assert (Hb : 2 ^ 52 <= Zpos mz < 2 ^ 53).
    { rewrite Hmz.
      assert (E53 : 2 ^ 53 = 2 ^ dz * 2 ^ (53 - dz))
        by (rewrite <- Z.pow_add_r by lia; f_equal; lia).
      assert (E52 : 2 ^ 52 = 2 ^ (dz - 1) * 2 ^ (53 - dz))
        by (rewrite <- Z.pow_add_r by lia; f_equal; lia).
      pose proof (pow2_pos (53 - dz) ltac:(lia)). nia. }
    pose proof (binary_round_aux_closed sx (Zpos mz) 1 (dz + e - 53)
                  ltac:(lia) ltac:(lia)) as Hc.
    rewrite Z.div_1_r, Z.mod_1_r in Hc. change (loc_of 0 1) with loc_Exact in Hc.
    rewrite Hc. cbv zeta. rewrite !fexp_eq.
    rewrite (Zdigits2_unique (Zpos mz) 53) by (cbn; lia).
    replace (Z.max 0 (Z.max (53 + (dz + e - 53) - 53) (-1074)
                      - (dz + e - 53))) with 0 by lia.
    rewrite Z.pow_0_r, Z.mul_1_l, RNE_exact, !Z.div_1_r
      by apply Z.mod_1_r.
    rewrite (Zdigits2_unique (Zpos mz) 53) by (cbn; lia).
    replace (Z.max 0 (Z.max (53 + (dz + e - 53 + 0) - 53) (-1074)
                      - (dz + e - 53 + 0))) with 0 by lia.
    rewrite Z.pow_0_r, Z.div_1_r, !Z.add_0_r.
    replace (dz + e - 53 <=? emax - prec) with true
      by (symmetry; apply Z.leb_le; unfold emax, prec; lia).
    reflexivity. }
  destruct (dz + e - 53 - e) as [|d|d] eqn:Ed; try lia.
  - assert (Hp0 : Zpos p = Zpos p * 2 ^ (53 - dz)).
    { replace (53 - dz) with 0 by lia. lia. }
    exists p. split; [apply Hfin; [lia | exact Hp0] | exact Hp0].
  - exists (Pos.iter xO p d).
    assert (Zpos (Pos.iter xO p d) = Zpos p * 2 ^ (53 - dz)).
    { rewrite iter_xO_pow2. f_equal. f_equal. lia. }
    split; [now apply Hfin | assumption].
Qed.

Lemma float_trunc_finite (s : bool) (m : positive) (e : Z) :
  e <= 0 ->
  float_trunc (S754_finite s m e)
  = Some (cond_Zopp s (Zpos m / 2 ^ (- e))).
Proof.
  intros He. unfold float_trunc. now rewrite Z.shiftl_div_pow2 by lia.
Qed.

Lemma float_round_half_even_finite (s : bool) (m : positive) (e : Z) :
  e < 0 ->
  float_round_half_even (S754_finite s m e)
  = Some (cond_Zopp s (RNE (Zpos m) (2 ^ (- e)))).
Proof.
  intros He. unfold float_round_half_even.
  replace (e <? 0) with true by (symmetry; apply Z.ltb_lt; lia).
  rewrite Z.shiftr_div_pow2, Z.land_ones, Z.shiftl_mul_pow2, Z.mul_1_l
    by lia.
  unfold RNE, round_nearest_even, loc_of.
  assert (Hh : 2 ^ (- e) = 2 * 2 ^ (- e - 1)).
  { rewrite <- Z.pow_succ_r by lia. f_equal. lia. }
  pose proof (pow2_pos (- e - 1) ltac:(lia)) as Hhp.
  set (r := Zpos m mod 2 ^ (- e)). set (q := Zpos m / 2 ^ (- e)).
  destruct (Z.eqb_spec r 0) as [E|E];
    destruct (Z.compare_spec r (2 ^ (- e - 1)));
    destruct (Z.compare_spec (2 * r) (2 ^ (- e))); try reflexivity; lia.
Qed.

(** *** An int of microseconds divided by [10**6] *)

(** The quotient float of [a / 10**6] for a non-negative count of
    microseconds below [2^33] seconds: a full mantissa whose unit is at most
    [2^-20], within half a unit of the exact quotient. *)
Lemma int_truediv_1e6 (a : Z) :
  0 < a < 2 ^ 33 * 1000000 ->
  exists m e,
    int_truediv a 1000000 = Ok (S754_finite false m e)
    /\ 2 ^ 52 <= Zpos m < 2 ^ 53
    /\ -73 <= e <= -20
    /\ - 1000000 <= 2 * (1000000 * Zpos m) - 2 * (a * 2 ^ (- e)) <= 1000000.
Proof.
  intros Ha. destruct a as [|pa|pa]; try lia.
  unfold int_truediv. cbn [Z2SF].
  rewrite SFdiv_finite. cbv zeta.
  change (Zpos (digits2_pos 1000000)) with 20.
  pose proof (digits2_pos_bounds pa) as Hk.
  set (k := Zpos (digits2_pos pa)) in *.
  assert (Hk1 : 1 <= k) by (unfold k; lia).
  assert (Hk53 : k <= 53).
  { assert (k - 1 < 53); [|lia].
    apply pow2_lt_inv; [lia|]. change (2 ^ 53) with 9007199254740992.
    change (2 ^ 33 * 1000000) with 8589934592000000 in Ha. lia. }
  rewrite fexp_eq.
  replace (Z.min (Z.max (k + 0 - (20 + 0) - 53) (-1074)) (0 - 0))
    with (k - 73) by lia.
  replace (0 - 0 - (k - 73)) with (73 - k) by lia.
  set (N := Zpos pa * 2 ^ (73 - k)).
  assert (HN : 2 ^ 72 <= N < 2 ^ 73).
  { unfold N.
    assert (E73 : 2 ^ 73 = 2 ^ k * 2 ^ (73 - k))
      by (rewrite <- Z.pow_add_r by lia; f_equal; lia).
    assert (E72 : 2 ^ 72 = 2 ^ (k - 1) * 2 ^ (73 - k))
      by (rewrite <- Z.pow_add_r by lia; f_equal; lia).
    pose proof (pow2_pos (73 - k) ltac:(lia)). nia. }
  assert (Hq : 2 ^ 52 <= N / 1000000 < 2 ^ 54).
  { change (2 ^ 72) with 4722366482869645213696 in HN.
    change (2 ^ 73) with 9444732965739290427392 in HN.
    change (2 ^ 52) with 4503599627370496.
    change (2 ^ 54) with 18014398509481984.
    split; [apply Z.div_le_lower_bound | apply Z.div_lt_upper_bound]; lia. }
  destruct (Zdigits2_bounds (N / 1000000)) as [Hd0 [Hd1 Hd2]];
    [change (2 ^ 52) with 4503599627370496 in Hq; lia|].
  set (d := Zdigits2 (N / 1000000)) in *.
  assert (Hd : 53 <= d <= 54).
  { assert (52 < d) by (apply pow2_lt_inv; lia).
    assert (d - 1 < 54) by (apply pow2_lt_inv; lia). lia. }
  destruct (binary_round_aux_normal (xorb false false) N 1000000 (k - 73))
    as (m & e & Hbra & Hm & He & Herr); try (fold d; lia).
  fold d in He. rewrite Hbra. cbn [xorb].
  exists m, e. split; [reflexivity|]. split; [exact Hm|].
  set (P0 := 2 ^ (- e)). set (W := 2 ^ (e - (k - 73))) in *.
  assert (HW : 0 < W) by (apply pow2_pos; lia).
  assert (HP0 : 0 < P0) by (apply pow2_pos; lia).
  assert (HPW : 2 ^ (73 - k) = P0 * W).
  { unfold P0, W. rewrite <- Z.pow_add_r by lia. f_equal. lia. }
  assert (Herr' : - 1000000 <= 2 * (1000000 * Zpos m) - 2 * (Zpos pa * P0)
                  <= 1000000).
  { unfold N in Herr. rewrite HPW in Herr. nia. }
  split; [|exact Herr'].
  split; [lia|].
  destruct (Z_le_gt_dec e (-20)) as [Hle|Hgt]; [exact Hle|exfalso].
  assert (HP19 : P0 <= 2 ^ 19) by (apply Z.pow_le_mono_r; lia).
  change (2 ^ 19) with 524288 in HP19.
  change (2 ^ 52) with 4503599627370496 in Hm.
  change (2 ^ 33 * 1000000) with 8589934592000000 in Ha.
  nia.
Qed.

(** Below [2^33] seconds the truncated float timestamp is the whole number
    of seconds. *)
Lemma int_of_truediv_1e6 (a : Z) :
  0 <= a < 2 ^ 33 * 1000000 ->
  (t <- int_truediv a 1000000 ;; int_of_float t) = Ok (a / 1000000).
Proof.
  intros Ha. destruct (Z.eq_dec a 0) as [->|Hnz]; [reflexivity|].
  destruct (int_truediv_1e6 a ltac:(lia)) as (m & e & -> & Hm & He & Herr).
  cbn [bind int_of_float]. rewrite float_trunc_finite by lia.
  cbn [cond_Zopp]. f_equal.
  set (P0 := 2 ^ (- e)) in *.
  assert (HP20 : 2 ^ 20 <= P0) by (apply Z.pow_le_mono_r; lia).
  change (2 ^ 20) with 1048576 in HP20.
  pose proof (Z.div_mod a 1000000 ltac:(lia)) as Hdm.
  pose proof (Z.mod_pos_bound a 1000000 ltac:(lia)) as Hrho.
  set (A := a / 1000000) in *. set (rho := a mod 1000000) in *.
  symmetry. apply Z.div_unique with (r := Zpos m - A * P0); nia.
Qed.

Lemma f1e6_eq : f1e6 = S754_finite false 8589934592000000 (-33).
Proof. reflexivity. Qed.

Lemma f1e7_eq : f1e7 = S754_finite false 5368709120000000 (-29).
Proof. reflexivity. Qed.

(** The microsecond step of [utcfromtimestamp]: the fraction of a float
    with a full mantissa and a unit of at most [2^-20], times [1e6],
    rounded. The result is within half a microsecond, and a little, of the
    exact product. *)
Lemma frac_times_1e6_rounded (m : positive) (e : Z) :
  2 ^ 52 <= Zpos m < 2 ^ 53 -> -73 <= e <= -20 ->
  exists R,
    float_round_half_even
      (fmul (float_frac (S754_finite false m e)) f1e6) = Some R
    /\ let P0 := 2 ^ (- e) in
       let r0 := Zpos m mod P0 in
       - (2 ^ 33 * P0 + P0)
       <= 2 ^ 34 * (P0 * R) - 2 ^ 34 * (1000000 * r0)
       <= 2 ^ 33 * P0 + P0.
Proof.
  intros Hm He. cbv zeta.
  set (P0 := 2 ^ (- e)).
  assert (HP0 : 0 < P0) by (apply pow2_pos; lia).
  unfold float_frac.
  replace (e <? 0) with true by (symmetry; apply Z.ltb_lt; lia).
  rewrite Z.land_ones by lia. fold P0. cbn [cond_Zopp].
  pose proof (Z.mod_pos_bound (Zpos m) P0 HP0) as Hr0.
  pose proof (Z.div_mod (Zpos m) P0 ltac:(lia)) as Hdm.
  assert (Hqpos : 0 <= Zpos m / P0) by (apply Z.div_pos; lia).
  set (r0 := Zpos m mod P0) in *.
  destruct r0 as [|pr|pr] eqn:Er0; try lia.
  - (* no fraction *)
    exists 0. split; [reflexivity|]. lia.
  - assert (Hrm : Zpos pr <= Zpos m) by nia.
    pose proof (digits2_pos_bounds pr) as Hdr.
    set (dr := Zpos (digits2_pos pr)) in *.
    assert (Hdr1 : 1 <= dr) by (unfold dr; lia).
    assert (Hdr53 : dr <= 53).
    { assert (dr - 1 < 53); [|lia]. apply pow2_lt_inv; lia. }
    unfold binary_normalize.
    destruct (binary_round_exact false pr e) as (mz & -> & Hmz);
      try (fold dr; lia).
    fold dr in Hmz. set (A1 := 2 ^ (53 - dr)) in *.
    assert (HA1 : 0 < A1) by (apply pow2_pos; lia).
    unfold fmul. rewrite f1e6_eq, SFmul_finite. cbv zeta.
    fold dr. set (N := Zpos mz * 8589934592000000).
    set (ex := dr + e - 53 + -33).
    assert (Hmzb : 2 ^ 52 <= Zpos mz < 2 ^ 53).
    { rewrite Hmz. unfold A1.
      assert (E53 : 2 ^ 53 = 2 ^ dr * 2 ^ (53 - dr))
        by (rewrite <- Z.pow_add_r by lia; f_equal; lia).
      assert (E52 : 2 ^ 52 = 2 ^ (dr - 1) * 2 ^ (53 - dr))
        by (rewrite <- Z.pow_add_r by lia; f_equal; lia).
      fold A1 in E53, E52 |- *. nia. }
    assert (HNb : 2 ^ 104 <= N < 2 ^ 106).
    { unfold N. change (2 ^ 52) with 4503599627370496 in Hmzb.
      change (2 ^ 53) with 9007199254740992 in Hmzb.
      change (2 ^ 104) with 20282409603651670423947251286016.
      change (2 ^ 106) with 81129638414606681695789005144064. lia. }
    destruct (Zdigits2_bounds N) as [Hd0 [Hd1 Hd2]];
      [change (2 ^ 104) with 20282409603651670423947251286016 in HNb; lia|].
    assert (Hd : 105 <= Zdigits2 N <= 106).
    { assert (104 < Zdigits2 N) by (apply pow2_lt_inv; lia).
      assert (Zdigits2 N - 1 < 106) by (apply pow2_lt_inv; lia). lia. }
    destruct (binary_round_aux_normal (xorb false false) N 1 ex)
      as (m2 & e2 & Hbra & Hm2 & He2 & Herr);
      try (rewrite ?Z.div_1_r; unfold ex; lia).
    rewrite Z.div_1_r in He2. rewrite Hbra. cbn [xorb].
    rewrite Z.mul_1_l in Herr.
    set (W := 2 ^ (e2 - ex)) in *.
    assert (HW : 0 < W) by (apply pow2_pos; lia).
    (* the value is below 10^6, so the unit is at most 2^-33 *)
    assert (HNlt : N < 2 ^ (- ex) * 1000000).
    { assert (Eex : 2 ^ (- ex) = P0 * A1 * 2 ^ 33).
      { unfold P0, A1, ex. rewrite <- !Z.pow_add_r by lia. f_equal. lia. }
      rewrite Eex. unfold N. rewrite Hmz.
      change (2 ^ 33) with 8589934592. nia. }
    assert (He2' : e2 <= -33).
    { destruct (Z_le_gt_dec e2 (-33)) as [Hle|Hgt]; [exact Hle|exfalso].
      assert (HW0 : 2 ^ (- ex) <= W * 2 ^ 32).
      { unfold W. rewrite <- Z.pow_add_r by lia.
        apply Z.pow_le_mono_r; lia. }
      change (2 ^ 32) with 4294967296 in HW0.
      change (2 ^ 52) with 4503599627370496 in Hm2.
      nia. }
    rewrite float_round_half_even_finite by lia. cbn [cond_Zopp].
    set (Q := 2 ^ (- e2)).
    assert (HQ : 2 ^ 33 <= Q) by (apply Z.pow_le_mono_r; lia).
    destruct (RNE_error (Zpos m2) Q ltac:(lia)) as [HR _];
      [change (2 ^ 33) with 8589934592 in HQ; lia|].
    set (R := RNE (Zpos m2) Q) in *.
    exists R. split; [reflexivity|].
    assert (EWQ : W * Q = P0 * A1 * 2 ^ 33).
    { unfold W, Q, P0, A1, ex. rewrite <- !Z.pow_add_r by lia. f_equal. lia. }
    (* the product rounding, in units of the fraction *)
    assert (HF2 : - P0 <= 2 * (P0 * Zpos m2) - 2 * (1000000 * Zpos pr * Q)
                  <= P0).
    { assert (HNe : N = Zpos pr * A1 * (1000000 * 2 ^ 33))
        by (unfold N; rewrite Hmz; reflexivity).
      assert (Hs : - (W * Q) <= 2 * (W * Q * Zpos m2) - 2 * (N * Q) <= W * Q)
        by (change (2 ^ 33) with 8589934592 in HQ; nia).
      rewrite EWQ, HNe in Hs.
      change (2 ^ 33) with 8589934592 in Hs. nia. }
    change (2 ^ 33) with 8589934592 in HQ |- *.
    change (2 ^ 34) with 17179869184.
    nia.
Qed.

(** Below [2^33] seconds, [utcfromtimestamp(a / 10**6)] is the instant [a]
    microseconds after the epoch, to the microsecond. *)
Lemma utcfromtimestamp_of_truediv (a : Z) :
  0 <= a < 2 ^ 33 * 1000000 ->
  (t <- int_truediv a 1000000 ;; utcfromtimestamp t)
  = gmtime_us (a / 1000000) (a mod 1000000).
Proof.
  intros Ha. destruct (Z.eq_dec a 0) as [->|Hnz]; [reflexivity|].
  pose proof (int_of_truediv_1e6 a Ha) as Htr.
  destruct (int_truediv_1e6 a ltac:(lia)) as (m & e & Hx & Hm & He & Herr).
  rewrite Hx in Htr |- *. cbn [bind int_of_float] in Htr |- *.
  unfold utcfromtimestamp.
  destruct (frac_times_1e6_rounded m e Hm He) as (R & -> & HR).
  rewrite float_trunc_finite in Htr |- * by lia.
  cbn [cond_Zopp] in Htr |- *. injection Htr as Htr. rewrite Htr.
  cbv zeta in HR.
  set (P0 := 2 ^ (- e)) in *.
  assert (HP20 : 2 ^ 20 <= P0) by (apply Z.pow_le_mono_r; lia).
  change (2 ^ 20) with 1048576 in HP20.
  pose proof (Z.div_mod a 1000000 ltac:(lia)) as Hdm.
  pose proof (Z.mod_pos_bound a 1000000 ltac:(lia)) as Hrho.
  pose proof (Z.div_mod (Zpos m) P0 ltac:(lia)) as Hdm'.
  rewrite Htr in Hdm'.
  set (A := a / 1000000) in *. set (rho := a mod 1000000) in *.
  set (r0 := Zpos m mod P0) in *.
  change (2 ^ 33) with 8589934592 in HR.
  change (2 ^ 34) with 17179869184 in HR.
  assert (HF1 : - 1000000 <= 2 * (1000000 * r0) - 2 * (rho * P0) <= 1000000)
    by nia.
  assert (HRrho : R = rho).
  { assert (- (17179869184 * P0) < 17179869184 * (P0 * (R - rho))
            < 17179869184 * P0) by nia.
    nia. }
  rewrite HRrho.
  replace (1000000 <=? rho) with false by (symmetry; apply Z.leb_gt; lia).
  replace (rho <? 0) with false by (symmetry; apply Z.ltb_ge; lia).
  unfold timet_gmtime_us.
  assert (HA : 0 <= A < 2 ^ 33).
  { unfold A. split; [apply Z.div_pos; lia|].
    apply Z.div_lt_upper_bound; lia. }
  change (2 ^ 33) with 8589934592 in HA.
  replace ((- 2 ^ 63 <=? A) && (A <=? 2 ^ 63)) with true; [reflexivity|].
  symmetry. apply andb_true_iff. split; apply Z.leb_le;
    [change (- 2 ^ 63) with (-9223372036854775808)
    |change (2 ^ 63) with 9223372036854775808]; lia.
Qed.

(** *** The calendar *)

Lemma all_from_spec (ok : Z -> bool) (n : nat) (o i : Z) :
  all_from n o ok = true -> o <= i < o + Z.of_nat n -> ok i = true.
Proof.
  revert o. induction n as [|n IH]; intros o Hall Hi; [lia|].
  cbn [all_from] in Hall. apply andb_true_iff in Hall as [H0 Hn].
  destruct (Z.eq_dec i o) as [->|Hne]; [exact H0|].
  apply (IH (o + 1)); [exact Hn | lia].
Qed.

(** Every day from 1970-01-01 up to [2^33] seconds later converts to a date
    and back, with a year [datetime] accepts. *)
Lemma ord_roundtrip (o : Z) :
  epoch_ord <= o < epoch_ord + 99421 -> ord_roundtrip_ok o = true.
Proof.
  apply (all_from_spec ord_roundtrip_ok (Z.to_nat 99421)).
  vm_compute. reflexivity.
Qed.

(** A year [datetime] accepts fits the [tm_year] of [gmtime]. *)
Lemma year_fits_tm_year (y : Z) :
  (1 <=? y) && (y <=? 9999) = true ->
  negb ((- 2 ^ 31 <=? y - 1900) && (y - 1900 <? 2 ^ 31)) = false.
Proof.
  intros Hy. apply andb_true_iff in Hy as [H1 H2].
  apply Z.leb_le in H1, H2. apply negb_false_iff, andb_true_iff.
  change (2 ^ 31) with 2147483648.
  split; [apply Z.leb_le | apply Z.ltb_lt]; lia.
Qed.

(** The instant of the datetime [gmtime] builds is the instant it was
    given. *)
Lemma epoch_us_gmtime_us (sec us : Z) (d : naive_datetime) :
  0 <= sec < 2 ^ 33 ->
  gmtime_us sec us = Ok d ->
  epoch_us (aware_utc d) = sec * 1000000 + us.
Proof.
  intros Hsec. unfold gmtime_us.
  pose proof (Z.div_mod sec 86400 ltac:(lia)) as Hdm.
  pose proof (Z.mod_pos_bound sec 86400 ltac:(lia)) as Hrem.
  assert (Hdays : 0 <= sec / 86400 < 99421).
  { split; [apply Z.div_pos; lia|].
    apply Z.div_lt_upper_bound; [lia|].
    change (2 ^ 33) with 8589934592 in Hsec. lia. }
  pose proof (ord_roundtrip (sec / 86400 + epoch_ord) ltac:(lia)) as Hok.
  unfold ord_roundtrip_ok in Hok.
  destruct (ord_to_ymd (sec / 86400 + epoch_ord)) as [[y m] dd].
  apply andb_true_iff in Hok as [Hy Ho].
  rewrite (year_fits_tm_year y Hy), Hy.
  apply Z.eqb_eq in Ho.
  intros [= <-]. unfold epoch_us. cbn [year month day hour minute second
                                        microsecond].
  rewrite Ho.
  set (rem := sec mod 86400) in *.
  clearbody rem. clear Hy Ho Hdays.
  Z.to_euclidean_division_equations. lia.
Qed.

(** Every day from 1970-01-01 up to [2^33] seconds later converts to a
    month and a day of that month. *)
Lemma ord_valid (o : Z) :
  epoch_ord <= o < epoch_ord + 99421 -> ord_valid_ok o = true.
Proof.
  apply (all_from_spec ord_valid_ok (Z.to_nat 99421)).
  vm_compute. reflexivity.
Qed.

(** Every date of the years 1969 to 2243 converts to an ordinal and
    back. *)
Lemma date_roundtrip (y m d : Z) :
  1969 <= y < 1969 + 275 -> 1 <= m <= 12 ->
  1 <= d <= days_in_month y m ->
  ord_to_ymd (ymd_to_ord y m d) = (y, m, d).
Proof.
  intros Hy Hm Hd.
  assert (Hall : all_from 275 1969 year_roundtrip_ok = true)
    by (vm_compute; reflexivity).
  pose proof (all_from_spec _ _ _ y Hall ltac:(lia)) as Hyear.
  unfold year_roundtrip_ok in Hyear.
  pose proof (all_from_spec _ _ _ m Hyear ltac:(lia)) as Hmonth.
  cbv beta in Hmonth.
  assert (Hd31 : d <= 31).
  { unfold days_in_month in Hd.
    repeat match type of Hd with
           | context [if ?b then _ else _] => destruct b
           end; lia. }
  pose proof (all_from_spec _ _ _ d Hmonth ltac:(lia)) as Hday.
  cbv beta in Hday. unfold date_roundtrip_ok in Hday.
  replace (d <=? days_in_month y m) with true in Hday
    by (symmetry; apply Z.leb_le; lia).
  cbn [implb] in Hday.
  destruct (ord_to_ymd (ymd_to_ord y m d)) as [[y' m'] d'].
  apply andb_true_iff in Hday as [Hday Hd'].
  apply andb_true_iff in Hday as [Hy' Hm'].
  apply Z.eqb_eq in Hy', Hm', Hd'. now subst.
Qed.

Lemma days_before_month_bounds (y m : Z) :
  1 <= m <= 12 -> 0 <= days_before_month y m <= 335.
Proof.
  intros Hm. unfold days_before_month.
  assert (Hcases : m = 1 \/ m = 2 \/ m = 3 \/ m = 4 \/ m = 5 \/ m = 6
                   \/ m = 7 \/ m = 8 \/ m = 9 \/ m = 10 \/ m = 11
                   \/ m = 12) by lia.
  destruct (is_leap y);
    repeat (destruct Hcases as [Hc|Hcases];
            [subst m; vm_compute; split; discriminate|]);
    subst m; vm_compute; split; discriminate.
Qed.

Lemma days_in_month_bounds (y m : Z) : 28 <= days_in_month y m <= 31.
Proof.
  unfold days_in_month.
  repeat match goal with
         | |- context [if ?b then _ else _] => destruct b
         end; lia.
Qed.

(** A date whose ordinal lies from 1970-01-01 up to [2^33] seconds later
    is a date of the years 1969 to 2243. *)
Lemma year_of_ordinal_in_range (y m d : Z) :
  1 <= m <= 12 -> 1 <= d <= days_in_month y m ->
  epoch_ord <= ymd_to_ord y m d < epoch_ord + 99421 ->
  1969 <= y < 1969 + 275.
Proof.
  intros Hm Hd Ho.
  pose proof (days_before_month_bounds y m Hm).
  pose proof (days_in_month_bounds y m).
  unfold ymd_to_ord, days_before_year, epoch_ord in Ho.
  set (dbm := days_before_month y m) in *. clearbody dbm.
  set (dim := days_in_month y m) in *. clearbody dim.
  Z.to_euclidean_division_equations. lia.
Qed.

(** The datetime [gmtime] builds has fields [datetime] accepts. *)
Lemma gmtime_us_valid (sec us : Z) (d : naive_datetime) :
  0 <= sec < 2 ^ 33 -> 0 <= us < 1000000 ->
  gmtime_us sec us = Ok d -> valid_datetime (aware_utc d).
Proof.
  intros Hsec Hus. unfold gmtime_us.
  pose proof (Z.mod_pos_bound sec 86400 ltac:(lia)) as Hrem.
  assert (Hdays : 0 <= sec / 86400 < 99421).
  { split; [apply Z.div_pos; lia|].
    apply Z.div_lt_upper_bound; [lia|].
    change (2 ^ 33) with 8589934592 in Hsec. lia. }
  pose proof (ord_valid (sec / 86400 + epoch_ord) ltac:(lia)) as Hok.
  unfold ord_valid_ok in Hok.
  destruct (ord_to_ymd (sec / 86400 + epoch_ord)) as [[y m] dd].
  destruct (negb _); [discriminate|].
  destruct ((1 <=? y) && (y <=? 9999)) eqn:Hy; [|discriminate].
  intros [= <-]. cbn [valid_datetime year month day hour minute second
                        microsecond].
  apply andb_true_iff in Hy as [Hy1 Hy2].
  apply andb_true_iff in Hok as [Hok Hd2].
  apply andb_true_iff in Hok as [Hok Hd1].
  apply andb_true_iff in Hok as [Hm1 Hm2].
  apply Z.leb_le in Hy1, Hy2, Hm1, Hm2, Hd1, Hd2.
  set (rem := sec mod 86400) in *. clearbody rem.
  repeat split; try lia; Z.to_euclidean_division_equations; lia.
Qed.

Lemma gmtime_us_returns (sec us : Z) :
  0 <= sec < 2 ^ 33 -> exists d, gmtime_us sec us = Ok d.
Proof.
  intros Hsec. unfold gmtime_us.
  assert (Hdays : 0 <= sec / 86400 < 99421).
  { split; [apply Z.div_pos; lia|].
    apply Z.div_lt_upper_bound; [lia|].
    change (2 ^ 33) with 8589934592 in Hsec. lia. }
  pose proof (ord_roundtrip (sec / 86400 + epoch_ord) ltac:(lia)) as Hok.
  unfold ord_roundtrip_ok in Hok.
  destruct (ord_to_ymd (sec / 86400 + epoch_ord)) as [[y m] dd].
  apply andb_true_iff in Hok as [Hy _].
  rewrite (year_fits_tm_year y Hy), Hy. now eexists.
Qed.

(** From the epoch up to [2^33] seconds after it, a datetime with valid
    fields is determined by its number of microseconds since the epoch. *)
Lemma epoch_us_injective (dt1 dt2 : datetime) :
  valid_datetime dt1 -> valid_datetime dt2 ->
  0 <= epoch_us dt1 < 2 ^ 33 * 1000000 ->
  epoch_us dt2 = epoch_us dt1 -> dt2 = dt1.
Proof.
  destruct dt1 as [[y1 m1 d1 h1 mi1 s1 us1]].
  destruct dt2 as [[y2 m2 d2 h2 mi2 s2 us2]].
  cbn [valid_datetime year month day hour minute second microsecond].
  intros (Hy1 & Hm1 & Hd1 & Hh1 & Hmi1 & Hs1 & Hus1)
         (Hy2 & Hm2 & Hd2 & Hh2 & Hmi2 & Hs2 & Hus2) Hr Heq.
  unfold epoch_us in Hr, Heq.
  cbn [year month day hour minute second microsecond] in Hr, Heq.
  change (2 ^ 33 * 1000000) with 8589934592000000 in Hr.
  set (o1 := ymd_to_ord y1 m1 d1) in *.
  set (o2 := ymd_to_ord y2 m2 d2) in *.
  unfold epoch_ord in Hr, Heq.
  assert (Ho : o2 = o1) by lia.
  assert (Hrange : epoch_ord <= o1 < epoch_ord + 99421)
    by (unfold epoch_ord; lia).
  assert (Hfields : h2 = h1 /\ mi2 = mi1 /\ s2 = s1 /\ us2 = us1) by lia.
  destruct Hfields as (-> & -> & -> & ->).
  pose proof (year_of_ordinal_in_range y1 m1 d1 Hm1 Hd1 Hrange) as Hyr1.
  assert (Hrange2 : epoch_ord <= ymd_to_ord y2 m2 d2 < epoch_ord + 99421)
    by (fold o2; lia).
  pose proof (year_of_ordinal_in_range y2 m2 d2 Hm2 Hd2 Hrange2) as Hyr2.
  pose proof (date_roundtrip y1 m1 d1 Hyr1 Hm1 Hd1) as R1.
  pose proof (date_roundtrip y2 m2 d2 Hyr2 Hm2 Hd2) as R2.
  fold o1 in R1. fold o2 in R2. rewrite Ho in R2.
  rewrite R1 in R2. now injection R2 as -> -> ->.
Qed.

(** *** The E7 decode and its inverse *)

Lemma digits2_pos_unique (p : positive) (k : Z) :
  0 < k -> 2 ^ (k - 1) <= Zpos p < 2 ^ k -> Zpos (digits2_pos p) = k.
Proof. intros Hk Hp. exact (Zdigits2_unique (Zpos p) k Hk Hp). Qed.

(** The E7 decode of an integer of magnitude up to [2^31]: a float with
    the sign of the integer and a full mantissa, whose unit is at most
    [2^-45], within half a unit of the exact quotient by [10^7]. *)
Lemma e7_decode_nearest (s : bool) (pa : positive) :
  Zpos pa <= 2 ^ 31 ->
  exists mq eq,
    fdiv (binary_round prec emax s pa 0) f1e7 = S754_finite s mq eq
    /\ 2 ^ 52 <= Zpos mq < 2 ^ 53
    /\ -77 <= eq <= -45
    /\ - 10000000 <= 2 * (10000000 * Zpos mq) - 2 * (Zpos pa * 2 ^ (- eq))
       <= 10000000.
Proof.
  intros Ha. change (2 ^ 31) with 2147483648 in Ha.
  pose proof (digits2_pos_bounds pa) as Hk.
  set (k := Zpos (digits2_pos pa)) in *.
  assert (Hk1 : 1 <= k) by (unfold k; lia).
  assert (Hk32 : k <= 32).
  { assert (k - 1 < 32); [|lia]. apply pow2_lt_inv; [lia|].
    change (2 ^ 32) with 4294967296. lia. }
  (* float(raw) is exact *)
  destruct (binary_round_exact s pa 0) as (m1 & -> & Hm1); try (fold k; lia).
  fold k in Hm1 |- *. set (U1 := 2 ^ (53 - k)) in *.
  assert (HU1 : 0 < U1) by (apply pow2_pos; lia).
  assert (Hm1b : 2 ^ 52 <= Zpos m1 < 2 ^ 53).
  { rewrite Hm1.
    assert (E53 : 2 ^ 53 = 2 ^ k * U1)
      by (unfold U1; rewrite <- Z.pow_add_r by lia; f_equal; lia).
    assert (E52 : 2 ^ 52 = 2 ^ (k - 1) * U1)
      by (unfold U1; rewrite <- Z.pow_add_r by lia; f_equal; lia).
    nia. }
  (* the division *)
  unfold fdiv. rewrite f1e7_eq, SFdiv_finite. cbv zeta.
  rewrite (digits2_pos_unique m1 53) by (cbn; lia).
  change (Zpos (digits2_pos 5368709120000000)) with 53.
  rewrite fexp_eq.
  replace (Z.min (Z.max (53 + (k + 0 - 53) - (53 + -29) - 53) (-1074))
                 (k + 0 - 53 - -29)) with (k - 77) by lia.
  replace (k + 0 - 53 - -29 - (k - 77)) with 53 by lia.
  set (N := Zpos m1 * 2 ^ 53).
  assert (HNb : 2 ^ 105 <= N < 2 ^ 106).
  { unfold N. change (2 ^ 105) with (2 ^ 52 * 2 ^ 53).
    change (2 ^ 106) with (2 ^ 53 * 2 ^ 53).
    change (2 ^ 53) with 9007199254740992 in *. lia. }
  assert (Hq : 2 ^ 52 <= N / 5368709120000000 < 2 ^ 54).
  { change (2 ^ 105) with 40564819207303340847894502572032 in HNb.
    change (2 ^ 106) with 81129638414606681695789005144064 in HNb.
    change (2 ^ 52) with 4503599627370496.
    change (2 ^ 54) with 18014398509481984.
    split; [apply Z.div_le_lower_bound | apply Z.div_lt_upper_bound]; lia. }
  destruct (Zdigits2_bounds (N / 5368709120000000)) as [Hd0 [Hd1 Hd2]];
    [change (2 ^ 52) with 4503599627370496 in Hq; lia|].
  assert (Hd : 53 <= Zdigits2 (N / 5368709120000000) <= 54).
  { assert (52 < Zdigits2 (N / 5368709120000000))
      by (apply pow2_lt_inv; lia).
    assert (Zdigits2 (N / 5368709120000000) - 1 < 54)
      by (apply pow2_lt_inv; lia). lia. }
  destruct (binary_round_aux_normal (xorb s false) N 5368709120000000
              (k - 77)) as (mq & eq & -> & Hmq & Heq & Herrq); try lia.
  replace (xorb s false) with s by (destruct s; reflexivity).
  exists mq, eq. split; [reflexivity|]. split; [exact Hmq|].
  set (W := 2 ^ (eq - (k - 77))) in *. set (Pq := 2 ^ (- eq)).
  assert (HW : 0 < W) by (apply pow2_pos; lia).
  assert (HPq : 0 < Pq) by (apply pow2_pos; lia).
  assert (EPW : Pq * W * 2 ^ 29 = U1 * 2 ^ 53).
  { unfold Pq, W, U1. rewrite <- !Z.pow_add_r by lia. f_equal. lia. }
  assert (HFq : - 10000000 <= 2 * (10000000 * Zpos mq) - 2 * (Zpos pa * Pq)
                <= 10000000).
  { assert (HNe : N = Zpos pa * (Pq * W * 2 ^ 29))
      by (unfold N; rewrite Hm1, EPW; ring).
    rewrite HNe in Herrq. change (2 ^ 29) with 536870912 in Herrq.
    clear - Herrq HW HPq. nia. }
  assert (Heq45 : eq <= -45).
  { destruct (Z_le_gt_dec eq (-45)) as [Hle|Hgt]; [exact Hle|exfalso].
    assert (HP44 : Pq <= 2 ^ 44) by (apply Z.pow_le_mono_r; lia).
    change (2 ^ 44) with 17592186044416 in HP44.
    change (2 ^ 52) with 4503599627370496 in Hmq.
    clear - HFq HP44 Hmq Ha HPq. nia. }
  split; [lia | exact HFq].
Qed.

(** Decoding an E7 integer of magnitude up to [2^31] and encoding the
    degrees again, [round(x / 1e7 * 1e7)], gives the integer back. *)
Lemma e7_roundtrip_magnitude (s : bool) (pa : positive) :
  Zpos pa <= 2 ^ 31 ->
  float_round_half_even
    (fmul (fdiv (binary_round prec emax s pa 0) f1e7) f1e7)
  = Some (cond_Zopp s (Zpos pa)).
Proof.
  intros Ha.
  destruct (e7_decode_nearest s pa Ha) as (mq & eq & -> & Hmq & Heq & HFq).
  change (2 ^ 31) with 2147483648 in Ha.
  set (Pq := 2 ^ (- eq)) in *.
  assert (HPq45 : 2 ^ 45 <= Pq) by (apply Z.pow_le_mono_r; lia).
  rewrite f1e7_eq.
  (* the multiplication *)
  unfold fmul. rewrite SFmul_finite. cbv zeta.
  set (N2 := Zpos mq * 5368709120000000).
  assert (HN2b : 2 ^ 104 <= N2 < 2 ^ 106).
  { unfold N2. change (2 ^ 52) with 4503599627370496 in Hmq.
    change (2 ^ 53) with 9007199254740992 in Hmq.
    change (2 ^ 104) with 20282409603651670423947251286016.
    change (2 ^ 106) with 81129638414606681695789005144064. lia. }
  destruct (Zdigits2_bounds N2) as [Hd0' [Hd1' Hd2']];
    [change (2 ^ 104) with 20282409603651670423947251286016 in HN2b; lia|].
  assert (Hd' : 105 <= Zdigits2 N2 <= 106).
  { assert (104 < Zdigits2 N2) by (apply pow2_lt_inv; lia).
    assert (Zdigits2 N2 - 1 < 106) by (apply pow2_lt_inv; lia). lia. }
  destruct (binary_round_aux_normal (xorb s false) N2 1
              (eq + -29)) as (mp & ep & Hbra & Hmp & Hep & Herrp);
    try (rewrite ?Z.div_1_r; lia).
  rewrite Z.div_1_r in Hep. rewrite Hbra. rewrite Z.mul_1_l in Herrp.
  set (W2 := 2 ^ (ep - (eq + -29))) in *.
  assert (HW2 : 0 < W2) by (apply pow2_pos; lia).
  assert (Hep21 : ep <= -21).
  { destruct (Z_le_gt_dec ep (-21)) as [Hle|Hgt]; [exact Hle|exfalso].
    set (W0 := 2 ^ (- 20 - (eq + -29))).
    assert (HW0 : W0 <= W2) by (apply Z.pow_le_mono_r; lia).
    assert (EW0 : W0 * 2 ^ 20 = Pq * 2 ^ 29).
    { unfold W0, Pq. rewrite <- !Z.pow_add_r by lia. f_equal. lia. }
    change (2 ^ 20) with 1048576 in EW0.
    change (2 ^ 29) with 536870912 in EW0.
    change (2 ^ 45) with 35184372088832 in HPq45.
    change (2 ^ 52) with 4503599627370496 in Hmp.
    unfold N2 in Herrp.
    assert (Hlow : W0 * 9007199254740991 <= W2 * (2 * Zpos mp - 1))
      by (clear - HW0 Hmp HW2 HPq45 EW0; nia).
    clear - Hlow Herrp HFq EW0 HPq45 Ha. nia. }
  rewrite float_round_half_even_finite by lia.
  replace (xorb s false) with s by (destruct s; reflexivity).
  f_equal. f_equal.
  set (Pp := 2 ^ (- ep)).
  assert (HPp : 2 ^ 21 <= Pp) by (apply Z.pow_le_mono_r; lia).
  destruct (RNE_error (Zpos mp) Pp ltac:(lia)) as [HR _];
    [change (2 ^ 21) with 2097152 in HPp; lia|].
  set (R := RNE (Zpos mp) Pp) in *.
  assert (EWP : W2 * Pp = Pq * 2 ^ 29).
  { unfold W2, Pp, Pq. rewrite <- !Z.pow_add_r by lia. f_equal. lia. }
  assert (HFp : - Pq <= 2 * (Pq * Zpos mp) - 2 * (10000000 * Zpos mq * Pp)
                <= Pq).
  { assert (Hs : - (W2 * Pp) <= 2 * (W2 * Pp * Zpos mp) - 2 * (N2 * Pp)
                 <= W2 * Pp)
      by (change (2 ^ 21) with 2097152 in HPp; clear - Herrp HPp; nia).
    rewrite EWP in Hs. unfold N2 in Hs.
    change (2 ^ 29) with 536870912 in Hs. clear - Hs. nia. }
  change (2 ^ 21) with 2097152 in HPp.
  change (2 ^ 45) with 35184372088832 in HPq45.
  assert (Hb : - (2 * (Pq * Pp)) < 2 * (Pq * Pp) * (R - Zpos pa)
               < 2 * (Pq * Pp)).
  { clear - HR HFp HFq HPp HPq45. nia. }
  clear - Hb HPp HPq45. nia.
Qed.

(** *** C1: a top-level scalar *)

(** C1 (evaluated at the failing input): on the top-level JSON scalar [5]
    no extractor ends normally. The three list extractors yield their
    document-shape error and then [for ... in json_data] raises [TypeError]
    out of the generator; the semantic extractor yields one
    document-shape error and then ["timelineObjects" not in json_data]
    raises; the coarse-location and browser-history extractors raise at
    their first membership test, before yielding anything. *)
Theorem C1_top_level_scalar_raises `{Collaborators} (p : Path) :
  _parse_json_activity p (JInt 5)
    = mk_gen [Error (not_a_list "Activity" p)] (Some TypeError)
  /\ _parse_likes p (JInt 5)
    = mk_gen [Error (not_a_list "Likes" p)] (Some TypeError)
  /\ _parse_app_installs p (JInt 5)
    = mk_gen [Error (not_a_list "App installs" p)] (Some TypeError)
  /\ _parse_location_history p (JInt 5) = mk_gen [] (Some TypeError)
  /\ _parse_semantic_location_history p (JInt 5)
    = mk_gen [Error (not_a_dict p)] (Some TypeError)
  /\ _parse_chrome_history p (JInt 5) = mk_gen [] (Some TypeError).
Proof. repeat split; reflexivity. Qed.

(** Every JSON scalar other than a string does the same to the list
    extractors. *)
Lemma list_extractors_raise_on_scalar `{Collaborators} (p : Path) (j : Json) :
  py_iter j = Raise TypeError ->
  raised (_parse_json_activity p j) = Some TypeError
  /\ raised (_parse_likes p j) = Some TypeError
  /\ raised (_parse_app_installs p j) = Some TypeError.
Proof.
  intros Hj.
  unfold _parse_json_activity, _parse_likes, _parse_app_installs.
  rewrite Hj.
  destruct j; try discriminate Hj; repeat split; reflexivity.
Qed.

(** *** C2: one element per timeline object *)

(** A timeline object with neither branch key yields its error and then
    whatever [result] holds: a second error while [result] is unassigned,
    the previous event again when it holds one. *)
Lemma timeline_body_neither_key `{Collaborators} (p : Path)
  (result : result_var) (d : list (string * Json)) :
  lookup "placeVisit" d = None ->
  lookup "activitySegment" d = None ->
  timeline_body p result (JDict d)
  = (Error (unknown_timeline_object (keys d) p) :: yield_result result,
     result).
Proof.
  intros Hp Ha. unfold timeline_body, py_contains. now rewrite Hp, Ha.
Qed.

(** C2 (evaluated at the failing input): the document
    [{"timelineObjects": [{}]}] has one timeline object, with neither
    branch key, and the outcome sequence has two elements: the error naming
    the keys, then an [UnboundLocalError] for [result]. *)
Theorem C2_neither_key_yields_two `{Collaborators} (p : Path) :
  _parse_semantic_location_history p
    (JDict [("timelineObjects", JList [JDict []])])
  = mk_gen [Error (unknown_timeline_object [] p);
            Error (UnboundLocalError "result")] None.
Proof. reflexivity. Qed.

(** After a place visit, the object with neither branch key yields its
    error and then the place visit a second time. *)
Example neither_key_repeats_previous_event :
  yielded (_parse_semantic_location_history (H := spec_collaborators) "file"
             (JDict [("timelineObjects",
                      JList [JDict [("placeVisit", _TEST_PLACE_VISIT)];
                             JDict []])]))
  = [Event (EvPlaceVisit test_place_visit_event);
     Error (unknown_timeline_object [] "file");
     Event (EvPlaceVisit test_place_visit_event)].
Proof. vm_compute. reflexivity. Qed.

(** *** C3: the silent discard *)

Lemma timeline_body_dispatched `{Collaborators} (p : Path)
  (r1 r2 : result_var) (o : Json) :
  dispatched o ->
  fst (timeline_body p r1 o) = fst (timeline_body p r2 o).
Proof.
  intros Hd. unfold timeline_body.
  destruct (py_contains "placeVisit" o) as [[|]|e] eqn:Ep; [| |reflexivity].
  - destruct (bind _ _); reflexivity.
  - destruct (py_contains "activitySegment" o) as [[|]|e'] eqn:Ea;
      [| |reflexivity].
    + destruct (bind _ _); reflexivity.
    + destruct Hd as [Hd|Hd]; congruence.
Qed.

Lemma timeline_loop_dispatched `{Collaborators} (p : Path) (r : result_var)
  (l : list Json) :
  Forall dispatched l ->
  fst (timeline_loop p r l)
  = flat_map (fun o => fst (timeline_body p Unbound o)) l.
Proof.
  intros Hl. revert r.
  induction Hl as [|o l Ho _ IH]; intros r; [reflexivity|].
  cbn [timeline_loop flat_map].
  rewrite <- (timeline_body_dispatched p r Unbound o Ho).
  destruct (timeline_body p r o) as [out r'].
  specialize (IH r'). destruct (timeline_loop p r' l) as [outs r''].
  cbn [fst] in *. now rewrite IH.
Qed.

Lemma place_visit_discarded `{Collaborators}
  (pv loc : list (string * Json)) (k : string) :
  lookup "location" pv = Some (JDict loc) ->
  lookup "duration" pv <> None ->
  In k _sem_required_location_keys ->
  lookup k loc = None ->
  _parse_place_visit (JDict pv) = Ok None.
Proof.
  intros Hloc Hdur Hin Hk. unfold _parse_place_visit.
  rewrite check_required_keys_present.
  2:{ repeat constructor; [rewrite Hloc; discriminate | exact Hdur]. }
  cbn [bind]. unfold place_visit_body.
  cbn [py_getitem]. rewrite Hloc. cbn [bind].
  destruct (check_required_keys_missing loc _ k Hin Hk) as [k' ->].
  reflexivity.
Qed.

(** C3: a timeline object whose [placeVisit] has the keys [location] and
    [duration] but whose [location] object lacks one of [placeId],
    [latitudeE7], [longitudeE7] yields nothing, neither event nor error,
    whatever came before it. The document's outcome sequence is that of the
    objects before it followed by that of the objects after it, no
    exception leaves the extractor, and every other object that carries a
    branch key contributes exactly what it yields on its own. *)
Theorem C3_place_visit_silent_discard `{Collaborators} (p : Path)
  (d pv loc : list (string * Json)) (k : string) (pre post : list Json) :
  lookup "placeVisit" d = Some (JDict pv) ->
  lookup "location" pv = Some (JDict loc) ->
  lookup "duration" pv <> None ->
  In k _sem_required_location_keys ->
  lookup k loc = None ->
  let doc := JDict [("timelineObjects", JList (pre ++ JDict d :: post))] in
  (forall result, fst (timeline_body p result (JDict d)) = [])
  /\ yielded (_parse_semantic_location_history p doc)
     = (fst (timeline_loop p Unbound pre)
        ++ fst (timeline_loop p (Bound None) post))%list
  /\ raised (_parse_semantic_location_history p doc) = None
  /\ (Forall dispatched (pre ++ post) ->
      yielded (_parse_semantic_location_history p doc)
      = flat_map (fun o => fst (timeline_body p Unbound o)) (pre ++ post)).
Proof.
  intros Hpv Hloc Hdur Hin Hk doc.
  assert (Hbody : forall result,
             timeline_body p result (JDict d) = ([], Bound None)).
  { intros result. unfold timeline_body. cbn [py_contains py_getitem].
    rewrite Hpv. cbn [bind].
    now rewrite (place_visit_discarded pv loc k Hloc Hdur Hin Hk). }
  assert (Hy : yielded (_parse_semantic_location_history p doc)
               = (fst (timeline_loop p Unbound pre)
                  ++ fst (timeline_loop p (Bound None) post))%list).
  { unfold doc, _parse_semantic_location_history.
    cbn -[timeline_loop]. rewrite timeline_loop_app.
    destruct (timeline_loop p Unbound pre) as [o1 r1].
    cbn [timeline_loop]. rewrite Hbody.
    destruct (timeline_loop p (Bound None) post) as [o2 r2].
    reflexivity. }
  repeat split.
  - intros result. now rewrite Hbody.
  - exact Hy.
  - intros Hall. rewrite Hy. apply Forall_app in Hall as [Hpre Hpost].
    rewrite flat_map_app.
    now rewrite !timeline_loop_dispatched.
Qed.

Lemma C3_place_visit_silent_discard_witness :
  yielded (_parse_semantic_location_history (H := spec_collaborators) "file"
             (JDict [("timelineObjects", JList [JDict discard_object])]))
  = [].
Proof.
  refine (proj1 (proj2 (C3_place_visit_silent_discard
                          (H := spec_collaborators) "file" discard_object
                          _ _ "placeId" [] [] eq_refl eq_refl _ _ eq_refl))).
  - discriminate.
  - left; reflexivity.
Defined.

(** *** C4: a record that is not an object *)

(** C4 (evaluated at the failing input): on [{"locations": [5]}] the
    coarse location-history extractor yields nothing and [loc.get], which
    is read before the [try], raises [AttributeError] out of the
    generator. *)
Theorem C4_non_object_record_escapes `{Collaborators} (p : Path) :
  _parse_location_history p (JDict [("locations", JList [JInt 5])])
  = mk_gen [] (Some AttributeError).
Proof. reflexivity. Qed.

(** A loop whose turns each yield once, up to a turn that raises. *)
Lemma gen_loop_stops {A T : Type} (body : A -> gen T) (e : exn)
  (l1 l2 : list A) (x : A) :
  (forall a, In a l1 ->
     raised (body a) = None /\ List.length (yielded (body a)) = 1%nat) ->
  body x = abort e ->
  raised (gen_loop body (l1 ++ x :: l2)) = Some e
  /\ List.length (yielded (gen_loop body (l1 ++ x :: l2))) = List.length l1.
Proof.
  intros Hl1 Hx.
  induction l1 as [|a l1 IH]; cbn [app gen_loop].
  - rewrite Hx. split; reflexivity.
  - destruct (Hl1 a (or_introl eq_refl)) as [Hr Hy].
    destruct IH as [IH1 IH2]; [intros b Hb; apply Hl1; now right|].
    unfold gen_seq. rewrite Hr. cbn [raised yielded].
    split; [exact IH1|].
    rewrite length_app, Hy, IH2. reflexivity.
Qed.

(** The same at any position: the records before are processed, the
    non-object record ends the generator, the records after are never
    reached. *)
Lemma location_history_stops_at_non_object `{Collaborators} (p : Path)
  (pre : list (list (string * Json))) (post : list Json) (x : Json) :
  isinstance_dict x = false ->
  let doc := JDict [("locations", JList (map JDict pre ++ x :: post))] in
  raised (_parse_location_history p doc) = Some AttributeError
  /\ List.length (yielded (_parse_location_history p doc)) = List.length pre.
Proof.
  intros Hx doc. unfold doc, _parse_location_history.
  cbn [py_contains lookup String.eqb Ascii.eqb Bool.eqb gen_bind negb
       py_get py_iter].
  unfold gen_seq at 1. cbn [done raised yielded app].
  match goal with
  | |- context [gen_loop ?b _] =>
      destruct (gen_loop_stops b AttributeError (map JDict pre) post x)
        as [H1 H2]
  end.
  - intros a Ha. apply in_map_iff in Ha as (d & <- & _).
    cbn [py_get gen_bind].
    destruct (lookup "accuracy" d); cbn [gen_bind];
      match goal with
      | |- context [location_of ?a ?b] => destruct (location_of a b)
      end; split; reflexivity.
  - destruct x; try discriminate Hx; reflexivity.
  - rewrite length_map in H2. destruct (gen_loop _ _) as [ys r].
    cbn [raised yielded] in *. subst r. split; [reflexivity|exact H2].
Qed.

(** *** C5: a missing startLocation or endLocation key *)

(** C5 (as stated, refuted): this segment has [duration] and [activities]
    and no [startLocation]; the sub-builder raises, and the extractor
    yields the error and no event. *)
Lemma C5_missing_startLocation_counterexample :
  _parse_activity_segment (H := spec_collaborators)
    (JDict segment_without_locations)
  = Raise (missing_location_key "startLocation"
             (JDict segment_without_locations))
  /\ yielded (_parse_semantic_location_history
                (H := spec_collaborators) "file"
                (JDict [("timelineObjects",
                         JList [JDict [("activitySegment",
                                        JDict segment_without_locations)]])]))
     = [Error (missing_location_key "startLocation"
                 (JDict segment_without_locations))].
Proof. split; reflexivity. Qed.

(** C5 (amended): an activity segment with [duration] and [activities] but
    without the [startLocation] key makes the sub-builder raise the
    [RuntimeError] that names [startLocation]. One with a [startLocation]
    but without the [endLocation] key raises as well: the [RuntimeError]
    that names [endLocation] when the [startLocation] is falsy or decodes.
    In each case the timeline object yields that one error and no event. *)
Theorem C5_missing_location_key_is_an_error `{Collaborators} (p : Path)
  (d : list (string * Json)) (result : result_var) :
  lookup "duration" d <> None ->
  lookup "activities" d <> None ->
  lookup "startLocation" d = None \/ lookup "endLocation" d = None ->
  (lookup "startLocation" d = None ->
   _parse_activity_segment (JDict d)
   = Raise (missing_location_key "startLocation" (JDict d)))
  /\ (forall sl,
        lookup "startLocation" d = Some sl ->
        py_truthy sl = false
        \/ (exists start, CandidateLocation.from_dict sl = Ok start) ->
        _parse_activity_segment (JDict d)
        = Raise (missing_location_key "endLocation" (JDict d)))
  /\ exists e,
       _parse_activity_segment (JDict d) = Raise e
       /\ timeline_body p result (JDict [("activitySegment", JDict d)])
          = ([Error e], result).
Proof.
  intros Hdur Hact Hmiss.
  assert (Hchk : _check_required_keys (JDict d)
                   _sem_activity_segment_required_keys = Ok None).
  { apply check_required_keys_present. repeat constructor; assumption. }
  assert (Hstart : lookup "startLocation" d = None ->
                   _parse_activity_segment (JDict d)
                   = Raise (missing_location_key "startLocation" (JDict d))).
  { intros Hs. unfold _parse_activity_segment. rewrite Hchk. cbn [bind].
    unfold activity_segment_body. cbn [py_getitem]. now rewrite Hs. }
  split; [exact Hstart|]. split.
  - intros sl Es Hsl.
    destruct Hmiss as [Hs|He]; [congruence|].
    unfold _parse_activity_segment. rewrite Hchk. cbn [bind].
    unfold activity_segment_body. cbn [py_getitem]. rewrite Es, He.
    cbn [bind].
    destruct Hsl as [Hfalsy|[start Hstartloc]].
    + now rewrite Hfalsy.
    + rewrite Hstartloc. now destruct (py_truthy sl).
  - assert (Hraise : exists e, _parse_activity_segment (JDict d) = Raise e).
    { destruct (lookup "startLocation" d) as [sl|] eqn:Es;
        [|eexists; now apply Hstart].
      destruct Hmiss as [Hs|He]; [discriminate|].
      unfold _parse_activity_segment. rewrite Hchk. cbn [bind].
      unfold activity_segment_body. cbn [py_getitem]. rewrite Es, He.
      cbn [bind].
      destruct (py_truthy sl).
      - destruct (CandidateLocation.from_dict sl) as [c|e]; cbn [bind].
        + eexists; reflexivity.
        + apply rewrap_KeyError_Raise.
      - eexists; reflexivity. }
    destruct Hraise as [e He]. exists e. split; [exact He|].
    unfold timeline_body. cbn [py_contains py_getitem lookup String.eqb
                               Ascii.eqb Bool.eqb bind].
    now rewrite He.
Qed.

Lemma C5_missing_location_key_is_an_error_witness :
  _parse_activity_segment (H := spec_collaborators)
    (JDict segment_without_locations)
  = Raise (missing_location_key "startLocation"
             (JDict segment_without_locations))
  /\ _parse_activity_segment (H := spec_collaborators)
       (JDict segment_without_endLocation)
     = Raise (missing_location_key "endLocation"
                (JDict segment_without_endLocation)).
Proof.
  split.
  - refine (proj1 (C5_missing_location_key_is_an_error
                     (H := spec_collaborators) "file"
                     segment_without_locations Unbound _ _ _) eq_refl).
    + discriminate.
    + discriminate.
    + left; reflexivity.
  - refine (proj1 (proj2 (C5_missing_location_key_is_an_error
                            (H := spec_collaborators) "file"
                            segment_without_endLocation Unbound _ _ _))
              (JDict []) eq_refl _).
    + discriminate.
    + discriminate.
    + right; reflexivity.
    + left; reflexivity.
Defined.

(** *** C6: an empty startLocation or endLocation object *)

(** C6: when the sub-builder returns an event for a segment whose
    [startLocation] is the empty object, the event's [startLat] and
    [startLng] are both [None]; likewise [endLat] and [endLng] for an empty
    [endLocation]. Neither is ever the coordinate [0.0]. *)
Theorem C6_empty_location_is_absent `{Collaborators}
  (activitySegment : Json) (ev : ActivitySegment.t) :
  _parse_activity_segment activitySegment = Ok (Some ev) ->
  (py_getitem activitySegment "startLocation" = Ok (JDict []) ->
   ActivitySegment.startLat ev = None /\ ActivitySegment.startLng ev = None)
  /\ (py_getitem activitySegment "endLocation" = Ok (JDict []) ->
      ActivitySegment.endLat ev = None /\ ActivitySegment.endLng ev = None).
Proof.
  intros Hev. unfold _parse_activity_segment in Hev.
  apply bind_Ok in Hev as (mk & _ & Hev).
  destruct mk; [discriminate|].
  apply rewrap_KeyError_Ok in Hev.
  unfold activity_segment_body in Hev.
  apply bind_Ok in Hev as (sl & Esl & Hev).
  apply bind_Ok in Hev as (startLatLng & Es & Hev).
  apply bind_Ok in Hev as (el & Eel & Hev).
  apply bind_Ok in Hev as (endLatLng & Ee & Hev).
  bind_inv Hev. injection Hev as <-. cbn.
  split; intros Hempty.
  - rewrite Hempty in Esl. injection Esl as <-.
    cbn in Es. injection Es as <-. split; reflexivity.
  - rewrite Hempty in Eel. injection Eel as <-.
    cbn in Ee. injection Ee as <-. split; reflexivity.
Qed.

Lemma C6_empty_location_is_absent_witness :
  _parse_activity_segment (H := spec_collaborators)
    _TEST_ACTIVITY_SEGMENT_BASIC = Ok (Some basic_segment_event)
  /\ (ActivitySegment.startLat basic_segment_event = None
      /\ ActivitySegment.startLng basic_segment_event = None)
  /\ (ActivitySegment.endLat basic_segment_event = None
      /\ ActivitySegment.endLng basic_segment_event = None).
Proof.
  destruct (C6_empty_location_is_absent (H := spec_collaborators)
              _TEST_ACTIVITY_SEGMENT_BASIC basic_segment_event
              basic_segment_parses) as [Hs He].
  split; [exact basic_segment_parses|].
  split; [exact (Hs eq_refl) | exact (He eq_refl)].
Defined.

(** *** C7: the identity keys *)

Lemma int_timestamp_epoch_second (dt : datetime) :
  in_float_range dt -> int_timestamp dt = Ok (epoch_second dt).
Proof. intros Hr. exact (int_of_truediv_1e6 (epoch_us dt) Hr). Qed.

(** C7 (as stated, refuted): two activity segments whose start timestamps
    differ have the same key, so the key is not the tuple with the start
    timestamp itself: its time components are truncated to the second. And
    far from the epoch the binary64 timestamp rounds up before [int]
    truncates it: the time component of the key is then the second after
    the epoch second of the timestamp. *)
Lemma C7_segment_key_is_truncated_counterexample :
  ActivitySegment.key basic_segment_event
  = Ok (1354766971, 1354767561, JInt 735)
  /\ ActivitySegment.key later_segment_event
     = Ok (1354766971, 1354767561, JInt 735)
  /\ worded_ActivitySegment_key basic_segment_event
     <> worded_ActivitySegment_key later_segment_event
  /\ Activity.key far_activity
     = Ok (JStr "Search", JStr "Searched for x", 221845392001)
  /\ epoch_second (Activity.time far_activity) = 221845392000.
Proof.
  split; [vm_compute; reflexivity|].
  split; [vm_compute; reflexivity|].
  split; [|split; vm_compute; reflexivity].
  unfold worded_ActivitySegment_key. cbn. intros E. discriminate E.
Qed.

(** C7 (amended): for events whose timestamps lie from the epoch up to
    [2^33] seconds after it, the key of an Activity is (header, title,
    epoch second of the time), of a PlaceVisit (lat, lng, epoch second of
    the start, visit confidence), of an ActivitySegment (epoch second of
    the start, epoch second of the end, distance) and of a browser-history
    entry (url, epoch second of the time): every time component is
    [int(t.timestamp())], the whole number of seconds since the epoch. *)
Theorem C7_identity_keys (a : Activity.t) (v : PlaceVisit.t)
  (s : ActivitySegment.t) (h : ChromeHistory.t) :
  in_float_range (Activity.time a) ->
  in_float_range (PlaceVisit.startTime v) ->
  in_float_range (ActivitySegment.startTime s) ->
  in_float_range (ActivitySegment.endTime s) ->
  in_float_range (ChromeHistory.dt h) ->
  Activity.key a
  = Ok (Activity.header a, Activity.title a,
        epoch_second (Activity.time a))
  /\ PlaceVisit.key v
     = Ok (PlaceVisit.lat v, PlaceVisit.lng v,
           epoch_second (PlaceVisit.startTime v),
           PlaceVisit.visitConfidence v)
  /\ ActivitySegment.key s
     = Ok (epoch_second (ActivitySegment.startTime s),
           epoch_second (ActivitySegment.endTime s),
           ActivitySegment.distance s)
  /\ ChromeHistory.key h
     = Ok (ChromeHistory.url h, epoch_second (ChromeHistory.dt h)).
Proof.
  intros Ha Hv Hs He Hh.
  unfold Activity.key, PlaceVisit.key, ActivitySegment.key,
    ChromeHistory.key.
  rewrite !int_timestamp_epoch_second by assumption.
  repeat split.
Qed.

Lemma C7_identity_keys_witness :
  Activity.key legacy_event = Ok (JStr "YouTube", JStr "Watched a video",
                                  1456827630)
  /\ PlaceVisit.key test_place_visit_event
     = Ok (S754_finite false 7818749345255028 (-47),
           S754_finite true 7505999374259577 (-46), 1512948565,
           JFloat (S754_finite false 4605634306428109 (-46)))
  /\ ActivitySegment.key basic_segment_event
     = Ok (1354766971, 1354767561, JInt 735)
  /\ ChromeHistory.key test_chrome_event
     = Ok (JStr "https://sean.fish", 1617404690).
Proof.
  refine (C7_identity_keys legacy_event test_place_visit_event
            basic_segment_event test_chrome_event _ _ _ _ _);
    unfold in_float_range; vm_compute; split; congruence.
Defined.

(** *** C8: the browser-history timestamp and url *)

(** C8 (as stated, refuted): the claim sets no bound on [time_usec]. One
    microsecond after [2^33] seconds the binary64 quotient
    [time_usec / 10**6] no longer tells the microseconds apart: the event
    is a microsecond late. *)
Lemma C8_beyond_the_range_counterexample :
  chrome_history_of
    (JDict [("title", JStr "sean"); ("url", JStr "http://sean.fish");
            ("time_usec", JInt (2 ^ 33 * 1000000 + 1))])
  = Ok (ChromeHistory.mk (JStr "sean") (JStr "http://sean.fish")
          (aware_utc (mk_naive 2242 3 16 12 56 32 2)))
  /\ epoch_us (aware_utc (mk_naive 2242 3 16 12 56 32 2))
     = 2 ^ 33 * 1000000 + 2.
Proof. split; vm_compute; reflexivity. Qed.

(** C8 (amended): a browser-history record with an int [time_usec] from
    the epoch up to [2^33] seconds after it, a [title] and a [url] is built
    into an event. The timestamp of the event is the datetime, of fields
    [datetime] accepts, exactly [time_usec] microseconds after the epoch,
    and there is no other such datetime; its url and title are the
    record's, as they are. *)
Theorem C8_chrome_timestamp_and_url
  (d : list (string * Json)) (u : Z) (title url : Json) :
  lookup "time_usec" d = Some (JInt u) ->
  lookup "title" d = Some title ->
  lookup "url" d = Some url ->
  0 <= u < 2 ^ 33 * 1000000 ->
  exists ev,
    chrome_history_of (JDict d) = Ok ev
    /\ valid_datetime (ChromeHistory.dt ev)
    /\ epoch_us (ChromeHistory.dt ev) = u
    /\ (forall dt, valid_datetime dt -> epoch_us dt = u ->
        dt = ChromeHistory.dt ev)
    /\ ChromeHistory.url ev = url
    /\ ChromeHistory.title ev = title.
Proof.
  intros Ht Hti Hu Hr.
  pose proof (utcfromtimestamp_of_truediv u Hr) as Hutc.
  pose proof (int_of_truediv_1e6 u Hr) as Hfin.
  assert (Hsec : 0 <= u / 1000000 < 2 ^ 33).
  { split; [apply Z.div_pos; lia | apply Z.div_lt_upper_bound; lia]. }
  pose proof (Z.mod_pos_bound u 1000000 ltac:(lia)) as Hus.
  destruct (gmtime_us_returns (u / 1000000) (u mod 1000000) Hsec)
    as [naive Hnaive].
  assert (Hinstant : epoch_us (aware_utc naive) = u).
  { rewrite (epoch_us_gmtime_us _ _ naive Hsec Hnaive).
    pose proof (Z.div_mod u 1000000 ltac:(lia)). lia. }
  exists (ChromeHistory.mk title url (aware_utc naive)).
  cbn [ChromeHistory.dt ChromeHistory.url ChromeHistory.title].
  split; [|split; [|split; [|split; [|split]]]]; try reflexivity.
  - unfold chrome_history_of. cbn [py_getitem]. rewrite Ht, Hti, Hu.
    cbn [bind py_div_int]. change (10 ^ 6) with 1000000.
    destruct (int_truediv u 1000000) as [t|e]; [|discriminate Hfin].
    cbn [bind] in Hutc |- *. now rewrite Hutc, Hnaive.
  - exact (gmtime_us_valid _ _ naive Hsec Hus Hnaive).
  - exact Hinstant.
  - intros dt Hv Hdt.
    apply (epoch_us_injective (aware_utc naive) dt);
      [exact (gmtime_us_valid _ _ naive Hsec Hus Hnaive) | exact Hv
      | now rewrite Hinstant | now rewrite Hinstant].
Qed.

Lemma C8_chrome_timestamp_and_url_witness :
  chrome_history_of (JDict chrome_record)
  = Ok (ChromeHistory.mk (JStr "sean") (JStr "http://sean.fish")
          (aware_utc (mk_naive 2021 4 2 23 4 50 134513))).
Proof.
  destruct (C8_chrome_timestamp_and_url
              chrome_record 1617404690134513 (JStr "sean")
              (JStr "http://sean.fish") eq_refl eq_refl eq_refl)
    as (ev & Hev & _ & _ & Huniq & Hurl & Htitle).
  - lia.
  - rewrite Hev. destruct ev as [title url dt].
    cbn [ChromeHistory.dt ChromeHistory.url ChromeHistory.title] in *.
    rewrite Hurl, Htitle.
    rewrite <- (Huniq (aware_utc (mk_naive 2021 4 2 23 4 50 134513))).
    + reflexivity.
    + cbn. lia.
    + reflexivity.
Defined.

(** *** C9: the E7 decode and its inverse *)

Lemma py_round_Some (f : float) (z : Z) :
  float_round_half_even f = Some z -> py_round f = Ok z.
Proof.
  intros Hf. unfold py_round. rewrite Hf.
  destruct f; try reflexivity; discriminate Hf.
Qed.

(** An E7 integer of magnitude up to [2^31] decoded by either spelling of
    the code, [raw / 1e7] and [float(raw) / 1e7]: the binary64 quotient, a
    float nearest to the exact quotient, from which [round(degrees * 1e7)]
    gives [raw] back. *)
Lemma e7_int_decode `{Collaborators} (raw : Z) :
  - 2 ^ 31 <= raw <= 2 ^ 31 ->
  exists degrees,
    py_div_float (JInt raw) f1e7 = Ok degrees
    /\ e7_of_float (JInt raw) = Ok degrees
    /\ nearest_to_ratio degrees raw 10000000
    /\ py_round (fmul degrees f1e7) = Ok raw.
Proof.
  intros Hr.
  destruct raw as [|pa|pa].
  - exists (S754_zero false). repeat split; reflexivity.
  - pose proof (e7_roundtrip_magnitude false pa ltac:(lia)) as Hrt.
    destruct (e7_decode_nearest false pa ltac:(lia))
      as (mq & eq & Hq & Hmq & Heq & Hn).
    assert (Hk : Zpos (digits2_pos pa) <= 32).
    { assert (Zpos (digits2_pos pa) - 1 < 32); [|lia].
      pose proof (digits2_pos_bounds pa). apply pow2_lt_inv; [lia|].
      change (2 ^ 31) with 2147483648 in Hr.
      change (2 ^ 32) with 4294967296. lia. }
    destruct (binary_round_exact false pa 0) as (m1 & Hm1 & _); try lia.
    exists (S754_finite false mq eq).
    unfold e7_of_float, py_div_float, py_float, float_of_int, Z2F,
      binary_normalize.
    rewrite Hm1. cbn [bind]. rewrite <- Hm1, Hq.
    repeat split; try lia.
    apply py_round_Some. rewrite <- Hq. exact Hrt.
  - pose proof (e7_roundtrip_magnitude true pa ltac:(lia)) as Hrt.
    destruct (e7_decode_nearest true pa ltac:(lia))
      as (mq & eq & Hq & Hmq & Heq & Hn).
    assert (Hk : Zpos (digits2_pos pa) <= 32).
    { assert (Zpos (digits2_pos pa) - 1 < 32); [|lia].
      pose proof (digits2_pos_bounds pa). apply pow2_lt_inv; [lia|].
      change (2 ^ 31) with 2147483648 in Hr.
      change (2 ^ 32) with 4294967296. lia. }
    destruct (binary_round_exact true pa 0) as (m1 & Hm1 & _); try lia.
    exists (S754_finite true mq eq).
    unfold e7_of_float, py_div_float, py_float, float_of_int, Z2F,
      binary_normalize.
    rewrite Hm1. cbn [bind]. rewrite <- Hm1, Hq.
    repeat split; try lia.
    apply py_round_Some. rewrite <- Hq. exact Hrt.
Qed.

(** The centre of a place visit that was built, from its record. *)
Lemma place_visit_centre `{Collaborators} (d : list (string * Json))
  (clat clng : Json) (v : PlaceVisit.t) :
  lookup "centerLatE7" d = Some clat ->
  lookup "centerLngE7" d = Some clng ->
  _parse_place_visit (JDict d) = Ok (Some v) ->
  exists lat lng,
    e7_of_float clat = Ok lat /\ e7_of_float clng = Ok lng
    /\ PlaceVisit.centerLat v = Some lat
    /\ PlaceVisit.centerLng v = Some lng.
Proof.
  intros Elat Elng Hv. unfold _parse_place_visit in Hv.
  apply bind_Ok in Hv as ([k|] & _ & Hv); [discriminate|].
  apply rewrap_KeyError_Ok in Hv. unfold place_visit_body in Hv.
  apply bind_Ok in Hv as (location_json & _ & Hv).
  apply bind_Ok in Hv as ([k|] & _ & Hv); [discriminate|].
  apply bind_Ok in Hv as (location & _ & Hv).
  apply bind_Ok in Hv as (duration & _ & Hv).
  apply bind_Ok in Hv as (ocl & _ & Hv).
  apply bind_Ok in Hv as (pvs & _ & Hv).
  apply bind_Ok in Hv as (others & _ & Hv).
  rewrite !py_get_dict in Hv. cbn [bind] in Hv.
  cbn [py_contains py_getitem bind] in Hv.
  rewrite Elat, Elng in Hv. cbn [bind] in Hv.
  apply bind_Ok in Hv as (cl & Ecl & Hv).
  apply bind_Ok in Ecl as (lat & Flat & [= <-]).
  apply bind_Ok in Hv as (cg & Ecg & Hv).
  apply bind_Ok in Ecg as (lng & Flng & [= <-]).
  bind_inv Hv. injection Hv as <-.
  exists lat, lng. now repeat split.
Qed.

(** C9: two E7 integers [a] and [b] of magnitude up to [2^31], which covers
    every latitude and longitude, stand for two floats [lat] and [lng],
    each a binary64 nearest to the exact quotient by [10^7], from which
    [round(degrees * 1e7)] gives the integer back exactly. Every decode of
    the code returns them: [_parse_location_history] builds its location
    with them, [CandidateLocation.from_dict], [Waypoint.from_dict] and
    [RawPathPoint.from_dict] build their values with them, and a place
    visit that is built has them for its centre. *)
Theorem C9_e7_decode_and_inverse `{Collaborators} (a b : Z) :
  - 2 ^ 31 <= a <= 2 ^ 31 -> - 2 ^ 31 <= b <= 2 ^ 31 ->
  exists lat lng,
    nearest_to_ratio lat a 10000000
    /\ nearest_to_ratio lng b 10000000
    /\ py_round (fmul lat f1e7) = Ok a
    /\ py_round (fmul lng f1e7) = Ok b
    /\ (forall d dt,
          lookup "latitudeE7" d = Some (JInt a) ->
          lookup "longitudeE7" d = Some (JInt b) ->
          _parse_timestamp_key (JDict d) "timestamp" = Ok dt ->
          location_of (JDict d) JNull = Ok (Location.mk lat lng None dt)
          /\ forall accuracy f,
               py_float accuracy = Ok f ->
               location_of (JDict d) accuracy
               = Ok (Location.mk lat lng (Some f) dt))
    /\ (forall d,
          lookup "latitudeE7" d = Some (JInt a) ->
          lookup "longitudeE7" d = Some (JInt b) ->
          (lookup "sourceInfo" d = None
           \/ exists o, lookup "sourceInfo" d = Some (JDict o)) ->
          exists location,
            CandidateLocation.from_dict (JDict d) = Ok location
            /\ CandidateLocation.lat location = lat
            /\ CandidateLocation.lng location = lng)
    /\ (forall d,
          lookup "latE7" d = Some (JInt a) ->
          lookup "lngE7" d = Some (JInt b) ->
          Waypoint.from_dict (JDict d) = Ok (Waypoint.mk lat lng)
          /\ forall accuracyMeters ts timestamp,
               lookup "accuracyMeters" d = Some accuracyMeters ->
               lookup "timestamp" d = Some ts ->
               parse_json_utc_date ts = Ok timestamp ->
               RawPathPoint.from_dict (JDict d)
               = Ok (RawPathPoint.mk lat lng accuracyMeters timestamp))
    /\ (forall d v,
          lookup "centerLatE7" d = Some (JInt a) ->
          lookup "centerLngE7" d = Some (JInt b) ->
          _parse_place_visit (JDict d) = Ok (Some v) ->
          PlaceVisit.centerLat v = Some lat
          /\ PlaceVisit.centerLng v = Some lng).
Proof.
  intros Ha Hb.
  destruct (e7_int_decode a Ha) as (lat & Dlat & Flat & Nlat & Rlat).
  destruct (e7_int_decode b Hb) as (lng & Dlng & Flng & Nlng & Rlng).
  exists lat, lng.
  split; [exact Nlat|]. split; [exact Nlng|].
  split; [exact Rlat|]. split; [exact Rlng|].
  split; [|split; [|split]].
  - intros d dt Elat Elng Edt.
    unfold location_of. cbn [py_getitem]. rewrite Elat, Elng.
    cbn [bind]. rewrite Flat, Flng. cbn [bind]. rewrite Edt.
    cbn [bind is_None]. split; [reflexivity|].
    intros accuracy f Hf.
    destruct accuracy; try discriminate Hf; cbn [is_None bind];
      now rewrite Hf.
  - intros d Elat Elng Hsi.
    unfold CandidateLocation.from_dict. rewrite !py_get_dict.
    cbn [py_getitem bind]. rewrite Elat, Elng. cbn [bind].
    rewrite Dlat, Dlng. cbn [bind py_get].
    destruct Hsi as [Hn|[o Ho]].
    + rewrite Hn. cbn [bind py_get lookup]. eexists.
      split; [reflexivity|]. now split.
    + rewrite Ho. cbn [bind]. rewrite py_get_dict. cbn [bind]. eexists.
      split; [reflexivity|]. now split.
  - intros d Elat Elng. split.
    + unfold Waypoint.from_dict. cbn [py_getitem]. rewrite Elat, Elng.
      cbn [bind]. now rewrite Dlat, Dlng.
    + intros accuracyMeters ts timestamp Eacc Ets Etime.
      unfold RawPathPoint.from_dict. cbn [py_getitem].
      rewrite Elat, Elng, Eacc, Ets. cbn [bind]. rewrite Dlat, Dlng.
      cbn [bind]. now rewrite Etime.
  - intros d v Elat Elng Hv.
    destruct (place_visit_centre d _ _ v Elat Elng Hv)
      as (lat' & lng' & Flat' & Flng' & -> & ->).
    split; congruence.
Qed.

Lemma C9_e7_decode_and_inverse_witness :
  exists lat lng,
    py_round (fmul lat f1e7) = Ok 351324213
    /\ py_round (fmul lng f1e7) = Ok (-1122434441)
    /\ (exists location,
          CandidateLocation.from_dict
            (JDict [("latitudeE7", JInt 351324213);
                    ("longitudeE7", JInt (-1122434441))]) = Ok location
          /\ CandidateLocation.lat location = lat
          /\ CandidateLocation.lng location = lng)
    /\ location_of (H := spec_collaborators)
         (JDict [("latitudeE7", JInt 351324213);
                 ("longitudeE7", JInt (-1122434441));
                 ("timestamp", JStr "2017-12-10T23:14:58.030Z")]) JNull
       = Ok (Location.mk lat lng None
               (aware_utc (mk_naive 2017 12 10 23 14 58 30000))).
Proof.
  destruct (C9_e7_decode_and_inverse (H := spec_collaborators)
              351324213 (-1122434441))
    as (lat & lng & _ & _ & Rlat & Rlng & Hloc & Hcand & _).
  - vm_compute. split; congruence.
  - vm_compute. split; congruence.
  - exists lat, lng. split; [exact Rlat|]. split; [exact Rlng|]. split.
    + apply Hcand; [reflexivity | reflexivity | now left].
    + refine (proj1 (Hloc [("latitudeE7", JInt 351324213);
                           ("longitudeE7", JInt (-1122434441));
                           ("timestamp", JStr "2017-12-10T23:14:58.030Z")]
                       _ eq_refl eq_refl _)).
      vm_compute. reflexivity.
Defined.

(** *** C10: the subtitles of a legacy record *)

Lemma subtitles_loop `{Collaborators} (ss : list Json)
  (acc : list Subtitles.t) :
  foldM subtitles_step ss acc = Ok (acc ++ flat_map subtitle_entry ss)%list.
Proof.
  revert acc. induction ss as [|s ss IH]; intros acc; cbn [foldM flat_map].
  - now rewrite app_nil_r.
  - unfold subtitles_step at 1.
    destruct s as [| b | n | f | c | l | o]; cbn [isinstance_dict negb bind];
      try exact (IH acc).
    cbn [py_contains py_getitem py_get bind subtitle_entry].
    unfold get_or_None.
    destruct (lookup "name" o) as [name|]; cbn [negb bind];
      [|exact (IH acc)].
    destruct (lookup "url" o) as [url|]; cbn [bind]; rewrite IH;
      now rewrite <- app_assoc.
Qed.

(** The subtitles of an activity that was built: one [Subtitles] per entry
    of what [blob.get("subtitles", [])] ranges over that is an object with
    a [name]. *)
Lemma activity_subtitles `{Collaborators} (d : list (string * Json))
  (ev : Activity.t) :
  activity_of_blob (JDict d) = Ok ev ->
  exists ss,
    py_iter (match lookup "subtitles" d with
             | Some v => v
             | None => JList []
             end) = Ok ss
    /\ Activity.subtitles ev = flat_map subtitle_entry ss.
Proof.
  intros Hev. unfold activity_of_blob in Hev.
  apply bind_Ok in Hev as (subs & Esubs & Hev).
  apply bind_Ok in Hev as (ss & Ess & Hev).
  apply bind_Ok in Hev as (subtitles & Efold & Hev).
  apply bind_Ok in Hev as (old_format & Eold & Hev).
  apply bind_Ok in Hev as ([[blob' header] time_str] & Eun & Hev).
  bind_inv Hev. injection Hev as <-. cbn [Activity.subtitles].
  rewrite subtitles_loop in Efold. injection Efold as <-.
  cbn [py_get] in Esubs.
  destruct (lookup "subtitles" d); injection Esubs as <-; now exists ss.
Qed.

(** C10: the event built from a legacy record, one with a [snippet] key,
    has the subtitles of the outer record: for an outer [subtitles] list,
    one [Subtitles] of [name] and [url] per entry that is an object with a
    [name], in order, and nothing for any other entry; for an outer record
    without a [subtitles] key, the empty list. The snippet is not
    consulted: two legacy records with the same outer [subtitles] field
    give the same subtitles whatever their snippets hold. *)
Theorem C10_legacy_subtitles_from_outer_record `{Collaborators}
  (d : list (string * Json)) (ev : Activity.t) :
  lookup "snippet" d <> None ->
  activity_of_blob (JDict d) = Ok ev ->
  (forall entries,
     lookup "subtitles" d = Some (JList entries) ->
     Activity.subtitles ev = flat_map subtitle_entry entries)
  /\ (lookup "subtitles" d = None -> Activity.subtitles ev = [])
  /\ (forall d' ev',
        lookup "snippet" d' <> None ->
        lookup "subtitles" d' = lookup "subtitles" d ->
        activity_of_blob (JDict d') = Ok ev' ->
        Activity.subtitles ev' = Activity.subtitles ev).
Proof.
  intros Hsn Hev.
  destruct (activity_subtitles d ev Hev) as (ss & Ess & ->).
  split; [|split].
  - intros entries Hsub. rewrite Hsub in Ess. cbn [py_iter] in Ess.
    now injection Ess as <-.
  - intros Hnone. rewrite Hnone in Ess. cbn [py_iter] in Ess.
    now injection Ess as <-.
  - intros d' ev' _ Hsame Hev'.
    destruct (activity_subtitles d' ev' Hev') as (ss' & Ess' & ->).
    rewrite Hsame, Ess in Ess'. now injection Ess' as <-.
Qed.

Lemma C10_legacy_subtitles_from_outer_record_witness :
  Activity.subtitles legacy_event = []
  /\ Activity.subtitles legacy_event_with_subtitles
     = [Subtitles.mk (JStr "A playlist")
          (JStr "http://youtube.com/playlist")].
Proof.
  split.
  - refine (proj1 (proj2 (C10_legacy_subtitles_from_outer_record
                            (H := spec_collaborators) legacy_record
                            legacy_event _ legacy_record_parses)) eq_refl).
    discriminate.
  - refine (proj1 (C10_legacy_subtitles_from_outer_record
                     (H := spec_collaborators) legacy_record_with_subtitles
                     legacy_event_with_subtitles _ _) _ eq_refl).
    + discriminate.
    + vm_compute. reflexivity.
Defined.

(** ** Further properties of the code *)

(** *** One outcome per record *)

Lemma gen_loop_outcome {A T : Type} (f : A -> res T) (l : list A) :
  gen_loop (fun a => try_yield (f a)) l = mk_gen (map (outcome f) l) None.
Proof. exact (gen_loop_try_yield f l). Qed.

(** X1: On a list document each of the three list extractors ends normally
    and yields exactly one outcome per record, in the order of the records:
    the event built from that record, or the exception its construction
    raised. *)
Theorem list_extractors_one_outcome_per_record `{Collaborators} (p : Path)
  (l : list Json) :
  _parse_json_activity p (JList l)
    = mk_gen (map (outcome activity_of_blob) l) None
  /\ _parse_likes p (JList l) = mk_gen (map (outcome like_of) l) None
  /\ _parse_app_installs p (JList l)
    = mk_gen (map (outcome app_install_of) l) None.
Proof.
  unfold _parse_json_activity, _parse_likes, _parse_app_installs.
  cbn [isinstance_list negb py_iter gen_bind].
  rewrite !gen_loop_outcome. repeat split; reflexivity.
Qed.

(** X2: Under a [Browser History] key that holds a list, the browser-history
    extractor ends normally and yields exactly one outcome per item, in
    order, whatever the items are. *)
Theorem chrome_history_one_outcome_per_item (p : Path)
  (d : list (string * Json)) (l : list Json) :
  lookup "Browser History" d = Some (JList l) ->
  _parse_chrome_history p (JDict d)
  = mk_gen (map (outcome chrome_history_of) l) None.
Proof.
  intros Hl. unfold _parse_chrome_history.
  cbn [py_contains py_get gen_bind]. rewrite Hl.
  cbn [negb py_iter gen_bind]. rewrite gen_loop_outcome. reflexivity.
Qed.

Lemma chrome_history_one_outcome_per_item_witness :
  _parse_chrome_history "file"
    (JDict [("Browser History", JList [JInt 5; JDict chrome_record])])
  = mk_gen (map (outcome chrome_history_of) [JInt 5; JDict chrome_record])
      None.
Proof.
  apply (chrome_history_one_outcome_per_item "file"
           [("Browser History", JList [JInt 5; JDict chrome_record])]
           [JInt 5; JDict chrome_record]).
  reflexivity.
Defined.

Lemma location_loop_objects `{Collaborators}
  (locs : list (list (string * Json))) :
  gen_loop (fun loc => gen_bind (py_get loc "accuracy" JNull)
                         (fun accuracy =>
                            try_yield (location_of loc accuracy)))
    (map JDict locs)
  = mk_gen (map location_outcome locs) None.
Proof.
  induction locs as [|loc locs IH]; [reflexivity|].
  cbn [map gen_loop]. rewrite IH. cbn [py_get].
  unfold location_outcome, outcome.
  destruct (lookup "accuracy" loc) as [a|]; cbn [gen_bind];
    unfold try_yield, gen_seq, yield.
  - destruct (location_of (JDict loc) a); reflexivity.
  - destruct (location_of (JDict loc) JNull); reflexivity.
Qed.

(** X3: When every record under [locations] is an object, the coarse
    location-history extractor ends normally and yields exactly one outcome
    per record, in order. *)
Theorem location_history_one_outcome_per_object `{Collaborators} (p : Path)
  (d : list (string * Json)) (locs : list (list (string * Json))) :
  lookup "locations" d = Some (JList (map JDict locs)) ->
  _parse_location_history p (JDict d)
  = mk_gen (map location_outcome locs) None.
Proof.
  intros Hl. unfold _parse_location_history.
  cbn [py_contains py_get gen_bind]. rewrite Hl.
  cbn [negb py_iter gen_bind]. rewrite location_loop_objects. reflexivity.
Qed.

Lemma location_history_one_outcome_per_object_witness :
  _parse_location_history (H := spec_collaborators) "file"
    (JDict [("locations",
             JList (map JDict [[("latitudeE7", JInt 351324213)];
                               [("timestampMs", JStr "1512947698030");
                                ("latitudeE7", JInt 351324213);
                                ("longitudeE7", JInt (-1122434441));
                                ("accuracy", JInt 10)]]))])
  = mk_gen (map (location_outcome (H := spec_collaborators))
              [[("latitudeE7", JInt 351324213)];
               [("timestampMs", JStr "1512947698030");
                ("latitudeE7", JInt 351324213);
                ("longitudeE7", JInt (-1122434441));
                ("accuracy", JInt 10)]]) None.
Proof.
  apply (location_history_one_outcome_per_object (H := spec_collaborators)).
  reflexivity.
Defined.

(** *** A document without its envelope key *)

(** X4: An object document without the key of its envelope yields the one
    error that names the key and nothing else, and the extractor ends
    normally. *)
Theorem missing_envelope_key_one_error `{Collaborators} (p : Path)
  (d : list (string * Json)) :
  (lookup "locations" d = None ->
   _parse_location_history p (JDict d)
   = mk_gen [Error (no_key "Locations" "locations" p)] None)
  /\ (lookup "timelineObjects" d = None ->
      _parse_semantic_location_history p (JDict d)
      = mk_gen [Error (no_key "Locations" "timelineObjects" p)] None)
  /\ (lookup "Browser History" d = None ->
      _parse_chrome_history p (JDict d)
      = mk_gen [Error (no_key "Chrome/BrowserHistory" "Browser History" p)]
          None).
Proof.
  repeat split; intros Hk.
  - unfold _parse_location_history. cbn [py_contains py_get gen_bind].
    rewrite Hk. reflexivity.
  - unfold _parse_semantic_location_history.
    cbn [isinstance_dict negb py_contains py_get gen_bind].
    rewrite Hk. reflexivity.
  - unfold _parse_chrome_history. cbn [py_contains py_get gen_bind].
    rewrite Hk. reflexivity.
Qed.

Lemma missing_envelope_key_one_error_witness :
  _parse_location_history (H := spec_collaborators) "file"
    (JDict [("Browser History", JList [])])
  = mk_gen [Error (no_key "Locations" "locations" "file")] None
  /\ _parse_semantic_location_history (H := spec_collaborators) "file"
       (JDict [("locations", JList [])])
     = mk_gen [Error (no_key "Locations" "timelineObjects" "file")] None
  /\ _parse_chrome_history "file" (JDict [("locations", JList [])])
     = mk_gen [Error (no_key "Chrome/BrowserHistory" "Browser History"
                        "file")] None.
Proof.
  split; [|split].
  - apply (proj1 (missing_envelope_key_one_error (H := spec_collaborators)
                    "file" [("Browser History", JList [])])).
    reflexivity.
  - apply (proj1 (proj2 (missing_envelope_key_one_error
                           (H := spec_collaborators)
                           "file" [("locations", JList [])]))).
    reflexivity.
  - apply (proj2 (proj2 (missing_envelope_key_one_error
                           (H := spec_collaborators)
                           "file" [("locations", JList [])]))).
    reflexivity.
Defined.

(** *** A document of the wrong shape *)

(** What a record that is a string makes of each list extractor's [try]
    body: [blob.get] is no attribute of a [str], and a [str] is not
    indexed by a string. *)
Lemma outcomes_of_strings {T : Type} (f : Json -> res T) (e : exn)
  (l : list string) :
  (forall c, f (JStr c) = Raise e) ->
  map (outcome f) (map JStr l) = repeat (Error e) (List.length l).
Proof.
  intros Hf. induction l as [|c l IH]; [reflexivity|].
  cbn [map length repeat]. unfold outcome at 1. now rewrite Hf, IH.
Qed.

Lemma list_extractor_on_non_list {T : Type} (f : Json -> res T)
  (first e : exn) (j : Json) :
  (forall c, f (JStr c) = Raise e) ->
  isinstance_list j = false ->
  ((if negb (isinstance_list j)
    then yield (Error first) else done) >>
   (xs <~ py_iter j ;; gen_loop (fun x => try_yield (f x)) xs))%gen
  = mk_gen (Error first :: repeat (Error e) (List.length (iterated j)))
      (if iterable j then None else Some TypeError).
Proof.
  intros Hf Hj. rewrite Hj. cbn [negb]. unfold iterated.
  destruct j as [| b | n | x | s | l | d]; try discriminate Hj;
    try reflexivity; cbn [py_iter gen_bind iterable];
    rewrite gen_loop_outcome; unfold chars;
    rewrite (outcomes_of_strings f e _ Hf), ?length_map; reflexivity.
Qed.

(** X5: For a document that is not a list, each list extractor yields its
    document-shape error and after it one error per element that
    [for ... in json_data] ranges over, never an event: one per key of an
    object, one per character of a string, [AttributeError] from
    [blob.get] for an activity and [TypeError] from the subscript for a
    like or an app install. It ends normally when the document can be
    iterated, and by raising [TypeError] from [for ... in json_data],
    with the document-shape error alone, when it cannot. *)
Theorem list_extractors_no_event_from_non_list `{Collaborators} (p : Path)
  (j : Json) :
  isinstance_list j = false ->
  let n := List.length (iterated j) in
  let ending := if iterable j then None else Some TypeError in
  _parse_json_activity p j
  = mk_gen (Error (not_a_list "Activity" p)
            :: repeat (Error AttributeError) n) ending
  /\ _parse_likes p j
     = mk_gen (Error (not_a_list "Likes" p) :: repeat (Error TypeError) n)
         ending
  /\ _parse_app_installs p j
     = mk_gen (Error (not_a_list "App installs" p)
               :: repeat (Error TypeError) n) ending
  /\ (forall d, j = JDict d -> n = List.length d)
  /\ (forall s, j = JStr s -> n = List.length (code_points s))
  /\ (iterable j = false -> n = 0%nat).
Proof.
  intros Hj n ending. subst n ending. repeat apply conj.
  - now apply (list_extractor_on_non_list activity_of_blob).
  - now apply (list_extractor_on_non_list like_of).
  - now apply (list_extractor_on_non_list app_install_of).
  - intros d ->. unfold iterated. cbn [py_iter]. unfold keys.
    now rewrite !length_map.
  - intros s ->. unfold iterated. cbn [py_iter]. unfold chars.
    now rewrite length_map.
  - now destruct j.
Qed.

Lemma list_extractors_no_event_from_non_list_witness :
  yielded (_parse_json_activity (H := spec_collaborators) "file"
             (JDict [("header", JStr "Search"); ("title", JStr "x")]))
  = [Error (not_a_list "Activity" "file"); Error AttributeError;
     Error AttributeError]
  /\ yielded (_parse_likes (H := spec_collaborators) "file" (JStr e_acute))
     = [Error (not_a_list "Likes" "file"); Error TypeError]
  /\ raised (_parse_likes (H := spec_collaborators) "file" (JStr e_acute))
     = None.
Proof.
  destruct (list_extractors_no_event_from_non_list
              (H := spec_collaborators) "file"
              (JDict [("header", JStr "Search"); ("title", JStr "x")])
              eq_refl) as (Hact & _).
  destruct (list_extractors_no_event_from_non_list
              (H := spec_collaborators) "file" (JStr e_acute) eq_refl)
    as (_ & Hlikes & _).
  rewrite Hact, Hlikes. repeat split.
Defined.

(** X6: For a document that is not an object, each of the three extractors
    with an object envelope yields no event and ends by raising: [TypeError]
    from the membership test on a scalar, [AttributeError] from
    [json_data.get] on a list or a string. *)
Theorem dict_extractors_raise_on_non_dict `{Collaborators} (p : Path)
  (j : Json) :
  isinstance_dict j = false ->
  let e := if iterable j then AttributeError else TypeError in
  (raised (_parse_location_history p j) = Some e
   /\ Forall is_Error (yielded (_parse_location_history p j)))
  /\ (raised (_parse_semantic_location_history p j) = Some e
      /\ errors_only (not_a_dict p) (_parse_semantic_location_history p j))
  /\ (raised (_parse_chrome_history p j) = Some e
      /\ Forall is_Error (yielded (_parse_chrome_history p j))).
Proof.
  intros Hj e. subst e.
  unfold _parse_location_history, _parse_semantic_location_history,
    _parse_chrome_history, errors_only.
  destruct j as [| b | n | f | s | l | d]; try discriminate Hj;
    cbn [iterable py_contains py_get gen_bind isinstance_dict negb].
  1-4: repeat apply conj;
       first [reflexivity | now constructor | now exists []].
  - destruct (is_substring "locations" s),
      (is_substring "timelineObjects" s),
      (is_substring "Browser History" s);
      cbn; repeat apply conj;
      first [reflexivity | now repeat constructor | now exists []
             | now exists [no_key "Locations" "timelineObjects" p]].
  - destruct (existsb (is_str "locations") l),
      (existsb (is_str "timelineObjects") l),
      (existsb (is_str "Browser History") l);
      cbn; repeat apply conj;
      first [reflexivity | now repeat constructor | now exists []
             | now exists [no_key "Locations" "timelineObjects" p]].
Qed.

Lemma dict_extractors_raise_on_non_dict_witness :
  raised (_parse_location_history (H := spec_collaborators) "file"
            (JList [JDict [("latitudeE7", JInt 351324213)]]))
  = Some AttributeError
  /\ Forall is_Error
       (yielded (_parse_location_history (H := spec_collaborators) "file"
                   (JList [JDict [("latitudeE7", JInt 351324213)]]))).
Proof.
  exact (proj1 (dict_extractors_raise_on_non_dict (H := spec_collaborators)
                  "file" (JList [JDict [("latitudeE7", JInt 351324213)]])
                  eq_refl)).
Defined.

(** *** _check_required_keys *)

Lemma check_required_keys_cons (d : list (string * Json)) (k : string)
  (ks : list string) :
  _check_required_keys (JDict d) (k :: ks)
  = match lookup k d with
    | Some _ => _check_required_keys (JDict d) ks
    | None => Ok (Some k)
    end.
Proof. cbn. now destruct (lookup k d). Qed.

(** X7: On an object, [_check_required_keys] never raises and returns the
    first of the required keys, in their order, that the object lacks:
    [None] exactly when the object has them all, and [k] exactly when the
    object lacks [k] and has every required key before [k]. *)
Theorem check_required_keys_first_missing (d : list (string * Json))
  (ks : list string) :
  (_check_required_keys (JDict d) ks = Ok None
   <-> Forall (fun k => lookup k d <> None) ks)
  /\ (forall k,
        _check_required_keys (JDict d) ks = Ok (Some k)
        <-> exists pre post,
              ks = (pre ++ k :: post)%list
              /\ Forall (fun k' => lookup k' d <> None) pre
              /\ lookup k d = None)
  /\ (forall e, _check_required_keys (JDict d) ks <> Raise e).
Proof.
  induction ks as [|k0 ks (IHn & IHs & IHr)].
  - repeat split; try discriminate; try constructor.
    intros (pre & post & E & _). now destruct pre.
  - rewrite check_required_keys_cons.
    destruct (lookup k0 d) as [v|] eqn:E0.
    + split; [|split].
      * rewrite IHn. split; intros Hall.
        -- constructor; [congruence | exact Hall].
        -- now inversion Hall.
      * intros k. rewrite IHs. split.
        -- intros (pre & post & -> & Hpre & Hk).
           exists (k0 :: pre), post. repeat split; [|exact Hk].
           constructor; [congruence | exact Hpre].
        -- intros (pre & post & E & Hpre & Hk).
           destruct pre as [|k1 pre]; cbn in E; injection E as <- ->.
           ++ congruence.
           ++ exists pre, post. inversion Hpre. now repeat split.
      * exact IHr.
    + split; [|split].
      * split; [discriminate|]. intros Hall. inversion Hall. congruence.
      * intros k. split.
        -- intros [= <-]. exists [], ks. now repeat split.
        -- intros (pre & post & E & Hpre & Hk).
           destruct pre as [|k1 pre]; cbn in E; injection E as <- ->.
           ++ reflexivity.
           ++ inversion Hpre. congruence.
      * discriminate.
Qed.

(** *** The errors of the sub-builders *)

(** X8: Each sub-builder reports the first required key its record lacks,
    before anything else is read: a place visit without [location] is
    refused for [location] whatever else it lacks, and one with a [location]
    but no [duration] is refused for [duration] even when its location would
    be discarded; an activity segment likewise for [duration], then
    [activities]. *)
Theorem sub_builders_name_first_missing_required_key `{Collaborators}
  (d : list (string * Json)) :
  (lookup "location" d = None ->
   _parse_place_visit (JDict d)
   = Raise (missing_required "PlaceVisit" "location" (JDict d)))
  /\ (lookup "location" d <> None -> lookup "duration" d = None ->
      _parse_place_visit (JDict d)
      = Raise (missing_required "PlaceVisit" "duration" (JDict d)))
  /\ (lookup "duration" d = None ->
      _parse_activity_segment (JDict d)
      = Raise (missing_required "ActivitySegment" "duration" (JDict d)))
  /\ (lookup "duration" d <> None -> lookup "activities" d = None ->
      _parse_activity_segment (JDict d)
      = Raise (missing_required "ActivitySegment" "activities" (JDict d))).
Proof.
  unfold _parse_place_visit, _parse_activity_segment, _sem_required_keys,
    _sem_activity_segment_required_keys.
  rewrite !check_required_keys_cons.
  repeat split.
  - now intros ->.
  - intros Hl ->. now destruct (lookup "location" d).
  - now intros ->.
  - intros Hl ->. now destruct (lookup "duration" d).
Qed.

Lemma sub_builders_name_first_missing_required_key_witness :
  _parse_place_visit (H := spec_collaborators) (JDict [])
  = Raise (missing_required "PlaceVisit" "location" (JDict []))
  /\ _parse_place_visit (H := spec_collaborators)
       (JDict [("location", JDict [])])
     = Raise (missing_required "PlaceVisit" "duration"
                (JDict [("location", JDict [])]))
  /\ _parse_activity_segment (H := spec_collaborators) (JDict [])
     = Raise (missing_required "ActivitySegment" "duration" (JDict []))
  /\ _parse_activity_segment (H := spec_collaborators)
       (JDict [("duration", JDict [])])
     = Raise (missing_required "ActivitySegment" "activities"
                (JDict [("duration", JDict [])])).
Proof.
  pose proof (sub_builders_name_first_missing_required_key
                (H := spec_collaborators) []) as (H1 & _ & H3 & _).
  pose proof (sub_builders_name_first_missing_required_key
                (H := spec_collaborators) [("location", JDict [])])
    as (_ & H2 & _).
  pose proof (sub_builders_name_first_missing_required_key
                (H := spec_collaborators) [("duration", JDict [])])
    as (_ & _ & _ & H4).
  split; [exact (H1 eq_refl)|].
  split; [apply H2; [discriminate | reflexivity]|].
  split; [exact (H3 eq_refl)|].
  apply H4; [discriminate | reflexivity].
Defined.

Lemma py_contains_raises (k : string) (v : Json) (e : exn) :
  py_contains k v = Raise e -> e = TypeError.
Proof. destruct v; cbn; congruence. Qed.

Lemma check_required_keys_raises (v : Json) (ks : list string) (e : exn) :
  _check_required_keys v ks = Raise e -> e = TypeError.
Proof.
  induction ks as [|k ks IH]; [discriminate|]. cbn [_check_required_keys].
  destruct (py_contains k v) as [[|]|e'] eqn:Ec; cbn [bind negb].
  - exact IH.
  - discriminate.
  - intros [= <-]. exact (py_contains_raises _ _ _ Ec).
Qed.

Lemma rewrap_KeyError_no_KeyError {A : Type} (kind : string)
  (record : Json) (c : res A) (k : string) :
  rewrap_KeyError kind record c <> Raise (KeyError k).
Proof. destruct c as [a|[]]; discriminate. Qed.

Lemma place_visit_no_KeyError `{Collaborators} (record : Json)
  (k : string) :
  _parse_place_visit record <> Raise (KeyError k).
Proof.
  unfold _parse_place_visit.
  destruct (_check_required_keys record _sem_required_keys) as [[k'|]|e]
    eqn:Ec; cbn [bind].
  - discriminate.
  - apply rewrap_KeyError_no_KeyError.
  - apply check_required_keys_raises in Ec as ->. discriminate.
Qed.

Lemma activity_segment_no_KeyError `{Collaborators} (record : Json)
  (k : string) :
  _parse_activity_segment record <> Raise (KeyError k).
Proof.
  unfold _parse_activity_segment.
  destruct (_check_required_keys record _) as [[k'|]|e] eqn:Ec; cbn [bind].
  - discriminate.
  - apply rewrap_KeyError_no_KeyError.
  - apply check_required_keys_raises in Ec as ->. discriminate.
Qed.

Lemma getitem_after_contains (k : string) (o : Json) (e : exn) :
  py_contains k o = Ok true -> py_getitem o k = Raise e -> e = TypeError.
Proof.
  destruct o; cbn; try congruence.
  destruct (lookup k d); congruence.
Qed.

Lemma yield_result_no_KeyError (r : result_var) (k : string) :
  ~ In (Error (KeyError k)) (yield_result r).
Proof. destruct r as [|[ev|]]; cbn; intuition discriminate. Qed.

Lemma timeline_body_no_KeyError `{Collaborators} (p : Path)
  (r : result_var) (o : Json) (k : string) :
  ~ In (Error (KeyError k)) (fst (timeline_body p r o)).
Proof.
  unfold timeline_body.
  destruct (py_contains "placeVisit" o) as [[|]|e] eqn:Ep.
  - destruct (py_getitem o "placeVisit") as [pv|e] eqn:Eg; cbn [bind].
    + destruct (_parse_place_visit pv) as [r'|e] eqn:Epv; cbn [fst].
      * apply yield_result_no_KeyError.
      * intros [[= ->]|[]]. exact (place_visit_no_KeyError _ _ Epv).
    + apply (getitem_after_contains _ _ _ Ep) in Eg as ->.
      cbn. intuition discriminate.
  - destruct (py_contains "activitySegment" o) as [[|]|e] eqn:Ea.
    + destruct (py_getitem o "activitySegment") as [a|e] eqn:Eg;
        cbn [bind].
      * destruct (_parse_activity_segment a) as [r'|e] eqn:Eas; cbn [fst].
        -- apply yield_result_no_KeyError.
        -- intros [[= ->]|[]].
           exact (activity_segment_no_KeyError _ _ Eas).
      * apply (getitem_after_contains _ _ _ Ea) in Eg as ->.
        cbn. intuition discriminate.
    + destruct o; cbn [fst]; try (cbn; intuition discriminate).
      intros [[=]|Hin]. exact (yield_result_no_KeyError _ _ Hin).
    + apply py_contains_raises in Ea as ->. cbn. intuition discriminate.
  - apply py_contains_raises in Ep as ->. cbn. intuition discriminate.
Qed.

Lemma timeline_loop_no_KeyError `{Collaborators} (p : Path)
  (r : result_var) (l : list Json) (k : string) :
  ~ In (Error (KeyError k)) (fst (timeline_loop p r l)).
Proof.
  revert r. induction l as [|o l IH]; intros r; [intros []|].
  cbn [timeline_loop].
  pose proof (timeline_body_no_KeyError p r o k) as Hb.
  destruct (timeline_body p r o) as [out r'].
  specialize (IH r'). destruct (timeline_loop p r' l) as [outs r''].
  cbn [fst] in *. intros Hin. apply in_app_or in Hin as [Hin|Hin]; auto.
Qed.

(** X9: A [KeyError] never leaves the semantic location history: neither
    sub-builder raises one, for any record, the extractor yields none among
    its outcomes, and it never ends by raising one. A key that is missing is
    reported by a [RuntimeError] that names it. *)
Theorem semantic_history_never_KeyError `{Collaborators} (p : Path)
  (j : Json) (k : string) :
  (forall record, _parse_place_visit record <> Raise (KeyError k))
  /\ (forall record, _parse_activity_segment record <> Raise (KeyError k))
  /\ ~ In (Error (KeyError k))
         (yielded (_parse_semantic_location_history p j))
  /\ raised (_parse_semantic_location_history p j) <> Some (KeyError k).
Proof.
  split; [intros r; apply place_visit_no_KeyError|].
  split; [intros r; apply activity_segment_no_KeyError|].
  unfold _parse_semantic_location_history.
  destruct j as [| b | n | f | s | l | d];
    cbn [isinstance_dict negb py_contains py_get gen_bind].
  1-4: split; cbn; intuition discriminate.
  - destruct (is_substring "timelineObjects" s); split; cbn;
      intuition discriminate.
  - destruct (existsb (is_str "timelineObjects") l); split; cbn;
      intuition discriminate.
  - destruct (lookup "timelineObjects" d) as [tl|]; cbn [negb gen_bind].
    + destruct (py_iter tl) as [objs|e] eqn:Eit; cbn [gen_bind].
      * split; [|discriminate]. cbn [gen_seq done yielded raised app].
        apply timeline_loop_no_KeyError.
      * split; [cbn; intuition discriminate|].
        destruct tl; try discriminate Eit; injection Eit as <-;
          discriminate.
    + split; cbn; intuition discriminate.
Qed.

(** *** The length of the semantic outcome sequence *)

Lemma yield_result_length (r : result_var) :
  (List.length (yield_result r) <= 1)%nat.
Proof. destruct r as [|[ev|]]; cbn; lia. Qed.

Lemma timeline_body_length `{Collaborators} (p : Path) (r : result_var)
  (o : Json) :
  (List.length (fst (timeline_body p r o)) <= 2)%nat
  /\ (dispatched o -> (List.length (fst (timeline_body p r o)) <= 1)%nat).
Proof.
  unfold timeline_body, dispatched.
  destruct (py_contains "placeVisit" o) as [[|]|e].
  - destruct (bind _ _) as [r'|e]; cbn [fst].
    + pose proof (yield_result_length (Bound (option_map EvPlaceVisit r'))).
      split; [lia | intros _; lia].
    + cbn. split; [lia | intros _; lia].
  - destruct (py_contains "activitySegment" o) as [[|]|e].
    + destruct (bind _ _) as [r'|e]; cbn [fst].
      * pose proof (yield_result_length
                      (Bound (option_map EvActivitySegment r'))).
        split; [lia | intros _; lia].
      * cbn. split; [lia | intros _; lia].
    + split.
      * pose proof (yield_result_length r).
        destruct o; cbn [fst List.length]; lia.
      * intros [Hd|Hd]; congruence.
    + cbn. split; [lia | intros _; lia].
  - cbn. split; [lia | intros _; lia].
Qed.

Lemma timeline_loop_length `{Collaborators} (p : Path) (r : result_var)
  (l : list Json) :
  (List.length (fst (timeline_loop p r l)) <= 2 * List.length l)%nat
  /\ (Forall dispatched l ->
      (List.length (fst (timeline_loop p r l)) <= List.length l)%nat).
Proof.
  revert r. induction l as [|o l IH]; intros r.
  - cbn. split; [lia | intros _; lia].
  - cbn [timeline_loop].
    destruct (timeline_body_length p r o) as [H2 H1].
    destruct (timeline_body p r o) as [out r'].
    destruct (IH r') as [IH2 IH1].
    destruct (timeline_loop p r' l) as [outs r''].
    cbn [fst List.length] in *. rewrite length_app. split; [lia|].
    intros Hall. inversion Hall; subst. specialize (H1 ltac:(assumption)).
    specialize (IH1 ltac:(assumption)). lia.
Qed.

(** X10: Under a [timelineObjects] key that holds a list, the semantic
    extractor ends normally; each timeline object contributes at most two
    outcome elements, and at most one when it carries a branch key. *)
Theorem semantic_history_outcome_count `{Collaborators} (p : Path)
  (d : list (string * Json)) (l : list Json) :
  lookup "timelineObjects" d = Some (JList l) ->
  let g := _parse_semantic_location_history p (JDict d) in
  raised g = None
  /\ (List.length (yielded g) <= 2 * List.length l)%nat
  /\ (Forall dispatched l ->
      (List.length (yielded g) <= List.length l)%nat).
Proof.
  intros Hl g. subst g. unfold _parse_semantic_location_history.
  cbn [isinstance_dict negb py_contains py_get gen_bind]. rewrite Hl.
  cbn [negb py_iter gen_bind gen_seq done yielded raised app].
  split; [reflexivity|]. apply timeline_loop_length.
Qed.

Lemma semantic_history_outcome_count_witness :
  raised (_parse_semantic_location_history (H := spec_collaborators) "file"
            (JDict [("timelineObjects",
                     JList [JDict [("placeVisit", _TEST_PLACE_VISIT)];
                            JDict []])])) = None.
Proof.
  exact (proj1 (semantic_history_outcome_count (H := spec_collaborators)
                  "file"
                  [("timelineObjects",
                    JList [JDict [("placeVisit", _TEST_PLACE_VISIT)];
                           JDict []])]
                  _ eq_refl)).
Defined.

(** *** List comprehensions *)

Lemma mapM_length {A B : Type} (f : A -> res B) (l : list A) (r : list B) :
  mapM f l = Ok r -> List.length r = List.length l.
Proof.
  revert r. induction l as [|a l IH]; intros r; cbn [mapM].
  - now intros [= <-].
  - intros Hr. bind_inv Hr. injection Hr as <-. cbn. f_equal. now apply IH.
Qed.

(** *** The two E7 decodes *)

(** X11: The E7 decode of parse_json.py, [float(v) / 1e7], and that of
    models.py, [v / 1e7], give the same result for every value that is not a
    string. A string is parsed by the first and refused with [TypeError] by
    the second: [CandidateLocation.from_dict], [Waypoint.from_dict] and
    [RawPathPoint.from_dict] raise [TypeError] on an object whose first
    coordinate is a string. *)
Theorem e7_decodes_agree_off_strings `{Collaborators} (v : Json)
  (d : list (string * Json)) (s : string) :
  ((forall c, v <> JStr c) -> e7_of_float v = py_div_float v f1e7)
  /\ e7_of_float (JStr s) = (f <- float_of_str s ;; Ok (fdiv f f1e7))
  /\ (lookup "latitudeE7" d = Some (JStr s) ->
      CandidateLocation.from_dict (JDict d) = Raise TypeError)
  /\ (lookup "latE7" d = Some (JStr s) ->
      Waypoint.from_dict (JDict d) = Raise TypeError
      /\ RawPathPoint.from_dict (JDict d) = Raise TypeError).
Proof.
  split; [|split; [reflexivity|split]].
  - intros Hv. destruct v as [| b | n | f | c | l | o]; try reflexivity.
    now destruct (Hv c).
  - intros Hl. unfold CandidateLocation.from_dict. rewrite !py_get_dict.
    cbn. now rewrite Hl.
  - intros Hl. unfold Waypoint.from_dict, RawPathPoint.from_dict. cbn.
    now rewrite Hl.
Qed.

Lemma e7_decodes_agree_off_strings_witness :
  e7_of_float (H := spec_collaborators) (JInt 351324213)
  = py_div_float (JInt 351324213) f1e7
  /\ CandidateLocation.from_dict
       (JDict [("latitudeE7", JStr "351324213");
               ("longitudeE7", JInt (-1122434441))])
     = Raise TypeError.
Proof.
  pose proof (e7_decodes_agree_off_strings (H := spec_collaborators)
                (JInt 351324213)
                [("latitudeE7", JStr "351324213");
                 ("longitudeE7", JInt (-1122434441))] "351324213")
    as (H1 & _ & H3 & _).
  split; [apply H1; discriminate | exact (H3 eq_refl)].
Defined.

(** *** The fields of a place visit *)

(** X12: The place visit built from an object takes its coordinates,
    address, name, place id, location confidence and device tag from the
    candidate location built from its [location] object, and its other
    optional fields from the keys of the object itself, [None] for an absent
    key. A [locationConfidence] key of the object itself is not read. *)
Theorem place_visit_fields `{Collaborators} (d : list (string * Json))
  (v : PlaceVisit.t) :
  _parse_place_visit (JDict d) = Ok (Some v) ->
  exists location_json location,
    lookup "location" d = Some location_json
    /\ CandidateLocation.from_dict location_json = Ok location
    /\ PlaceVisit.lat v = CandidateLocation.lat location
    /\ PlaceVisit.lng v = CandidateLocation.lng location
    /\ PlaceVisit.address v = CandidateLocation.address location
    /\ PlaceVisit.name v = CandidateLocation.name location
    /\ PlaceVisit.placeId v = CandidateLocation.placeId location
    /\ PlaceVisit.locationConfidence v
       = CandidateLocation.locationConfidence location
    /\ PlaceVisit.sourceInfoDeviceTag v
       = CandidateLocation.sourceInfoDeviceTag location
    /\ PlaceVisit.placeConfidence v = get_or_None d "placeConfidence"
    /\ PlaceVisit.placeVisitImportance v
       = get_or_None d "placeVisitImportance"
    /\ PlaceVisit.placeVisitType v = get_or_None d "placeVisitType"
    /\ PlaceVisit.visitConfidence v = get_or_None d "visitConfidence"
    /\ PlaceVisit.editConfirmationStatus v
       = get_or_None d "editConfirmationStatus"
    /\ (PlaceVisit.centerLat v = None <-> lookup "centerLatE7" d = None)
    /\ (PlaceVisit.centerLng v = None <-> lookup "centerLngE7" d = None).
Proof.
  intros Hv. unfold _parse_place_visit in Hv.
  apply bind_Ok in Hv as ([k|] & _ & Hv); [discriminate|].
  apply rewrap_KeyError_Ok in Hv. unfold place_visit_body in Hv.
  apply bind_Ok in Hv as (location_json & Eloc & Hv).
  apply bind_Ok in Hv as ([k|] & _ & Hv); [discriminate|].
  apply bind_Ok in Hv as (location & Efrom & Hv).
  apply bind_Ok in Hv as (duration & _ & Hv).
  apply bind_Ok in Hv as (ocl & _ & Hv).
  apply bind_Ok in Hv as (pvs & _ & Hv).
  apply bind_Ok in Hv as (others & _ & Hv).
  rewrite !py_get_dict in Hv. cbn [bind] in Hv.
  cbn [py_contains bind] in Hv.
  exists location_json, location.
  cbn [py_getitem] in Eloc.
  destruct (lookup "location" d) as [lj|]; [|discriminate].
  injection Eloc as ->. split; [reflexivity|]. split; [exact Efrom|].
  destruct (lookup "centerLatE7" d) as [clat|] eqn:Elat;
    destruct (lookup "centerLngE7" d) as [clng|] eqn:Elng;
    cbn [py_getitem bind] in Hv; try rewrite Elat in Hv;
    try rewrite Elng in Hv; cbn [bind] in Hv;
    bind_inv Hv; injection Hv as <-; cbn;
    repeat match goal with
           | E : bind _ _ = Ok _ |- _ =>
               apply bind_Ok in E as (? & _ & [= <-])
           end;
    repeat split; intros; congruence.
Qed.

Lemma place_visit_fields_witness :
  exists location_json location,
    lookup "location" (items _TEST_PLACE_VISIT) = Some location_json
    /\ CandidateLocation.from_dict location_json = Ok location
    /\ PlaceVisit.locationConfidence test_place_visit_event
       = CandidateLocation.locationConfidence location.
Proof.
  destruct (place_visit_fields (H := spec_collaborators)
              (items _TEST_PLACE_VISIT)
              test_place_visit_event)
    as (lj & loc & H1 & H2 & _ & _ & _ & _ & _ & H3 & _).
  - vm_compute. reflexivity.
  - exists lj, loc. repeat split; assumption.
Defined.

(** *** The optional parts of an activity segment *)

Lemma mapM_nil {A B : Type} (f : A -> res B) (l : list A) :
  mapM f l = Ok [] -> l = [].
Proof.
  intros Hr. apply mapM_length in Hr. now destruct l.
Qed.

Lemma code_points_nonempty (c : ascii) (s : string) :
  code_points (String c s) <> [].
Proof.
  cbn [code_points]. destruct s as [|c' s]; [discriminate|].
  destruct (is_continuation c'); [|discriminate].
  destruct (code_points (String c' s)); discriminate.
Qed.

Lemma py_iter_truthy (v : Json) (l : list Json) :
  py_truthy v = true -> py_iter v = Ok l -> l <> [].
Proof.
  destruct v as [| b | n | f | s | l' | d]; try discriminate.
  - destruct s as [|c s]; [discriminate|]. intros _ [= <-].
    unfold chars. pose proof (code_points_nonempty c s).
    now destruct (code_points (String c s)).
  - destruct l'; [discriminate|]. now intros _ [= <-].
  - destruct d; [discriminate|]. now intros _ [= <-].
Qed.

(** X13: The waypoint path built from an object never holds an empty list of
    road segments: a [roadSegment] key that is absent, [null] or an empty
    list gives [None], and a list of road segments gives one [RoadSegment]
    per entry. The waypoints are one per entry of [waypoints]. *)
Theorem waypoint_path_road_segments `{Collaborators}
  (d : list (string * Json)) (w : WaypointPath.t) :
  WaypointPath.from_dict (JDict d) = Ok w ->
  WaypointPath.roadSegment w <> Some []
  /\ (py_truthy (get_or_None d "roadSegment") = false ->
      WaypointPath.roadSegment w = None)
  /\ (forall rs, lookup "roadSegment" d = Some (JList rs) -> rs <> [] ->
      exists segments,
        WaypointPath.roadSegment w = Some segments
        /\ mapM RoadSegment.from_dict rs = Ok segments
        /\ List.length segments = List.length rs)
  /\ (forall ws, lookup "waypoints" d = Some (JList ws) ->
      mapM Waypoint.from_dict ws = Ok (WaypointPath.waypoints w)
      /\ List.length (WaypointPath.waypoints w) = List.length ws).
Proof.
  intros Hw. unfold WaypointPath.from_dict in Hw.
  rewrite !py_get_dict in Hw. cbn [bind] in Hw.
  apply bind_Ok in Hw as (roadSegment & Ers & Hw).
  apply bind_Ok in Hw as (wj & Ewj & Hw).
  apply bind_Ok in Hw as (ws' & Ews & Hw).
  apply bind_Ok in Hw as (waypoints & Ewp & Hw).
  apply bind_Ok in Hw as (source & _ & Hw).
  injection Hw as <-. cbn [WaypointPath.roadSegment WaypointPath.waypoints].
  split; [|split; [|split]].
  - destruct (py_truthy (get_or_None d "roadSegment")) eqn:Et.
    + apply bind_Ok in Ers as (lj & Elj & Ers).
      apply bind_Ok in Ers as (ds & Eds & Ers).
      apply bind_Ok in Ers as (r & Er & [= <-]).
      intros [= ->]. apply mapM_nil in Er as ->.
      cbn [py_getitem] in Elj. unfold get_or_None in Et.
      destruct (lookup "roadSegment" d) as [x|]; [|discriminate].
      injection Elj as ->. now apply (py_iter_truthy lj []).
    + injection Ers as <-. discriminate.
  - intros Et. rewrite Et in Ers. now injection Ers as <-.
  - intros rs Hl Hne. unfold get_or_None in Ers. cbn [py_getitem] in Ers.
    rewrite Hl in Ers.
    destruct rs as [|r0 rs]; [contradiction|]. cbn [py_truthy bind py_iter]
      in Ers.
    apply bind_Ok in Ers as (segments & Eseg & [= <-]).
    exists segments. repeat split; [exact Eseg|].
    now apply mapM_length in Eseg.
  - intros ws Hl. cbn [py_getitem] in Ewj. rewrite Hl in Ewj.
    injection Ewj as <-. injection Ews as <-.
    split; [exact Ewp | now apply mapM_length in Ewp].
Qed.

Lemma waypoint_path_road_segments_witness :
  WaypointPath.roadSegment
    (WaypointPath.mk [Waypoint.mk (S754_finite false 5314593605633553 (-47))
                        (S754_finite true 8612890649643107 (-46))]
       (JStr "INFERRED") None JNull JNull JNull)
  <> Some [].
Proof.
  refine (proj1 (waypoint_path_road_segments (H := spec_collaborators)
                   [("waypoints",
                     JList [JDict [("latE7", JInt 377624588);
                                   ("lngE7", JInt (-1223965377))]]);
                    ("source", JStr "INFERRED");
                    ("roadSegment", JList [])] _ _)).
  vm_compute. reflexivity.
Defined.

(** X14: [_parse_activity_segment] never returns [None]: whatever the
    record, it returns a segment or raises. A timeline object that is
    dispatched to it therefore contributes exactly one outcome element. *)
Theorem activity_segment_never_None `{Collaborators} (p : Path)
  (record o : Json) (result : result_var) :
  _parse_activity_segment record <> Ok None
  /\ (py_contains "placeVisit" o = Ok false ->
      py_contains "activitySegment" o = Ok true ->
      List.length (fst (timeline_body p result o)) = 1%nat).
Proof.
  assert (Hnn : forall r, _parse_activity_segment r <> Ok None).
  { intros r Hr. unfold _parse_activity_segment in Hr.
    apply bind_Ok in Hr as ([k|] & _ & Hr); [discriminate|].
    apply rewrap_KeyError_Ok in Hr. unfold activity_segment_body in Hr.
    bind_inv Hr. discriminate. }
  split; [apply Hnn|].
  intros Hp Ha. unfold timeline_body. rewrite Hp, Ha.
  destruct (py_getitem o "activitySegment") as [a|e]; [|reflexivity].
  cbn [bind]. specialize (Hnn a).
  destruct (_parse_activity_segment a) as [[s|]|e]; try reflexivity.
  congruence.
Qed.

Lemma activity_segment_never_None_witness :
  List.length
    (fst (timeline_body (H := spec_collaborators) "file" Unbound
            (JDict [("activitySegment", JDict [])]))) = 1%nat.
Proof.
  apply (proj2 (activity_segment_never_None (H := spec_collaborators)
                  "file" JNull (JDict [("activitySegment", JDict [])])
                  Unbound)); reflexivity.
Defined.

(** X15: The segment built from an object has an empty raw path when the
    object has no [simplifiedRawPath] key, or one without [points]; it has a
    waypoint path exactly when the object has a [waypointPath] key, and one
    activity per entry of [activities]. *)
Theorem activity_segment_optional_parts `{Collaborators}
  (d : list (string * Json)) (a : ActivitySegment.t) :
  _parse_activity_segment (JDict d) = Ok (Some a) ->
  (lookup "simplifiedRawPath" d = None ->
   SimplifiedRawPath.points (ActivitySegment.simplifiedRawPath a) = [])
  /\ (forall srp, lookup "simplifiedRawPath" d = Some (JDict srp) ->
      lookup "points" srp = None ->
      SimplifiedRawPath.points (ActivitySegment.simplifiedRawPath a) = [])
  /\ (ActivitySegment.waypointPath a = None
      <-> lookup "waypointPath" d = None)
  /\ (forall acts, lookup "activities" d = Some (JList acts) ->
      mapM ActivitySegmentActivity.from_dict acts
      = Ok (ActivitySegment.activities a)
      /\ List.length (ActivitySegment.activities a) = List.length acts).
Proof.
  intros Ha. unfold _parse_activity_segment in Ha.
  apply bind_Ok in Ha as ([k|] & _ & Ha); [discriminate|].
  apply rewrap_KeyError_Ok in Ha. unfold activity_segment_body in Ha.
  apply bind_Ok in Ha as (sl & _ & Ha).
  apply bind_Ok in Ha as (startLatLng & _ & Ha).
  apply bind_Ok in Ha as (el & _ & Ha).
  apply bind_Ok in Ha as (endLatLng & _ & Ha).
  apply bind_Ok in Ha as (d1 & _ & Ha).
  apply bind_Ok in Ha as (st & _ & Ha).
  apply bind_Ok in Ha as (startTime & _ & Ha).
  apply bind_Ok in Ha as (d2 & _ & Ha).
  apply bind_Ok in Ha as (et & _ & Ha).
  apply bind_Ok in Ha as (endTime & _ & Ha).
  rewrite !py_get_dict in Ha. cbn [bind] in Ha.
  apply bind_Ok in Ha as (acts' & Eacts & Ha).
  apply bind_Ok in Ha as (al & Eal & Ha).
  apply bind_Ok in Ha as (activities & Eact & Ha).
  cbn [py_contains bind] in Ha.
  apply bind_Ok in Ha as (waypointPath & Ewp & Ha).
  apply bind_Ok in Ha as (srp' & Esrp & Ha).
  apply bind_Ok in Ha as (pts & Epts & Ha).
  apply bind_Ok in Ha as (path & Epath & Ha).
  injection Ha as <-.
  cbn [ActivitySegment.simplifiedRawPath ActivitySegment.waypointPath
         ActivitySegment.activities].
  unfold SimplifiedRawPath.from_list in Epath.
  apply bind_Ok in Epath as (ds & Eds & Epath).
  apply bind_Ok in Epath as (ps & Eps & [= <-]).
  cbn [SimplifiedRawPath.points]. cbn [py_get] in Esrp, Eacts.
  split; [|split; [|split]].
  - intros Hn. rewrite Hn in Esrp. injection Esrp as <-.
    injection Epts as <-. injection Eds as <-. now injection Eps as <-.
  - intros srp Hs Hp. rewrite Hs in Esrp. injection Esrp as <-.
    cbn [py_get] in Epts. rewrite Hp in Epts. injection Epts as <-.
    injection Eds as <-. now injection Eps as <-.
  - destruct (lookup "waypointPath" d) as [wj|] eqn:Ew;
      cbn [py_getitem] in Ewp; rewrite ?Ew in Ewp.
    + cbn [bind] in Ewp.
      apply bind_Ok in Ewp as (wp & _ & [= <-]).
      split; discriminate.
    + injection Ewp as <-. now split.
  - intros acts Hl. rewrite Hl in Eacts. injection Eacts as <-.
    injection Eal as <-.
    split; [exact Eact | now apply mapM_length in Eact].
Qed.

Lemma activity_segment_optional_parts_witness :
  ActivitySegment.waypointPath basic_segment_event = None
  <-> lookup "waypointPath" (items _TEST_ACTIVITY_SEGMENT_BASIC) = None.
Proof.
  exact (proj1 (proj2 (proj2 (activity_segment_optional_parts
                                (H := spec_collaborators)
                                (items _TEST_ACTIVITY_SEGMENT_BASIC)
                                basic_segment_event
                                basic_segment_parses)))).
Defined.

(** *** The duration of a road segment *)

Lemma rstrip_s_trailing (s : string) : rstrip_s (s ++ "s") = rstrip_s s.
Proof.
  induction s as [|c s IH]; [reflexivity|].
  cbn [append rstrip_s]. now rewrite IH.
Qed.

(** X16: A road segment without a [duration] key has no duration; the
    duration string is read with every trailing ["s"] dropped, so ["50s"]
    and ["50"] give the same road segment; and a duration that is not a
    string, a number for one, is refused with [AttributeError]. *)
Theorem road_segment_duration `{Collaborators} (d d' : list (string * Json))
  (pid : Json) :
  lookup "placeId" d = Some pid ->
  (lookup "duration" d = None ->
   RoadSegment.from_dict (JDict d) = Ok (RoadSegment.mk pid None))
  /\ (forall s, lookup "duration" d = Some (JStr (s ++ "s")) ->
      lookup "placeId" d' = Some pid ->
      lookup "duration" d' = Some (JStr s) ->
      RoadSegment.from_dict (JDict d) = RoadSegment.from_dict (JDict d'))
  /\ (forall v, lookup "duration" d = Some v -> (forall s, v <> JStr s) ->
      RoadSegment.from_dict (JDict d) = Raise AttributeError).
Proof.
  intros Hp. unfold RoadSegment.from_dict. cbn [py_getitem py_contains].
  rewrite Hp. cbn [bind]. split; [|split].
  - now intros ->.
  - intros s Hd Hp' Hd'. rewrite Hd, Hp', Hd'. cbn [bind].
    now rewrite rstrip_s_trailing.
  - intros v Hd Hv. rewrite Hd. cbn [bind].
    destruct v; try reflexivity. now destruct (Hv s).
Qed.

Lemma road_segment_duration_witness :
  RoadSegment.from_dict (H := spec_collaborators)
    (JDict [("placeId", JStr "ChIJTTaLQxp-j4ARGyHL8nP2V58");
            ("duration", JStr "50s")])
  = RoadSegment.from_dict (H := spec_collaborators)
      (JDict [("placeId", JStr "ChIJTTaLQxp-j4ARGyHL8nP2V58");
              ("duration", JStr "50")]).
Proof.
  apply (proj1 (proj2 (road_segment_duration (H := spec_collaborators)
                         [("placeId", JStr "ChIJTTaLQxp-j4ARGyHL8nP2V58");
                          ("duration", JStr "50s")]
                         [("placeId", JStr "ChIJTTaLQxp-j4ARGyHL8nP2V58");
                          ("duration", JStr "50")]
                         _ eq_refl)) "50"); reflexivity.
Defined.

(** *** The truncated timestamp, before and after the epoch *)

Lemma binary_round_aux_opp (mx ex : Z) (lx : location) :
  binary_round_aux prec emax true mx ex lx
  = SFopp (binary_round_aux prec emax false mx ex lx).
Proof.
  unfold binary_round_aux.
  destruct (shr_fexp prec emax mx ex lx) as [mrs' e'].
  destruct (shr_fexp prec emax _ e' loc_Exact) as [mrs'' e''].
  destruct (shr_m mrs''); [reflexivity| |reflexivity].
  destruct (e'' <=? emax - prec); reflexivity.
Qed.

(** The quotient of a negative int is the opposite of the quotient of its
    absolute value. *)
Lemma int_truediv_opp (pa pb : positive) :
  int_truediv (Zneg pa) (Zpos pb)
  = match int_truediv (Zpos pa) (Zpos pb) with
    | Ok f => Ok (SFopp f)
    | Raise e => Raise e
    end.
Proof.
  unfold int_truediv. cbn [Z2SF]. unfold SFdiv.
  destruct (SFdiv_core_binary prec emax (Zpos pa) 0 (Zpos pb) 0)
    as [[mz ez] lz].
  cbn [xorb]. rewrite binary_round_aux_opp.
  destruct (binary_round_aux prec emax false mz ez lz); reflexivity.
Qed.

Lemma int_of_float_opp (f : float) :
  int_of_float (SFopp f)
  = match int_of_float f with
    | Ok z => Ok (- z)
    | Raise e => Raise e
    end.
Proof.
  destruct f as [s|s| |s m e]; try reflexivity.
  cbn. f_equal. destruct s; cbn [negb cond_Zopp]; lia.
Qed.

(** Less than [2^33] seconds from the epoch, on either side, the truncated
    float timestamp is the number of seconds rounded toward zero. *)
Lemma int_of_truediv_1e6_quot (a : Z) :
  - (2 ^ 33 * 1000000) < a < 2 ^ 33 * 1000000 ->
  (t <- int_truediv a 1000000 ;; int_of_float t)
  = Ok (Z.quot a 1000000).
Proof.
  intros Ha. destruct a as [|pa|pa].
  - reflexivity.
  - rewrite int_of_truediv_1e6 by lia.
    now rewrite Z.quot_div_nonneg by lia.
  - pose proof (int_of_truediv_1e6 (Zpos pa) ltac:(lia)) as Hpos.
    rewrite int_truediv_opp.
    destruct (int_truediv (Zpos pa) 1000000) as [f|e]; [|discriminate].
    cbn [bind] in *. rewrite int_of_float_opp, Hpos.
    change (Zneg pa) with (- Zpos pa). rewrite Z.quot_opp_l by lia.
    now rewrite Z.quot_div_nonneg by lia.
Qed.

Lemma int_timestamp_truncated (dt : datetime) :
  near_epoch dt -> int_timestamp dt = Ok (truncated_second dt).
Proof. intros Hr. exact (int_of_truediv_1e6_quot (epoch_us dt) Hr). Qed.

(** From the epoch on the truncated second is the epoch second; before the
    epoch, off a whole second, it is the second after it. *)
Lemma truncated_second_cases (dt : datetime) :
  (0 <= epoch_us dt -> truncated_second dt = epoch_second dt)
  /\ (epoch_us dt < 0 -> epoch_us dt mod 1000000 <> 0 ->
      truncated_second dt = epoch_second dt + 1).
Proof.
  unfold truncated_second, epoch_second.
  split; intros; Z.to_euclidean_division_equations; lia.
Qed.

(** X17: Less than [2^33] seconds from the epoch, the key of a [Location] is
    (lat, lng, accuracy, second) and the keys of a [LikedYoutubeVideo], a
    [PlayStoreAppInstall] and a [YoutubeComment] are the second alone, where
    the second is that of the event's timestamp rounded toward zero: the
    epoch second from the epoch on, so that two events of one second share
    it. *)
Theorem remaining_keys (l : Location.t) (v : LikedYoutubeVideo.t)
  (a : PlayStoreAppInstall.t) (c : YoutubeComment.t) :
  near_epoch (Location.dt l) ->
  near_epoch (LikedYoutubeVideo.dt v) ->
  near_epoch (PlayStoreAppInstall.dt a) ->
  near_epoch (YoutubeComment.dt c) ->
  Location.key l
  = Ok (Location.lat l, Location.lng l, Location.accuracy l,
        truncated_second (Location.dt l))
  /\ LikedYoutubeVideo.key v = Ok (truncated_second (LikedYoutubeVideo.dt v))
  /\ PlayStoreAppInstall.key a
     = Ok (truncated_second (PlayStoreAppInstall.dt a))
  /\ YoutubeComment.key c = Ok (truncated_second (YoutubeComment.dt c))
  /\ (forall dt, 0 <= epoch_us dt ->
      truncated_second dt = epoch_second dt).
Proof.
  intros Hl Hv Ha Hc.
  unfold Location.key, LikedYoutubeVideo.key, PlayStoreAppInstall.key,
    YoutubeComment.key.
  rewrite !int_timestamp_truncated by assumption.
  repeat split. apply truncated_second_cases.
Qed.

Lemma remaining_keys_witness :
  Location.key
    (Location.mk (S754_finite false 4944448733603227 (-47))
       (S754_finite true 7898430203492830 (-46))
       (Some (S754_finite false 5629499534213120 (-49)))
       (aware_utc (mk_naive 2017 12 10 23 14 58 30000)))
  = Ok (S754_finite false 4944448733603227 (-47),
        S754_finite true 7898430203492830 (-46),
        Some (S754_finite false 5629499534213120 (-49)), 1512947698)
  /\ LikedYoutubeVideo.key
       (LikedYoutubeVideo.mk (JStr "title") (JStr "desc")
          [Lit "https://youtube.com/watch?v="; Val (JStr "J1tF-DKKt7k")]
          (aware_utc (mk_naive 2020 7 5 18 27 32 0)))
     = Ok 1593973652
  /\ PlayStoreAppInstall.key
       (PlayStoreAppInstall.mk (JStr "Discord")
          (aware_utc (mk_naive 2020 5 25 3 11 53 55000))
          (JStr "motorola moto g(7) play"))
     = Ok 1590376313
  /\ YoutubeComment.key
       (YoutubeComment.mk "content"
          (aware_utc (mk_naive 1969 12 31 23 59 59 500000)) [])
     = Ok 0.
Proof.
  pose proof (remaining_keys
                (Location.mk (S754_finite false 4944448733603227 (-47))
                   (S754_finite true 7898430203492830 (-46))
                   (Some (S754_finite false 5629499534213120 (-49)))
                   (aware_utc (mk_naive 2017 12 10 23 14 58 30000)))
                (LikedYoutubeVideo.mk (JStr "title") (JStr "desc")
                   [Lit "https://youtube.com/watch?v=";
                    Val (JStr "J1tF-DKKt7k")]
                   (aware_utc (mk_naive 2020 7 5 18 27 32 0)))
                (PlayStoreAppInstall.mk (JStr "Discord")
                   (aware_utc (mk_naive 2020 5 25 3 11 53 55000))
                   (JStr "motorola moto g(7) play"))
                (YoutubeComment.mk "content"
                   (aware_utc (mk_naive 1969 12 31 23 59 59 500000)) []))
    as Hk.
  destruct Hk as (H1 & H2 & H3 & H4 & _);
    try (unfold near_epoch; vm_compute; split; reflexivity).
  repeat split; assumption.
Defined.

(** X18: Before the epoch the time component of a key is not the epoch
    second: [int] rounds the negative float timestamp toward zero, so for a
    timestamp less than [2^33] seconds before the epoch and off a whole
    second, the keys of an [Activity], a [PlaceVisit] and a browser-history
    entry hold the second after the epoch second of the timestamp. *)
Theorem keys_before_the_epoch (a : Activity.t) (v : PlaceVisit.t)
  (h : ChromeHistory.t) :
  near_epoch (Activity.time a) -> epoch_us (Activity.time a) < 0 ->
  epoch_us (Activity.time a) mod 1000000 <> 0 ->
  near_epoch (PlaceVisit.startTime v) ->
  epoch_us (PlaceVisit.startTime v) < 0 ->
  epoch_us (PlaceVisit.startTime v) mod 1000000 <> 0 ->
  near_epoch (ChromeHistory.dt h) -> epoch_us (ChromeHistory.dt h) < 0 ->
  epoch_us (ChromeHistory.dt h) mod 1000000 <> 0 ->
  Activity.key a
  = Ok (Activity.header a, Activity.title a,
        epoch_second (Activity.time a) + 1)
  /\ PlaceVisit.key v
     = Ok (PlaceVisit.lat v, PlaceVisit.lng v,
           epoch_second (PlaceVisit.startTime v) + 1,
           PlaceVisit.visitConfidence v)
  /\ ChromeHistory.key h
     = Ok (ChromeHistory.url h, epoch_second (ChromeHistory.dt h) + 1).
Proof.
  intros Ha Ha0 Ha1 Hv Hv0 Hv1 Hh Hh0 Hh1.
  unfold Activity.key, PlaceVisit.key, ChromeHistory.key.
  rewrite !int_timestamp_truncated by assumption. cbn [bind].
  rewrite !(proj2 (truncated_second_cases _)) by assumption.
  repeat split.
Qed.

Lemma keys_before_the_epoch_witness :
  Activity.key
    (Activity.mk (JStr "Search") (JStr "Searched for x")
       (aware_utc (mk_naive 1969 12 31 23 59 59 500000)) JNull JNull [] []
       [] (JList []))
  = Ok (JStr "Search", JStr "Searched for x", -1 + 1).
Proof.
  refine (proj1 (keys_before_the_epoch
                   (Activity.mk (JStr "Search") (JStr "Searched for x")
                      (aware_utc (mk_naive 1969 12 31 23 59 59 500000))
                      JNull JNull [] [] [] (JList []))
                   (PlaceVisit.mk (S754_zero false) (S754_zero false) None
                      None JNull JNull JNull JNull
                      (aware_utc (mk_naive 1969 12 31 23 59 59 500000))
                      (aware_utc (mk_naive 1970 1 1 0 0 0 0)) JNull []
                      JNull JNull JNull JNull JNull)
                   (ChromeHistory.mk JNull JNull
                      (aware_utc (mk_naive 1969 12 31 23 59 59 500000)))
                   _ _ _ _ _ _ _ _ _));
    try (unfold near_epoch; vm_compute; split; reflexivity);
    try (vm_compute; reflexivity); vm_compute; discriminate.
Defined.

(** *** The key of a browser-history entry, from its record *)

Lemma chrome_history_instant (d : list (string * Json)) (u : Z)
  (h : ChromeHistory.t) :
  lookup "time_usec" d = Some (JInt u) ->
  0 <= u < 2 ^ 33 * 1000000 ->
  chrome_history_of (JDict d) = Ok h ->
  epoch_us (ChromeHistory.dt h) = u
  /\ lookup "url" d = Some (ChromeHistory.url h)
  /\ lookup "title" d = Some (ChromeHistory.title h).
Proof.
  intros Ht Hr Hh. unfold chrome_history_of in Hh.
  cbn [py_getitem] in Hh. rewrite Ht in Hh. cbn [bind py_div_int] in Hh.
  change (10 ^ 6) with 1000000 in Hh.
  apply bind_Ok in Hh as (t & Et & Hh).
  apply bind_Ok in Hh as (naive & En & Hh).
  apply bind_Ok in Hh as (title & Eti & Hh).
  apply bind_Ok in Hh as (url & Eu & [= <-]).
  cbn [ChromeHistory.dt ChromeHistory.url ChromeHistory.title].
  pose proof (utcfromtimestamp_of_truediv u Hr) as Hutc.
  rewrite Et in Hutc. cbn [bind] in Hutc. rewrite En in Hutc.
  assert (Hsec : 0 <= u / 1000000 < 2 ^ 33).
  { split; [apply Z.div_pos; lia | apply Z.div_lt_upper_bound; lia]. }
  unfold replace_tzinfo_utc.
  rewrite (epoch_us_gmtime_us (u / 1000000) (u mod 1000000) naive Hsec)
    by (now symmetry).
  split; [pose proof (Z.div_mod u 1000000 ltac:(lia)); lia|].
  destruct (lookup "title" d); [|discriminate].
  destruct (lookup "url" d); [|discriminate].
  injection Eti as ->. injection Eu as ->. now split.
Qed.

(** X19: The key of the entry built from a record with an int [time_usec],
    from the epoch up to [2^33] seconds after it, is the record's url with
    [time_usec // 10**6]: the microseconds are dropped, and two visits of
    one url in the same second have the same key. *)
Theorem chrome_key_of_record (d d' : list (string * Json)) (u u' : Z)
  (h h' : ChromeHistory.t) :
  lookup "time_usec" d = Some (JInt u) ->
  0 <= u < 2 ^ 33 * 1000000 ->
  chrome_history_of (JDict d) = Ok h ->
  ChromeHistory.key h = Ok (ChromeHistory.url h, u / 1000000)
  /\ lookup "url" d = Some (ChromeHistory.url h)
  /\ (lookup "time_usec" d' = Some (JInt u') ->
      0 <= u' < 2 ^ 33 * 1000000 ->
      chrome_history_of (JDict d') = Ok h' ->
      lookup "url" d' = lookup "url" d ->
      u' / 1000000 = u / 1000000 ->
      ChromeHistory.key h' = ChromeHistory.key h).
Proof.
  assert (Hkey : forall d u h,
             lookup "time_usec" d = Some (JInt u) ->
             0 <= u < 2 ^ 33 * 1000000 ->
             chrome_history_of (JDict d) = Ok h ->
             ChromeHistory.key h = Ok (ChromeHistory.url h, u / 1000000)
             /\ lookup "url" d = Some (ChromeHistory.url h)).
  { clear. intros d u h Ht Hr Hh.
    destruct (chrome_history_instant d u h Ht Hr Hh) as (Hus & Hurl & _).
    split; [|exact Hurl]. unfold ChromeHistory.key.
    rewrite int_timestamp_epoch_second
      by (unfold in_float_range; now rewrite Hus).
    unfold epoch_second. now rewrite Hus. }
  intros Ht Hr Hh. destruct (Hkey d u h Ht Hr Hh) as [Hk Hurl].
  split; [exact Hk|]. split; [exact Hurl|].
  intros Ht' Hr' Hh' Hsame Hsec.
  destruct (Hkey d' u' h' Ht' Hr' Hh') as [Hk' Hurl'].
  rewrite Hk, Hk', Hsec. congruence.
Qed.

Lemma chrome_key_of_record_witness :
  ChromeHistory.key test_chrome_event
  = Ok (ChromeHistory.url test_chrome_event, 1617404690134513 / 1000000).
Proof.
  refine (proj1 (chrome_key_of_record
                   [("title", JStr "sean"); ("url", JStr "https://sean.fish");
                    ("time_usec", JInt 1617404690134513)] []
                   1617404690134513 0 test_chrome_event test_chrome_event
                   eq_refl _ _)).
  - lia.
  - vm_compute. reflexivity.
Defined.

(** *** The activity records *)

Lemma details_comprehension (ds : list Json) :
  mapM detail_of ds = Ok (map detail_entry ds).
Proof.
  induction ds as [|d ds IH]; [reflexivity|].
  cbn [mapM map]. rewrite IH.
  destruct d as [| b | n | f | c | l | o]; try reflexivity.
  cbn. now destruct (lookup "name" o).
Qed.

(** Run the leading computations of both sides of an equation between two
    sequences of binds, as long as they are the same. *)
Ltac run_binds :=
  repeat (cbn [py_get py_contains py_getitem lookup String.eqb Ascii.eqb
                 Bool.eqb py_iter mapM bind];
          rewrite ?details_comprehension;
          match goal with
          | |- context [bind ?c _] =>
              lazymatch c with
              | context [bind _ _] => fail
              | _ => destruct c; cbn [bind]; [|reflexivity]
              end
          end).

(** X20: An entry of [subtitles] or of [details] never makes an activity
    record fail. An entry that is not an object, or has no [name], is
    skipped: the record with a list of subtitles gives what the record with
    an empty list gives, with one [Subtitles] per entry that is an object
    with a [name], in order; and likewise the details of a record of the
    current format. *)
Theorem activity_skips_malformed_entries `{Collaborators}
  (d : list (string * Json)) (l : list Json) :
  activity_of_blob (JDict (("subtitles", JList l) :: d))
  = (a <- activity_of_blob (JDict (("subtitles", JList []) :: d)) ;;
     Ok (with_subtitles a (flat_map subtitle_entry l)))
  /\ (lookup "snippet" d = None ->
      activity_of_blob (JDict (("details", JList l) :: d))
      = (a <- activity_of_blob (JDict (("details", JList []) :: d)) ;;
         Ok (with_details a (flat_map detail_entry l)))).
Proof.
  split.
  - unfold activity_of_blob.
    cbn [py_get py_contains py_getitem lookup String.eqb Ascii.eqb
           Bool.eqb py_iter bind].
    rewrite subtitles_loop. cbn [foldM bind app].
    destruct (lookup "snippet" d) as [inner|]; run_binds; reflexivity.
  - intros Hsn. unfold activity_of_blob.
    cbn [py_get py_contains py_getitem lookup String.eqb Ascii.eqb
           Bool.eqb py_iter bind].
    rewrite Hsn. run_binds.
    now rewrite <- flat_map_concat_map.
Qed.

Lemma activity_skips_malformed_entries_witness :
  activity_of_blob (H := spec_collaborators)
    (JDict [("details", JList [JInt 5; JDict [("name", JStr "From Google")]]);
            ("header", JStr "Search"); ("title", JStr "Searched for x");
            ("time", JStr "2021-12-13T03:04:05.007Z")])
  = (a <- activity_of_blob (H := spec_collaborators)
            (JDict [("details", JList []);
                    ("header", JStr "Search");
                    ("title", JStr "Searched for x");
                    ("time", JStr "2021-12-13T03:04:05.007Z")]) ;;
     Ok (with_details a [JStr "From Google"])).
Proof.
  exact (proj2 (activity_skips_malformed_entries (H := spec_collaborators)
                  [("header", JStr "Search");
                   ("title", JStr "Searched for x");
                   ("time", JStr "2021-12-13T03:04:05.007Z")]
                  [JInt 5; JDict [("name", JStr "From Google")]]) eq_refl).
Defined.

(** X21: A legacy record is read from its snippet: apart from the subtitles,
    the outer record contributes nothing, so two legacy records with the
    same snippet and the same [subtitles] give the same outcome, whatever
    [header], [title] or [time] the outer record holds. The header of the
    event is ["YouTube"], and its title, description and products are the
    snippet's. *)
Theorem legacy_record_reads_the_snippet `{Collaborators}
  (d d' : list (string * Json)) (inner : Json) :
  lookup "snippet" d = Some inner ->
  (lookup "snippet" d' = Some inner ->
   lookup "subtitles" d' = lookup "subtitles" d ->
   activity_of_blob (JDict d') = activity_of_blob (JDict d))
  /\ (forall a, activity_of_blob (JDict d) = Ok a ->
      Activity.header a = JStr "YouTube"
      /\ exists o,
           inner = JDict o
           /\ lookup "title" o = Some (Activity.title a)
           /\ Activity.description a = get_or_None o "description"
           /\ Activity.products a
              = match lookup "products" o with
                | Some v => v
                | None => JList []
                end).
Proof.
  intros Hsn. split.
  - intros Hsn' Hsub. unfold activity_of_blob.
    cbn [py_get py_contains py_getitem]. now rewrite Hsn, Hsn', Hsub.
  - intros a Ha. unfold activity_of_blob in Ha.
    apply bind_Ok in Ha as (subs & _ & Ha).
    apply bind_Ok in Ha as (ss & _ & Ha).
    apply bind_Ok in Ha as (subtitles & _ & Ha).
    cbn [py_contains py_getitem] in Ha. rewrite Hsn in Ha. cbn [bind] in Ha.
    apply bind_Ok in Ha as ([[blob header] time_str] & Eun & Ha).
    apply bind_Ok in Eun as (ts & Ets & [= <- <- <-]).
    destruct inner as [| b | n | f | c | l | o]; try discriminate Ets.
    rewrite !py_get_dict in Ha. cbn [py_get py_getitem bind] in Ha.
    apply bind_Ok in Ha as (title & Eti & Ha).
    apply bind_Ok in Ha as (titleUrl & _ & Ha).
    apply bind_Ok in Ha as (time & _ & Ha).
    apply bind_Ok in Ha as (ds & _ & Ha).
    apply bind_Ok in Ha as (dl & _ & Ha).
    apply bind_Ok in Ha as (details & _ & Ha).
    apply bind_Ok in Ha as (ls & _ & Ha).
    apply bind_Ok in Ha as (ll & _ & Ha).
    apply bind_Ok in Ha as (locationInfos & _ & Ha).
    apply bind_Ok in Ha as (products & Epr & [= <-]).
    cbn [Activity.header Activity.title Activity.description
           Activity.products].
    split; [reflexivity|]. exists o. split; [reflexivity|].
    destruct (lookup "title" o); [|discriminate]. injection Eti as ->.
    repeat split.
    destruct (lookup "products" o); now injection Epr as <-.
Qed.

Lemma legacy_record_reads_the_snippet_witness :
  activity_of_blob (H := spec_collaborators)
    (JDict (("title", JStr "An outer title") :: legacy_record))
  = activity_of_blob (H := spec_collaborators) (JDict legacy_record).
Proof.
  apply (proj1 (legacy_record_reads_the_snippet (H := spec_collaborators)
                  legacy_record
                  (("title", JStr "An outer title") :: legacy_record)
                  _ eq_refl)); reflexivity.
Defined.

(** *** products_desc *)

Lemma ascii_compare_N (a b : ascii) :
  Ascii.compare a b = (N_of_ascii a ?= N_of_ascii b)%N.
Proof. reflexivity. Qed.

Lemma string_compare_trans (c : comparison) (s1 s2 s3 : string) :
  String.compare s1 s2 = c -> String.compare s2 s3 = c ->
  String.compare s1 s3 = c.
Proof.
  revert s2 s3.
  induction s1 as [|c1 s1 IH]; intros [|c2 s2] [|c3 s3]; cbn;
    try congruence.
  rewrite !ascii_compare_N.
  destruct (N.compare_spec (N_of_ascii c1) (N_of_ascii c2));
    destruct (N.compare_spec (N_of_ascii c2) (N_of_ascii c3));
    destruct (N.compare_spec (N_of_ascii c1) (N_of_ascii c3));
    try congruence; try lia; try apply IH.
Qed.

Lemma string_compare_eq_l (s1 s2 s3 : string) :
  String.compare s1 s2 = Eq ->
  String.compare s1 s3 = String.compare s2 s3.
Proof.
  intros E. apply String.compare_eq_iff in E. now subst.
Qed.

Lemma string_leb_trans (s1 s2 s3 : string) :
  String.leb s1 s2 = true -> String.leb s2 s3 = true ->
  String.leb s1 s3 = true.
Proof.
  unfold String.leb.
  destruct (String.compare s1 s2) eqn:E12; [| |discriminate];
    destruct (String.compare s2 s3) eqn:E23; try discriminate; intros _ _.
  - now rewrite (string_compare_eq_l _ _ _ E12), E23.
  - now rewrite (string_compare_eq_l _ _ _ E12), E23.
  - apply String.compare_eq_iff in E23. subst. now rewrite E12.
  - now rewrite (string_compare_trans Lt _ _ _ E12 E23).
Qed.

Lemma string_leb_false (s1 s2 : string) :
  String.leb s1 s2 = false -> String.leb s2 s1 = true.
Proof.
  intros Hf. destruct (String.leb_total s1 s2); congruence.
Qed.

Lemma insert_sorted_comm (a b : string) (l : list string) :
  insert_sorted a (insert_sorted b l) = insert_sorted b (insert_sorted a l).
Proof.
  induction l as [|x l IH]; cbn [insert_sorted].
  - destruct (String.leb a b) eqn:Eab, (String.leb b a) eqn:Eba;
      cbn [insert_sorted]; rewrite ?Eab, ?Eba; try reflexivity.
    + now rewrite (String.leb_antisym _ _ Eab Eba).
    + apply string_leb_false in Eab. congruence.
  - destruct (String.leb a x) eqn:Eax, (String.leb b x) eqn:Ebx;
      cbn [insert_sorted]; rewrite ?Eax, ?Ebx.
    + destruct (String.leb a b) eqn:Eab, (String.leb b a) eqn:Eba;
        cbn [insert_sorted]; rewrite ?Eax, ?Ebx; try reflexivity.
      * now rewrite (String.leb_antisym _ _ Eab Eba).
      * apply string_leb_false in Eab. congruence.
    + destruct (String.leb b a) eqn:Eba; [|reflexivity].
      pose proof (string_leb_trans _ _ _ Eba Eax). congruence.
    + destruct (String.leb a b) eqn:Eab; [|reflexivity].
      pose proof (string_leb_trans _ _ _ Eab Ebx). congruence.
    + now rewrite IH.
Qed.

Lemma sorted_Permutation_eq (l l' : list string) :
  Permutation l l' -> sorted l = sorted l'.
Proof.
  induction 1 as [| x l l' _ IH | x y l | l l' l'' _ IH1 _ IH2];
    cbn [sorted fold_right].
  - reflexivity.
  - fold (sorted l) (sorted l'). now rewrite IH.
  - apply insert_sorted_comm.
  - congruence.
Qed.

Lemma insert_sorted_Permutation (a : string) (l : list string) :
  Permutation (insert_sorted a l) (a :: l).
Proof.
  induction l as [|x l IH]; cbn [insert_sorted]; [reflexivity|].
  destruct (String.leb a x); [reflexivity|].
  rewrite IH. apply perm_swap.
Qed.

Lemma sorted_Permutation (l : list string) : Permutation (sorted l) l.
Proof.
  induction l as [|a l IH]; [reflexivity|]. cbn [sorted fold_right].
  fold (sorted l). rewrite insert_sorted_Permutation. now constructor.
Qed.

Lemma insert_sorted_ordered (a : string) (l : list string) :
  StronglySorted (fun x y => String.leb x y = true) l ->
  StronglySorted (fun x y => String.leb x y = true) (insert_sorted a l).
Proof.
  induction 1 as [|x l Hs IH Hx]; cbn [insert_sorted].
  - repeat constructor.
  - destruct (String.leb a x) eqn:Eax.
    + constructor; [now constructor|]. constructor; [exact Eax|].
      eapply Forall_impl; [|exact Hx].
      intros y Hy. exact (string_leb_trans _ _ _ Eax Hy).
    + constructor; [exact IH|].
      eapply Permutation_Forall;
        [symmetry; apply insert_sorted_Permutation|].
      constructor; [now apply string_leb_false | exact Hx].
Qed.

Lemma sorted_ordered (l : list string) :
  StronglySorted (fun x y => String.leb x y = true) (sorted l).
Proof.
  induction l as [|a l IH]; [constructor|].
  cbn [sorted fold_right]. now apply insert_sorted_ordered.
Qed.

Lemma mapM_str_items (ps : list string) :
  mapM str_item (map JStr ps) = Ok ps.
Proof.
  induction ps as [|s ps IH]; [reflexivity|].
  cbn [map mapM str_item bind]. now rewrite IH.
Qed.

Lemma mapM_str_item_refused (l : list Json) (x : Json) :
  In x l -> (forall s, x <> JStr s) -> mapM str_item l = Raise TypeError.
Proof.
  intros Hin Hx. induction l as [|y l IH]; [contradiction|].
  cbn [mapM]. destruct y as [| b | n | f | s | l' | o]; try reflexivity.
  cbn [str_item bind]. destruct Hin as [<-|Hin]; [now destruct (Hx s)|].
  now rewrite (IH Hin).
Qed.

(** X22: The description of the products of an activity is the products in
    ascending order, joined with [", "]. It does not depend on the order in
    which the record lists them: two activities whose products are the same
    strings in another order have the same description. A product that is
    not a string makes it raise [TypeError]. *)
Theorem products_desc_sorted (a b : Activity.t) (ps qs : list string)
  (l : list Json) (x : Json) :
  Activity.products a = JList (map JStr ps) ->
  Activity.products_desc a = Ok (String.concat ", " (sorted ps))
  /\ Permutation (sorted ps) ps
  /\ StronglySorted (fun s t => String.leb s t = true) (sorted ps)
  /\ (Activity.products b = JList (map JStr qs) -> Permutation ps qs ->
      Activity.products_desc b = Activity.products_desc a)
  /\ (Activity.products b = JList l -> In x l -> (forall s, x <> JStr s) ->
      Activity.products_desc b = Raise TypeError).
Proof.
  intros Ha.
  assert (Hdesc : forall c rs, Activity.products c = JList (map JStr rs) ->
             Activity.products_desc c
             = Ok (String.concat ", " (sorted rs))).
  { intros c rs Hc. unfold Activity.products_desc. rewrite Hc.
    cbn [py_iter bind]. now rewrite mapM_str_items. }
  split; [now apply Hdesc|].
  split; [apply sorted_Permutation|].
  split; [apply sorted_ordered|]. split.
  - intros Hb Hperm. rewrite (Hdesc a ps Ha), (Hdesc b qs Hb).
    now rewrite (sorted_Permutation_eq ps qs Hperm).
  - intros Hb Hin Hx. unfold Activity.products_desc. rewrite Hb.
    cbn [py_iter bind]. now rewrite (mapM_str_item_refused l x Hin Hx).
Qed.

Lemma products_desc_sorted_witness :
  Activity.products_desc
    (Activity.mk (JStr "Search") (JStr "Searched for x")
       (aware_utc (mk_naive 2021 12 13 3 4 5 7000)) JNull JNull [] [] []
       (JList (map JStr ["Search"; "Discover"; "Chrome"])))
  = Ok "Chrome, Discover, Search".
Proof.
  exact (proj1 (products_desc_sorted
                  (Activity.mk (JStr "Search") (JStr "Searched for x")
                     (aware_utc (mk_naive 2021 12 13 3 4 5 7000)) JNull
                     JNull [] [] []
                     (JList (map JStr ["Search"; "Discover"; "Chrome"])))
                  (Activity.mk (JStr "Search") (JStr "Searched for x")
                     (aware_utc (mk_naive 2021 12 13 3 4 5 7000)) JNull
                     JNull [] [] [] (JList []))
                  ["Search"; "Discover"; "Chrome"] [] [] JNull eq_refl)).
Defined.

(** *** The coordinates of a candidate location *)

(** An E7 integer of magnitude up to [2^31] divided by [1e7], and the
    quotient multiplied by [1e7] and rounded. *)
Lemma e7_int_roundtrip (raw : Z) :
  - 2 ^ 31 <= raw <= 2 ^ 31 ->
  exists degrees,
    py_div_float (JInt raw) f1e7 = Ok degrees
    /\ py_round (fmul degrees f1e7) = Ok raw.
Proof.
  intros Hr.
  assert (Hsigned : forall (s : bool) (pa : positive),
             Zpos pa <= 2 ^ 31 ->
             exists degrees,
               py_div_float (JInt (cond_Zopp s (Zpos pa))) f1e7 = Ok degrees
               /\ py_round (fmul degrees f1e7)
                  = Ok (cond_Zopp s (Zpos pa))).
  { clear. intros s pa Hpa.
    pose proof (e7_roundtrip_magnitude s pa Hpa) as Hrt.
    assert (Hk : Zpos (digits2_pos pa) <= 32).
    { assert (Zpos (digits2_pos pa) - 1 < 32); [|lia].
      pose proof (digits2_pos_bounds pa). apply pow2_lt_inv; [lia|].
      change (2 ^ 31) with 2147483648 in Hpa.
      change (2 ^ 32) with 4294967296. lia. }
    destruct (binary_round_exact s pa 0) as (m1 & Hm1 & _); try lia.
    exists (fdiv (binary_round prec emax s pa 0) f1e7).
    split; [|now apply py_round_Some].
    unfold py_div_float, float_of_int, Z2F, binary_normalize.
    destruct s; cbn [cond_Zopp Z.opp]; rewrite Hm1; cbn [bind];
      now rewrite <- Hm1. }
  destruct raw as [|pa|pa].
  - exists (S754_zero false). split; reflexivity.
  - apply (Hsigned false pa). lia.
  - apply (Hsigned true pa). lia.
Qed.

(** X23: [CandidateLocation.from_dict] succeeds on every object whose
    [latitudeE7] and [longitudeE7] are ints of magnitude up to [2^31] and
    whose [sourceInfo], when present, is an object. The coordinates lose
    nothing: [round(lat * 1e7)] and [round(lng * 1e7)] give the two ints
    back. The optional fields are those of the object, [None] when absent,
    and the device tag is that of [sourceInfo]. *)
Theorem candidate_location_from_object (d : list (string * Json))
  (a b : Z) :
  lookup "latitudeE7" d = Some (JInt a) ->
  lookup "longitudeE7" d = Some (JInt b) ->
  - 2 ^ 31 <= a <= 2 ^ 31 -> - 2 ^ 31 <= b <= 2 ^ 31 ->
  (lookup "sourceInfo" d = None
   \/ exists o, lookup "sourceInfo" d = Some (JDict o)) ->
  exists location,
    CandidateLocation.from_dict (JDict d) = Ok location
    /\ py_round (fmul (CandidateLocation.lat location) f1e7) = Ok a
    /\ py_round (fmul (CandidateLocation.lng location) f1e7) = Ok b
    /\ CandidateLocation.address location = get_or_None d "address"
    /\ CandidateLocation.name location = get_or_None d "name"
    /\ CandidateLocation.placeId location = get_or_None d "placeId"
    /\ CandidateLocation.locationConfidence location
       = get_or_None d "locationConfidence"
    /\ CandidateLocation.sourceInfoDeviceTag location
       = get_or_None (items (get_or_None d "sourceInfo")) "deviceTag".
Proof.
  intros Hlat Hlng Ha Hb Hsi.
  destruct (e7_int_roundtrip a Ha) as (lat & Elat & Rlat).
  destruct (e7_int_roundtrip b Hb) as (lng & Elng & Rlng).
  unfold CandidateLocation.from_dict. rewrite !py_get_dict.
  cbn [py_getitem bind]. rewrite Hlat, Hlng. cbn [bind].
  rewrite Elat, Elng. cbn [bind py_get].
  destruct Hsi as [Hn|[o Ho]].
  - rewrite Hn. cbn [bind py_get lookup].
    eexists. split; [reflexivity|].
    cbn [CandidateLocation.lat CandidateLocation.lng
           CandidateLocation.address CandidateLocation.name
           CandidateLocation.placeId CandidateLocation.locationConfidence
           CandidateLocation.sourceInfoDeviceTag].
    repeat split; try assumption.
    unfold get_or_None. now rewrite Hn.
  - rewrite Ho. cbn [bind]. rewrite py_get_dict. cbn [bind].
    eexists. split; [reflexivity|].
    cbn [CandidateLocation.lat CandidateLocation.lng
           CandidateLocation.address CandidateLocation.name
           CandidateLocation.placeId CandidateLocation.locationConfidence
           CandidateLocation.sourceInfoDeviceTag].
    repeat split; try assumption.
    unfold get_or_None at 3. now rewrite Ho.
Qed.

Lemma candidate_location_from_object_witness :
  exists location,
    CandidateLocation.from_dict
      (JDict [("latitudeE7", JInt 423984239);
              ("longitudeE7", JInt (-1565656565));
              ("placeId", JStr "XPRK4E4P")]) = Ok location
    /\ py_round (fmul (CandidateLocation.lat location) f1e7)
       = Ok 423984239
    /\ py_round (fmul (CandidateLocation.lng location) f1e7)
       = Ok (-1565656565).
Proof.
  destruct (candidate_location_from_object
              [("latitudeE7", JInt 423984239);
               ("longitudeE7", JInt (-1565656565));
               ("placeId", JStr "XPRK4E4P")] 423984239 (-1565656565)
              eq_refl eq_refl)
    as (loc & H1 & H2 & H3 & _).
  - vm_compute. split; congruence.
  - vm_compute. split; congruence.
  - now left.
  - exists loc. repeat split; assumption.
Defined.

(** *** A missing key in the flat extractors *)

(** X24: The extractors of activities, likes and app installs do not wrap a
    missing key: the outcome of the record is the [KeyError] that names it,
    and the keys are read in a fixed order. An activity record of the
    current format is refused for [header], then [time], then [title]; a
    like for [snippet], then the snippet's [title]; an app install for
    [install], then the install's [doc]. *)
Theorem flat_extractors_missing_key `{Collaborators}
  (d : list (string * Json)) :
  (lookup "subtitles" d = None -> lookup "snippet" d = None ->
   (lookup "header" d = None ->
    activity_of_blob (JDict d) = Raise (KeyError "header"))
   /\ (lookup "header" d <> None -> lookup "time" d = None ->
       activity_of_blob (JDict d) = Raise (KeyError "time"))
   /\ (lookup "header" d <> None -> lookup "time" d <> None ->
       lookup "title" d = None ->
       activity_of_blob (JDict d) = Raise (KeyError "title")))
  /\ (lookup "snippet" d = None ->
      like_of (JDict d) = Raise (KeyError "snippet"))
  /\ (forall o, lookup "snippet" d = Some (JDict o) ->
      lookup "title" o = None ->
      like_of (JDict d) = Raise (KeyError "title"))
  /\ (lookup "install" d = None ->
      app_install_of (JDict d) = Raise (KeyError "install"))
  /\ (forall o, lookup "install" d = Some (JDict o) ->
      lookup "doc" o = None ->
      app_install_of (JDict d) = Raise (KeyError "doc")).
Proof.
  split; [|split; [|split; [|split]]].
  - intros Hsub Hsn. unfold activity_of_blob.
    cbn [py_get py_contains py_getitem]. rewrite Hsub, Hsn.
    cbn [py_iter foldM bind]. repeat split.
    + now intros ->.
    + intros Hh ->. now destruct (lookup "header" d).
    + intros Hh Ht Hti.
      destruct (lookup "header" d); [|contradiction].
      destruct (lookup "time" d); [|contradiction].
      cbn [bind py_getitem]. now rewrite Hti.
  - intros Hsn. unfold like_of. cbn [py_getitem]. now rewrite Hsn.
  - intros o Hsn Ht. unfold like_of. cbn [py_getitem]. rewrite Hsn.
    cbn [bind py_getitem]. now rewrite Ht.
  - intros Hi. unfold app_install_of. cbn [py_getitem]. now rewrite Hi.
  - intros o Hi Hd. unfold app_install_of. cbn [py_getitem]. rewrite Hi.
    cbn [bind py_getitem]. now rewrite Hd.
Qed.

Lemma flat_extractors_missing_key_witness :
  activity_of_blob (H := spec_collaborators)
    (JDict [("title", JStr "7 cards in your feed")])
  = Raise (KeyError "header")
  /\ like_of (H := spec_collaborators)
       (JDict [("title", JStr "7 cards in your feed")])
     = Raise (KeyError "snippet")
  /\ app_install_of (H := spec_collaborators)
       (JDict [("title", JStr "7 cards in your feed")])
     = Raise (KeyError "install").
Proof.
  pose proof (flat_extractors_missing_key (H := spec_collaborators)
                [("title", JStr "7 cards in your feed")])
    as (Ha & Hl & _ & Hi & _).
  destruct (Ha eq_refl eq_refl) as (Hh & _).
  split; [exact (Hh eq_refl)|].
  split; [exact (Hl eq_refl) | exact (Hi eq_refl)].
Defined.

(** *** The locations and timestamps of an activity segment *)

(** X25: A segment is built only from an object that has both location keys.
    A location that is falsy, [null] or an empty object, gives no
    coordinates; any other gives the coordinates of the candidate location
    built from it. *)
Theorem activity_segment_locations `{Collaborators}
  (d : list (string * Json)) (a : ActivitySegment.t) :
  _parse_activity_segment (JDict d) = Ok (Some a) ->
  exists sl el,
    lookup "startLocation" d = Some sl
    /\ lookup "endLocation" d = Some el
    /\ (py_truthy sl = false ->
        ActivitySegment.startLat a = None
        /\ ActivitySegment.startLng a = None)
    /\ (py_truthy sl = true ->
        exists start,
          CandidateLocation.from_dict sl = Ok start
          /\ ActivitySegment.startLat a = Some (CandidateLocation.lat start)
          /\ ActivitySegment.startLng a
             = Some (CandidateLocation.lng start))
    /\ (py_truthy el = false ->
        ActivitySegment.endLat a = None /\ ActivitySegment.endLng a = None)
    /\ (py_truthy el = true ->
        exists end_,
          CandidateLocation.from_dict el = Ok end_
          /\ ActivitySegment.endLat a = Some (CandidateLocation.lat end_)
          /\ ActivitySegment.endLng a = Some (CandidateLocation.lng end_)).
Proof.
  intros Ha. unfold _parse_activity_segment in Ha.
  apply bind_Ok in Ha as ([k|] & _ & Ha); [discriminate|].
  apply rewrap_KeyError_Ok in Ha. unfold activity_segment_body in Ha.
  apply bind_Ok in Ha as (sl & Esl & Ha).
  apply bind_Ok in Ha as (startLatLng & Es & Ha).
  apply bind_Ok in Ha as (el & Eel & Ha).
  apply bind_Ok in Ha as (endLatLng & Ee & Ha).
  bind_inv Ha. injection Ha as <-.
  cbn [ActivitySegment.startLat ActivitySegment.startLng
         ActivitySegment.endLat ActivitySegment.endLng].
  cbn [py_getitem] in Esl, Eel.
  destruct (lookup "startLocation" d) as [sl'|]; [|discriminate].
  destruct (lookup "endLocation" d) as [el'|]; [|discriminate].
  injection Esl as ->. injection Eel as ->.
  exists sl, el. split; [reflexivity|]. split; [reflexivity|].
  split; [|split; [|split]].
  - intros Ht. rewrite Ht in Es. now injection Es as <-.
  - intros Ht. rewrite Ht in Es.
    apply bind_Ok in Es as (start & Efrom & [= <-]). now exists start.
  - intros Ht. rewrite Ht in Ee. now injection Ee as <-.
  - intros Ht. rewrite Ht in Ee.
    apply bind_Ok in Ee as (end_ & Efrom & [= <-]). now exists end_.
Qed.

Lemma activity_segment_locations_witness :
  exists sl el,
    lookup "startLocation" (items _TEST_ACTIVITY_SEGMENT_BASIC) = Some sl
    /\ lookup "endLocation" (items _TEST_ACTIVITY_SEGMENT_BASIC) = Some el.
Proof.
  destruct (activity_segment_locations (H := spec_collaborators)
              (items _TEST_ACTIVITY_SEGMENT_BASIC) basic_segment_event
              basic_segment_parses) as (sl & el & Hs & He & _).
  now exists sl, el.
Defined.

(** X26: The timestamps of a segment are read from [startTimestamp] and
    [endTimestamp] alone. A duration that spells its start in milliseconds,
    [startTimestampMs], which [_parse_timestamp_key] prefers and a place
    visit accepts, makes the segment builder raise the [RuntimeError] that
    names [startTimestamp]. *)
Theorem activity_segment_reads_iso_timestamps `{Collaborators}
  (d o : list (string * Json)) (sl el ms : Json) :
  lookup "duration" d = Some (JDict o) ->
  lookup "activities" d <> None ->
  lookup "startLocation" d = Some sl -> py_truthy sl = false ->
  lookup "endLocation" d = Some el -> py_truthy el = false ->
  lookup "startTimestampMs" o = Some ms ->
  lookup "startTimestamp" o = None ->
  _parse_activity_segment (JDict d)
  = Raise (missing_location_key "startTimestamp" (JDict d))
  /\ _parse_timestamp_key (JDict o) "startTimestamp"
     = parse_datetime_millis ms.
Proof.
  intros Hdur Hact Hsl Hst Hel Het Hms Hiso. split.
  - unfold _parse_activity_segment.
    rewrite check_required_keys_present.
    2:{ repeat constructor; [rewrite Hdur; discriminate | exact Hact]. }
    cbn [bind]. unfold activity_segment_body. cbn [py_getitem].
    rewrite Hsl, Hel, Hdur. cbn [bind]. rewrite Hst, Het.
    cbn [bind py_getitem]. now rewrite Hiso.
  - unfold _parse_timestamp_key. cbn [append py_contains py_getitem].
    rewrite Hms. reflexivity.
Qed.

Lemma activity_segment_reads_iso_timestamps_witness :
  _parse_activity_segment (H := spec_collaborators)
    (JDict segment_with_millis)
  = Raise (missing_location_key "startTimestamp"
             (JDict segment_with_millis)).
Proof.
  refine (proj1 (activity_segment_reads_iso_timestamps
                   (H := spec_collaborators) segment_with_millis
                   [("startTimestampMs", JStr "1354766971087");
                    ("endTimestampMs", JStr "1354767561052")]
                   (JDict []) (JDict []) (JStr "1354766971087")
                   eq_refl _ eq_refl eq_refl eq_refl eq_refl eq_refl
                   eq_refl)).
  discriminate.
Defined.

(** *** The fields of a coarse location *)

(** X27: The location built from an object has no accuracy exactly when the
    object's [accuracy] is absent or [null], an accuracy of [0] is kept as a
    float; its coordinates are the E7 decodes of [longitudeE7] and
    [latitudeE7], and its timestamp is the one [_parse_timestamp_key] reads
    under [timestamp]. *)
Theorem location_fields `{Collaborators} (d : list (string * Json))
  (l : Location.t) :
  location_outcome d = Event l ->
  (Location.accuracy l = None <-> get_or_None d "accuracy" = JNull)
  /\ (forall f, Location.accuracy l = Some f ->
      py_float (get_or_None d "accuracy") = Ok f)
  /\ (exists lngE7 latE7,
        lookup "longitudeE7" d = Some lngE7
        /\ e7_of_float lngE7 = Ok (Location.lng l)
        /\ lookup "latitudeE7" d = Some latE7
        /\ e7_of_float latE7 = Ok (Location.lat l))
  /\ _parse_timestamp_key (JDict d) "timestamp" = Ok (Location.dt l).
Proof.
  unfold location_outcome, outcome. fold (get_or_None d "accuracy").
  destruct (location_of (JDict d) (get_or_None d "accuracy")) as [l'|e]
    eqn:Hl; [|discriminate].
  intros [= ->]. unfold location_of in Hl.
  apply bind_Ok in Hl as (lngE7 & Elng & Hl).
  apply bind_Ok in Hl as (lng & Flng & Hl).
  apply bind_Ok in Hl as (latE7 & Elat & Hl).
  apply bind_Ok in Hl as (lat & Flat & Hl).
  apply bind_Ok in Hl as (dt & Edt & Hl).
  apply bind_Ok in Hl as (acc & Eacc & [= <-]).
  cbn [Location.accuracy Location.lng Location.lat Location.dt].
  cbn [py_getitem] in Elng, Elat.
  destruct (lookup "longitudeE7" d) as [x|]; [|discriminate].
  destruct (lookup "latitudeE7" d) as [y|]; [|discriminate].
  injection Elng as ->. injection Elat as ->.
  split; [|split; [|split; [|exact Edt]]].
  - destruct (get_or_None d "accuracy"); cbn [is_None] in Eacc;
      try (apply bind_Ok in Eacc as (f & _ & [= <-]));
      try injection Eacc as <-; split; congruence.
  - intros f ->.
    destruct (get_or_None d "accuracy"); cbn [is_None] in Eacc;
      try discriminate Eacc;
      now apply bind_Ok in Eacc as (f' & Ef & [= <-]).
  - now exists lngE7, latE7.
Qed.

Lemma location_fields_witness :
  Location.accuracy
    (Location.mk (S754_finite false 4944448733603227 (-47))
       (S754_finite true 7898430203492830 (-46))
       (Some (S754_zero false))
       (aware_utc (mk_naive 2017 12 10 23 14 58 30000))) = None
  <-> get_or_None [("latitudeE7", JInt 351324213);
                   ("longitudeE7", JInt (-1122434441));
                   ("accuracy", JInt 0);
                   ("timestamp", JStr "2017-12-10T23:14:58.030Z")]
        "accuracy" = JNull.
Proof.
  refine (proj1 (location_fields (H := spec_collaborators) _ _ _)).
  vm_compute. reflexivity.
Defined.

(** *** The first coarse location record that is not an object *)

Lemma location_loop_stops `{Collaborators}
  (pre : list (list (string * Json))) (x : Json) (post : list Json) :
  isinstance_dict x = false ->
  gen_loop (fun loc => gen_bind (py_get loc "accuracy" JNull)
                         (fun accuracy =>
                            try_yield (location_of loc accuracy)))
    (map JDict pre ++ x :: post)
  = mk_gen (map location_outcome pre) (Some AttributeError).
Proof.
  intros Hx. induction pre as [|loc pre IH]; cbn [map app gen_loop].
  - destruct x; try discriminate Hx; reflexivity.
  - rewrite IH. cbn [py_get]. unfold location_outcome, outcome.
    destruct (lookup "accuracy" loc) as [a|]; cbn [gen_bind];
      unfold try_yield, gen_seq, yield.
    + destruct (location_of (JDict loc) a); reflexivity.
    + destruct (location_of (JDict loc) JNull); reflexivity.
Qed.

(** X28: The coarse location-history extractor stops at the first record
    under [locations] that is not an object: it yields one outcome for each
    of the objects before it, in order, then [loc.get] raises
    [AttributeError] out of the generator, and the records after it are
    never reached, whatever they are. *)
Theorem location_history_stops_at_first_non_object `{Collaborators}
  (p : Path) (d : list (string * Json))
  (pre : list (list (string * Json))) (x : Json) (post : list Json) :
  lookup "locations" d = Some (JList (map JDict pre ++ x :: post)) ->
  isinstance_dict x = false ->
  _parse_location_history p (JDict d)
  = mk_gen (map location_outcome pre) (Some AttributeError).
Proof.
  intros Hl Hx. unfold _parse_location_history.
  cbn [py_contains py_get gen_bind]. rewrite Hl.
  cbn [negb py_iter gen_bind]. rewrite (location_loop_stops pre x post Hx).
  reflexivity.
Qed.

Lemma location_history_stops_at_first_non_object_witness :
  _parse_location_history (H := spec_collaborators) "file"
    (JDict [("locations",
             JList (map JDict [[("latitudeE7", JInt 351324213)]]
                    ++ JNull
                    :: [JDict [("timestampMs", JStr "1512947698030");
                               ("latitudeE7", JInt 351324213);
                               ("longitudeE7", JInt (-1122434441));
                               ("accuracy", JInt 10)]]))])
  = mk_gen (map (location_outcome (H := spec_collaborators))
              [[("latitudeE7", JInt 351324213)]])
      (Some AttributeError).
Proof.
  apply (location_history_stops_at_first_non_object
           (H := spec_collaborators) "file" _
           [[("latitudeE7", JInt 351324213)]] JNull
           [JDict [("timestampMs", JStr "1512947698030");
                   ("latitudeE7", JInt 351324213);
                   ("longitudeE7", JInt (-1122434441));
                   ("accuracy", JInt 10)]]); reflexivity.
Defined.

(** *** The times and the other candidates of a place visit *)

(** X29: The place visit built from an object takes its start and end
    times from what [_parse_timestamp_key] reads in the object's
    [duration], so either spelling of a timestamp is accepted; it has one
    candidate location per entry of [otherCandidateLocations], none
    without the key; and its centre coordinates are the E7 decodes of
    [centerLatE7] and [centerLngE7]. *)
Theorem place_visit_times_and_candidates `{Collaborators}
  (d : list (string * Json)) (v : PlaceVisit.t) :
  _parse_place_visit (JDict d) = Ok (Some v) ->
  (exists duration,
     lookup "duration" d = Some duration
     /\ _parse_timestamp_key duration "startTimestamp"
        = Ok (PlaceVisit.startTime v)
     /\ _parse_timestamp_key duration "endTimestamp"
        = Ok (PlaceVisit.endTime v))
  /\ (lookup "otherCandidateLocations" d = None ->
      PlaceVisit.otherCandidateLocations v = [])
  /\ (forall l, lookup "otherCandidateLocations" d = Some (JList l) ->
      mapM CandidateLocation.from_dict l
      = Ok (PlaceVisit.otherCandidateLocations v)
      /\ List.length (PlaceVisit.otherCandidateLocations v)
         = List.length l)
  /\ (forall f, PlaceVisit.centerLat v = Some f ->
      exists x, lookup "centerLatE7" d = Some x /\ e7_of_float x = Ok f)
  /\ (forall f, PlaceVisit.centerLng v = Some f ->
      exists x, lookup "centerLngE7" d = Some x /\ e7_of_float x = Ok f).
Proof.
  intros Hv. unfold _parse_place_visit in Hv.
  apply bind_Ok in Hv as ([k|] & _ & Hv); [discriminate|].
  apply rewrap_KeyError_Ok in Hv. unfold place_visit_body in Hv.
  apply bind_Ok in Hv as (location_json & _ & Hv).
  apply bind_Ok in Hv as ([k|] & _ & Hv); [discriminate|].
  apply bind_Ok in Hv as (location & _ & Hv).
  apply bind_Ok in Hv as (duration & Edur & Hv).
  apply bind_Ok in Hv as (ocl & Eocl & Hv).
  apply bind_Ok in Hv as (pvs & Epvs & Hv).
  apply bind_Ok in Hv as (others & Eothers & Hv).
  rewrite !py_get_dict in Hv. cbn [bind] in Hv.
  apply bind_Ok in Hv as (hasLat & ElatIn & Hv).
  apply bind_Ok in Hv as (centerLat & Elat & Hv).
  apply bind_Ok in Hv as (hasLng & ElngIn & Hv).
  apply bind_Ok in Hv as (centerLng & Elng & Hv).
  apply bind_Ok in Hv as (startTime & Estart & Hv).
  apply bind_Ok in Hv as (endTime & Eend & [= <-]).
  cbn [PlaceVisit.startTime PlaceVisit.endTime
         PlaceVisit.otherCandidateLocations PlaceVisit.centerLat
         PlaceVisit.centerLng].
  cbn [py_getitem py_get py_contains] in Edur, Eocl, ElatIn, ElngIn, Elat,
    Elng.
  split; [|split; [|split; [|split]]].
  - exists duration. destruct (lookup "duration" d); [|discriminate].
    injection Edur as ->. now repeat split.
  - intros Hn. rewrite Hn in Eocl. injection Eocl as <-.
    injection Epvs as <-. now injection Eothers as <-.
  - intros l Hl. rewrite Hl in Eocl. injection Eocl as <-.
    injection Epvs as <-.
    split; [exact Eothers | now apply mapM_length in Eothers].
  - intros f ->. injection ElatIn as <-.
    destruct (lookup "centerLatE7" d) as [x|]; [|discriminate].
    cbn [bind] in Elat. apply bind_Ok in Elat as (f' & Ef & [= <-]).
    now exists x.
  - intros f ->. injection ElngIn as <-.
    destruct (lookup "centerLngE7" d) as [x|]; [|discriminate].
    cbn [bind] in Elng. apply bind_Ok in Elng as (f' & Ef & [= <-]).
    now exists x.
Qed.

Lemma place_visit_times_and_candidates_witness :
  exists duration,
    lookup "duration" (items _TEST_PLACE_VISIT) = Some duration
    /\ _parse_timestamp_key (H := spec_collaborators) duration
         "startTimestamp"
       = Ok (PlaceVisit.startTime test_place_visit_event)
    /\ _parse_timestamp_key (H := spec_collaborators) duration
         "endTimestamp"
       = Ok (PlaceVisit.endTime test_place_visit_event).
Proof.
  refine (proj1 (place_visit_times_and_candidates (H := spec_collaborators)
                   (items _TEST_PLACE_VISIT) test_place_visit_event _)).
  vm_compute. reflexivity.
Defined.
